(** * AIS ingestion and reconciliation: [vessel_tracker/api/live_vessels.py]

    A shallow embedding of the batching, rate-limiting and identity-matching
    code of [live_vessels.py], the properties of it that the design document
    states, and further properties of the module that the code itself shows:
    of the normalisation of frames, of the prepared operations, of a batch
    as a whole, and of the remaining entry points (the legacy single-vessel
    call, the link-record helper and the port query, whose functions of
    [math] are kept abstract).

    Python values are modelled as they arrive from [json.loads] and from the
    registry rows: [None], [int], [float] (IEEE binary64, as Rocq's primitive
    floats), [str] and [datetime]; booleans and nested containers do not
    occur in the fields the code reads and are left out.  A string is a
    sequence of code points below 256.  Exceptions are values of [result];
    a function that can raise returns one.  Dictionaries are finite maps
    from field names to values; the two process-wide dictionaries whose
    iteration order is observable ([vessel_cache], [update_queue]) are
    insertion-ordered association lists.  The clock ([time.time()],
    [datetime.now()]) and [frappe.generate_hash] are read once per loop
    iteration and passed in. *)

From Stdlib Require Import ZArith String Ascii Floats DecimalString DecimalZ Lia.
From stdpp Require Import gmap strings list fin_maps sorting.

Set Warnings "-inexact-float,-abstract-large-number".
Local Open Scope string_scope.

(* ===================================================================== *)
(** ** Python values, exceptions and built-ins *)
(* ===================================================================== *)

Inductive pyval : Type :=
  | PNone
  | PInt (z : Z)
  | PFloat (f : float)
  | PStr (s : string)
  | PDatetime (t : Z).   (* microseconds since the epoch *)

Inductive pyexn : Type :=
  | TypeError
  | ValueError
  | OverflowError
  | AttributeError
  | KeyError
  | DbError (msg : string).

Inductive result (A : Type) : Type :=
  | Ok (a : A)
  | Raise (e : pyexn).
Arguments Ok {A} a.
Arguments Raise {A} e.

#[global] Instance result_ret : MRet result := fun A a => Ok a.
#[global] Instance result_bind : MBind result := fun A B f m =>
  match m with
  | Ok a => f a
  | Raise e => Raise e
  end.

(** The parts of the Python runtime that the code calls and that are not
    modelled here: parsing a string as a float ([float(s)]), and printing a
    float or a datetime ([str(x)]). *)
Class PyRuntime : Type := {
  float_of_str : string → option float;
  str_of_float : float → string;
  str_of_datetime : Z → string
}.

Abbreviation dict := (gmap string pyval).

(** [d.get(k)] and [d.get(k, dflt)]. *)
Definition dget (d : dict) (k : string) : pyval := default PNone (d !! k).
Definition dget_or (d : dict) (k : string) (dflt : pyval) : pyval := default dflt (d !! k).

(** Truth value of an object: [None], [0], [0.0] and [''] are false. *)
Definition truthy (v : pyval) : bool :=
  match v with
  | PNone => false
  | PInt z => negb (z =? 0)%Z
  | PFloat f => negb (PrimFloat.eqb f 0%float)
  | PStr s => negb (String.eqb s "")
  | PDatetime _ => true
  end.

(** [a or b]. *)
Definition py_or (a b : pyval) : pyval := if truthy a then a else b.

(** [float(n)] for an integer: correctly rounded, infinite when out of range. *)
Definition float_of_Z (z : Z) : float :=
  SF2Prim (binary_normalize prec emax z 0 false).

(** [str(n)] for an integer. *)
Definition str_of_Z (z : Z) : string := NilEmpty.string_of_int (Z.to_int z).

Section Builtins.
Context `{PyRuntime}.

(** [float(v)]. *)
Definition py_float (v : pyval) : result float :=
  match v with
  | PNone => Raise TypeError
  | PInt z =>
      let f := float_of_Z z in
      if PrimFloat.is_infinity f then Raise OverflowError else Ok f
  | PFloat f => Ok f
  | PStr s =>
      match float_of_str s with
      | Some f => Ok f
      | None => Raise ValueError
      end
  | PDatetime _ => Raise TypeError
  end.

(** [str(v)]. *)
Definition py_str (v : pyval) : string :=
  match v with
  | PNone => "None"
  | PInt z => str_of_Z z
  | PFloat f => str_of_float f
  | PStr s => s
  | PDatetime t => str_of_datetime t
  end.

End Builtins.

(** [isinstance(v, int)]. *)
Definition is_int (v : pyval) : bool :=
  match v with PInt _ => true | _ => false end.

(** [v == k] for an integer literal [k] (an int and a float compare by value). *)
Definition py_eq_int (v : pyval) (k : Z) : bool :=
  match v with
  | PInt z => (z =? k)%Z
  | PFloat f => PrimFloat.eqb f (float_of_Z k)
  | _ => false
  end.

(** [lo <= v <= hi] for integer literals; ordering a non-number raises. *)
Definition py_between (lo : Z) (v : pyval) (hi : Z) : result bool :=
  match v with
  | PInt z => Ok ((lo <=? z)%Z && (z <=? hi)%Z)
  | PFloat f => Ok (PrimFloat.leb (float_of_Z lo) f && PrimFloat.leb f (float_of_Z hi))
  | _ => Raise TypeError
  end.

(** *** Strings *)

(** Characters removed by [str.strip()]. *)
Definition py_isspace (c : ascii) : bool :=
  let n := nat_of_ascii c in
  (((9 <=? n) && (n <=? 13)) || ((28 <=? n) && (n <=? 32)) || (n =? 133) || (n =? 160))%nat.

Fixpoint lstrip (s : string) : string :=
  match s with
  | EmptyString => EmptyString
  | String c s' => if py_isspace c then lstrip s' else s
  end.

Fixpoint rstrip (s : string) : string :=
  match s with
  | EmptyString => EmptyString
  | String c s' =>
      match rstrip s' with
      | EmptyString => if py_isspace c then EmptyString else String c EmptyString
      | r => String c r
      end
  end.

(** [s.strip()]. *)
Definition strip (s : string) : string := rstrip (lstrip s).

(** [s[:n]]. *)
Fixpoint str_take (n : nat) (s : string) : string :=
  match n, s with
  | S n', String c s' => String c (str_take n' s')
  | _, _ => EmptyString
  end.

Arguments str_take : simpl never.

(** [s.startswith(p)]. *)
Definition startswith (s p : string) : bool := String.prefix p s.

(** [needle in hay]. *)
Fixpoint str_contains (needle hay : string) : bool :=
  String.prefix needle hay ||
  match hay with
  | EmptyString => false
  | String _ hay' => str_contains needle hay'
  end.

(** [sep.join(l)]. *)
Fixpoint str_join (sep : string) (l : list string) : string :=
  match l with
  | [] => ""
  | [x] => x
  | x :: l' => x ++ sep ++ str_join sep l'
  end.

(** *** Insertion-ordered dictionaries *)

Section OrderedDict.
Context {V : Type}.

Fixpoint od_get (k : string) (d : list (string * V)) : option V :=
  match d with
  | [] => None
  | (k', v) :: d' => if String.eqb k' k then Some v else od_get k d'
  end.

(** [d[k] = v]: an existing key keeps its position, a new key goes last. *)
Fixpoint od_set (k : string) (v : V) (d : list (string * V)) : list (string * V) :=
  match d with
  | [] => [(k, v)]
  | (k', v') :: d' =>
      if String.eqb k' k then (k', v) :: d' else (k', v') :: od_set k v d'
  end.

(** [dict(items)]: later items overwrite earlier ones. *)
Definition od_of_items (items : list (string * V)) : list (string * V) :=
  foldl (fun d kv => od_set kv.1 kv.2 d) [] items.

End OrderedDict.

(* ===================================================================== *)
(** ** Message normalisation and the batch queue ([process_ais_message]) *)
(* ===================================================================== *)

(** An incoming frame: [message_data.get('MessageType')], the payloads under
    [message_data.get('Message', {})] and [message_data.get('MetaData', {})]. *)
Record RawFrame : Type := {
  MessageType : option string;
  Message : gmap string dict;
  MetaData : dict
}.

Definition status_map : list (Z * string) :=
  [ (0, "Under way using engine"); (1, "At anchor"); (2, "Not under command");
    (3, "Restricted manoeuvrability"); (4, "Constrained by her draught"); (5, "Moored");
    (6, "Aground"); (7, "Engaged in Fishing"); (8, "Under way sailing"); (15, "Default") ]%Z.

Definition get_navigation_status (status_code : pyval) : string :=
  match List.find (fun kv => py_eq_int status_code kv.1) status_map with
  | Some kv => kv.2
  | None => "Unknown"
  end.

Definition get_vessel_type (type_code : pyval) : result string :=
  b1 ← py_between 30 type_code 32;
  if b1 : bool then Ok "Fishing" else
  b2 ← py_between 60 type_code 69;
  if b2 : bool then Ok "Passenger" else
  b3 ← py_between 70 type_code 79;
  if b3 : bool then Ok "Cargo" else
  b4 ← py_between 80 type_code 89;
  if b4 : bool then Ok "Tanker" else
  Ok "Other".

(** Lines 449-485: the [vessel_data] dictionary built from a frame. *)
Definition vessel_data_of_message (m : RawFrame) : result dict :=
  if decide (MessageType m = Some "PositionReport") then
    let position := default ∅ (Message m !! "PositionReport") in
    let metadata := MetaData m in
    Ok (<["mmsi" := py_or (dget position "UserID") (dget metadata "MMSI")]>
        (<["latitude" := py_or (dget position "Latitude") (dget metadata "latitude")]>
        (<["longitude" := py_or (dget position "Longitude") (dget metadata "longitude")]>
        (<["speed" := dget position "Sog"]>
        (<["course" := dget position "Cog"]>
        (<["status" := PStr (get_navigation_status
                               (dget_or position "NavigationalStatus" (PInt 15)))]>
        (<["vessel_name" := dget metadata "ShipName"]> ∅)))))))
  else if decide (MessageType m = Some "ShipStaticData") then
    let static := default ∅ (Message m !! "ShipStaticData") in
    let metadata := MetaData m in
    vessel_type ← get_vessel_type (dget_or static "Type" (PInt 0));
    let vessel_data : dict :=
      <["mmsi" := py_or (dget static "UserID") (dget metadata "MMSI")]>
      (<["vessel_name" := py_or (dget static "Name") (dget metadata "ShipName")]>
      (<["destination" := dget static "Destination"]>
      (<["call_sign" := dget static "CallSign"]>
      (<["imo_number" := dget static "ImoNumber"]>
      (<["vessel_type" := PStr vessel_type]> ∅))))) in
    if truthy (dget metadata "latitude") && truthy (dget metadata "longitude") then
      Ok (<["latitude" := dget metadata "latitude"]>
          (<["longitude" := dget metadata "longitude"]> vessel_data))
    else Ok vessel_data
  else Ok ∅.

(** The module globals [update_queue] and [last_batch_time]. *)
Record QueueState : Type := {
  update_queue : list (string * dict);
  last_batch_time : float
}.

(** Line 489, [update_queue[mmsi].update(vessel_data)]: [update_queue] is a
    [defaultdict(dict)], and [dict.update] overwrites every key that
    [vessel_data] has, whatever its value. *)
Definition queue_update (mmsi : string) (vessel_data : dict)
    (q : list (string * dict)) : list (string * dict) :=
  od_set mmsi (vessel_data ∪ default ∅ (od_get mmsi q)) q.

(** [process_batch_queue]: drains the queue; the drained list is the
    [vessels_data] argument of the enqueued [update_vessel_ais_batch] job. *)
Definition process_batch_queue (q : list (string * dict))
    : list (string * dict) * option (list dict) :=
  match q with
  | [] => (q, None)
  | _ => ([], Some (q.*2))
  end.

Record ProcessOutcome : Type := {
  po_state : QueueState;
  po_job : option (list dict);
  po_status : string
}.

Section Queue.
Context `{PyRuntime}.

(** [process_ais_message], with the globals passed in and out and
    [time.time()] as [current_time]; [po_job] is the batch handed to
    [frappe.enqueue], if any.  An exception leaves the state as it was and
    gives the status [error]. *)
Definition process_ais_message (st : QueueState) (message_data : RawFrame)
    (current_time : float) : ProcessOutcome :=
  match vessel_data_of_message message_data with
  | Raise _ => {| po_state := st; po_job := None; po_status := "error" |}
  | Ok vessel_data =>
      if truthy (dget vessel_data "mmsi") then
        let mmsi := py_str (dget vessel_data "mmsi") in
        let q := queue_update mmsi vessel_data (update_queue st) in
        if PrimFloat.ltb 10%float (PrimFloat.sub current_time (last_batch_time st))
           || (50 <=? length q)%nat
        then
          let '(q', job) := process_batch_queue q in
          {| po_state := {| update_queue := q'; last_batch_time := current_time |};
             po_job := job; po_status := "success" |}
        else
          {| po_state := {| update_queue := q; last_batch_time := last_batch_time st |};
             po_job := None; po_status := "success" |}
      else {| po_state := st; po_job := None; po_status := "success" |}
  end.

End Queue.

(* ===================================================================== *)
(** ** The change gate ([should_update_vessel]) and its cache *)
(* ===================================================================== *)

Definition MAX_CACHE_SIZE : nat := 10000.

(** The number of entries kept by an eviction (the literal of line 205). *)
Definition RETAINED : nat := 5000.

(** [sorted(items, key=lambda x: x[1], reverse=True)]: a stable sort on
    decreasing timestamps (items with equal timestamps keep their order). *)
Fixpoint insert_desc (x : string * float) (l : list (string * float))
    : list (string * float) :=
  match l with
  | [] => [x]
  | y :: l' => if PrimFloat.ltb x.2 y.2 then y :: insert_desc x l' else x :: l
  end.

Definition sorted_desc (items : list (string * float)) : list (string * float) :=
  foldr insert_desc [] items.

(** Lines 201-205: once the cache holds more than [MAX_CACHE_SIZE] entries it
    is rebuilt from the first 5000 items of the sorted list. *)
Definition evict (vessel_cache : list (string * float)) : list (string * float) :=
  if (MAX_CACHE_SIZE <? length vessel_cache)%nat
  then od_of_items (take RETAINED (sorted_desc vessel_cache))
  else vessel_cache.

(** [if not existing_record]: [None] and the empty dictionary are false. *)
Definition record_truthy (existing_record : option dict) : bool :=
  match existing_record with
  | Some r => negb (bool_decide (r = ∅))
  | None => false
  end.

Arguments record_truthy : simpl never.

Section ChangeGate.
Context `{PyRuntime}.

(** Lines 217-218 inside the [try]: the four conversions, in program order. *)
Definition position_changes (new_data existing_record : dict) : result (float * float) :=
  la ← py_float (dget new_data "latitude");
  ea ← py_float (dget_or existing_record "ais_last_position_lat" (PInt 0));
  lo ← py_float (dget new_data "longitude");
  eo ← py_float (dget_or existing_record "ais_last_position_lon" (PInt 0));
  Ok (PrimFloat.abs (PrimFloat.sub la ea), PrimFloat.abs (PrimFloat.sub lo eo)).

(** Lines 226-231, the forced refresh. *)
Definition force_update (cache_key : string) (last_update : option float)
    (current_time : float) (vessel_cache : list (string * float))
    : list (string * float) * result bool :=
  if match last_update with
     | None => true
     | Some t => PrimFloat.eqb t 0%float
                 || PrimFloat.ltb 300%float (PrimFloat.sub current_time t)
     end
  then (od_set cache_key current_time vessel_cache, Ok true)
  else (vessel_cache, Ok false).

(** Line 211: [last_update and (current_time - last_update) < 30]. *)
Definition rate_limited (last_update : option float) (current_time : float) : bool :=
  match last_update with
  | Some t => negb (PrimFloat.eqb t 0%float)
              && PrimFloat.ltb (PrimFloat.sub current_time t) 30%float
  | None => false
  end.

(** [should_update_vessel], with the global [vessel_cache] passed in and out
    and [time.time()] as [current_time]. *)
Definition should_update_vessel (mmsi : string) (new_data : dict)
    (existing_record : option dict) (current_time : float)
    (vessel_cache : list (string * float)) : list (string * float) * result bool :=
  if negb (record_truthy existing_record) then (vessel_cache, Ok true) else
  let existing_record := default ∅ existing_record in
  let cache_key := "vessel_update_" ++ mmsi in
  let vessel_cache := evict vessel_cache in
  let last_update := od_get cache_key vessel_cache in
  if rate_limited last_update current_time then (vessel_cache, Ok false) else
  if truthy (dget new_data "latitude") && truthy (dget new_data "longitude") then
    match position_changes new_data existing_record with
    | Ok (lat_change, lon_change) =>
        if PrimFloat.ltb 0.001%float lat_change || PrimFloat.ltb 0.001%float lon_change
        then (od_set cache_key current_time vessel_cache, Ok true)
        else force_update cache_key last_update current_time vessel_cache
    | Raise ValueError | Raise TypeError =>
        force_update cache_key last_update current_time vessel_cache
    | Raise e => (vessel_cache, Raise e)
    end
  else force_update cache_key last_update current_time vessel_cache.

End ChangeGate.

(* ===================================================================== *)
(** ** Prepared operations *)
(* ===================================================================== *)

(** The result of [prepare_vessel_update]: the statement
    [UPDATE `tabVessels` SET <set_clauses> WHERE name = %(vessel_name)s] and
    its parameters.  A clause [(column, p)] stands for the text
    [column = %(p)s]. *)
Record UpdateStmt : Type := {
  set_clauses : list (string * string);
  upd_values : dict
}.

Definition clause_text (c : string * string) : string := c.1 ++ " = %(" ++ c.2 ++ ")s".

Definition update_sql (u : UpdateStmt) : string :=
  "UPDATE `tabVessels` SET " ++ str_join ", " (clause_text <$> set_clauses u)
  ++ " WHERE name = %(vessel_name)s".

(** The result of [prepare_vessel_insert]: an [INSERT INTO `tabVessels`]
    whose columns are exactly the keys of [ins_values]. *)
Record InsertStmt : Type := { ins_values : dict }.

(** The result of [prepare_mmsi_update]: the arguments of
    [frappe.db.set_value("Vessels", name, data)]. *)
Record SetValue : Type := {
  sv_name : pyval;
  sv_data : dict
}.

Inductive update_op : Type :=
  | SqlFormat (u : UpdateStmt)
  | DataFormat (d : SetValue).

(** [l.append(x)]. *)
Definition py_append {A} (l : list A) (x : A) : list A := (l ++ [x])%list.

(** [v is not None]. *)
Definition is_not_none (v : pyval) : bool :=
  match v with PNone => false | _ => true end.

(** [v.strip()], [v.startswith(p)], [v[:n]]: defined on strings only. *)
Definition py_strip (v : pyval) : result string :=
  match v with PStr s => Ok (strip s) | _ => Raise AttributeError end.

Definition py_startswith (v : pyval) (p : string) : result bool :=
  match v with PStr s => Ok (startswith s p) | _ => Raise AttributeError end.

Definition py_slice_to (n : nat) (v : pyval) : result pyval :=
  match v with PStr s => Ok (PStr (str_take n s)) | _ => Raise TypeError end.

(** [s != v] for a string [s]. *)
Definition str_ne_val (s : string) (v : pyval) : bool :=
  match v with PStr s' => negb (String.eqb s s') | _ => true end.

(** The genuine-IMO test, [v.get('imo_number') and isinstance(v.get('imo_number'), int)]. *)
Definition genuine_imo (vessel_data : dict) : option Z :=
  match dget vessel_data "imo_number" with
  | PInt z => if (z =? 0)%Z then None else Some z
  | _ => None
  end.

Section Prepare.
Context `{PyRuntime}.

(** One [if vessel_data.get(k): ...float(vessel_data[k])] block (or its
    [is not None] variant, by [test]) adding a clause and a parameter. *)
Definition add_float_clause (test : pyval → bool) (vessel_data : dict)
    (k column : string) (acc : list (string * string) * dict)
    : result (list (string * string) * dict) :=
  if test (dget vessel_data k) then
    f ← py_float (dget vessel_data k);
    Ok (py_append acc.1 (column, k), <[k := PFloat f]> acc.2)
  else Ok acc.

Definition prepare_vessel_update (mmsi : string) (vessel_data existing_record : dict)
    (now : Z) : result UpdateStmt :=
  name ← match existing_record !! "name" with
          | Some v => Ok v
          | None => Raise KeyError
          end;
  acc ← add_float_clause truthy vessel_data "latitude" "ais_last_position_lat"
          ([], {["vessel_name" := name]});
  acc ← add_float_clause truthy vessel_data "longitude" "ais_last_position_lon" acc;
  acc ← add_float_clause is_not_none vessel_data "speed" "ais_speed" acc;
  acc ← add_float_clause is_not_none vessel_data "course" "ais_course" acc;
  let acc : list (string * string) * dict :=
    if truthy (dget vessel_data "status")
    then (py_append acc.1 ("ais_status", "status"),
          <["status" := dget vessel_data "status"]> acc.2)
    else acc in
  acc ← (if truthy (dget vessel_data "destination") then
           let d := dget vessel_data "destination" in
           v ← (if (250 <? String.length (py_str d))%nat then py_slice_to 250 d else Ok d);
           Ok (py_append acc.1 ("ais_destination", "destination"), <["destination" := v]> acc.2)
         else Ok acc);
  acc ← (if truthy (dget vessel_data "vessel_name") then
           let en := dget existing_record "vessel_name" in
           replace ← (if negb (truthy en) then Ok true
                      else py_startswith en "Unknown Vessel");
           if replace : bool then
             s ← py_strip (dget vessel_data "vessel_name");
             let clean_name := str_take 140 s in
             Ok (py_append acc.1 ("vessel_name", "new_vessel_name"),
                 <["new_vessel_name" := PStr clean_name]> acc.2)
           else Ok acc
         else Ok acc);
  let acc : list (string * string) * dict :=
    match genuine_imo vessel_data with
    | Some z => (py_append acc.1 ("imo_number", "imo_number"),
                 <["imo_number" := PStr (str_of_Z z)]> acc.2)
    | None => acc
    end in
  Ok {| set_clauses := py_append (py_append acc.1 ("ais_last_update", "update_time"))
                                  ("modified", "modified_time");
        upd_values := <["modified_time" := PDatetime now]>
                      (<["update_time" := PDatetime now]> acc.2) |}.

(** Lines 309-314: the [while frappe.db.exists(...)] loop.  [taken] is
    [frappe.db.exists('Vessels', {'imo_number': _})]; the loop is run for at
    most [fuel] tests. *)
Fixpoint free_imo (taken : string → bool) (base_imo imo_number : string)
    (counter : Z) (fuel : nat) : string :=
  match fuel with
  | O => imo_number
  | S fuel' =>
      if taken imo_number
      then free_imo taken base_imo (base_imo ++ "-" ++ str_of_Z counter) (counter + 1)%Z fuel'
      else imo_number
  end.

(** Lines 294-314: the IMO number of a new record. *)
Definition insert_imo_number (taken : string → bool) (fuel : nat)
    (mmsi : string) (vessel_data : dict) : string :=
  let imo_number :=
    match genuine_imo vessel_data with
    | Some z =>
        let proposed_imo := str_of_Z z in
        if taken proposed_imo then "AIS-" ++ mmsi else proposed_imo
    | None => "AIS-" ++ mmsi
    end in
  if startswith imo_number "AIS-"
  then free_imo taken imo_number imo_number 1 fuel
  else imo_number.

(** Lines 289-292: the name of a new record. *)
Definition insert_vessel_name (mmsi : string) (vessel_data : dict) : result string :=
  let vessel_name_raw := py_or (dget_or vessel_data "vessel_name" (PStr "")) (PStr "") in
  vessel_name ← (if truthy vessel_name_raw then py_strip vessel_name_raw
                 else Ok ("Unknown Vessel " ++ mmsi));
  Ok (if negb (String.eqb vessel_name "") then str_take 140 vessel_name
      else "Unknown Vessel " ++ mmsi).

Definition add_float_value (test : pyval → bool) (vessel_data : dict)
    (k column : string) (values : dict) : result dict :=
  if test (dget vessel_data k) then
    f ← py_float (dget vessel_data k);
    Ok (<[column := PFloat f]> values)
  else Ok values.

(** Lines 339-345 and 381-386: status and destination of an insert or an
    identity merge. *)
Definition add_status_destination (vessel_data : dict) (values : dict) : dict :=
  let values :=
    if truthy (dget vessel_data "status")
    then <["ais_status" := dget vessel_data "status"]> values else values in
  if truthy (dget vessel_data "destination") then
    let dest := str_take 250 (strip (py_str (dget vessel_data "destination"))) in
    if negb (String.eqb dest "") then <["ais_destination" := PStr dest]> values else values
  else values.

(** [prepare_vessel_insert]; [taken] and [fuel] as in [free_imo], [new_name]
    is [frappe.generate_hash(length=10)]. *)
Definition prepare_vessel_insert (taken : string → bool) (fuel : nat)
    (new_name : string) (now : Z) (mmsi : string) (vessel_data : dict)
    : result InsertStmt :=
  vessel_name ← insert_vessel_name mmsi vessel_data;
  let imo_number := insert_imo_number taken fuel mmsi vessel_data in
  let values : dict :=
    <["name" := PStr new_name]> (<["vessel_name" := PStr vessel_name]>
    (<["imo_number" := PStr imo_number]> (<["ais_mmsi" := PStr mmsi]>
    (<["grt" := PStr "0"]> (<["dwt" := PStr "0"]>
    (<["ais_last_update" := PDatetime now]> (<["creation" := PDatetime now]>
    (<["modified" := PDatetime now]> (<["owner" := PStr "Administrator"]>
    (<["modified_by" := PStr "Administrator"]> ∅)))))))))) in
  values ← add_float_value truthy vessel_data "latitude" "ais_last_position_lat" values;
  values ← add_float_value truthy vessel_data "longitude" "ais_last_position_lon" values;
  values ← add_float_value is_not_none vessel_data "speed" "ais_speed" values;
  values ← add_float_value is_not_none vessel_data "course" "ais_course" values;
  Ok {| ins_values := add_status_destination vessel_data values |}.

Definition prepare_mmsi_update (mmsi : string) (vessel_data existing_record : dict)
    (now : Z) : result SetValue :=
  let update_data : dict :=
    <["ais_mmsi" := PStr mmsi]> (<["modified" := PDatetime now]>
    (<["modified_by" := PStr "Administrator"]> ∅)) in
  let update_data :=
    if truthy (dget vessel_data "vessel_name") then
      let vessel_name := str_take 250 (strip (py_str (dget vessel_data "vessel_name"))) in
      if negb (String.eqb vessel_name "")
         && str_ne_val vessel_name (dget existing_record "vessel_name")
      then <["vessel_name" := PStr vessel_name]> update_data
      else update_data
    else update_data in
  update_data ← add_float_value truthy vessel_data "latitude" "ais_last_position_lat" update_data;
  update_data ← add_float_value truthy vessel_data "longitude" "ais_last_position_lon" update_data;
  update_data ← add_float_value is_not_none vessel_data "speed" "ais_speed" update_data;
  update_data ← add_float_value is_not_none vessel_data "course" "ais_course" update_data;
  let update_data := add_status_destination vessel_data update_data in
  Ok {| sv_name := dget existing_record "name";
        sv_data := <["ais_last_update" := PDatetime now]> update_data |}.

End Prepare.

(* ===================================================================== *)
(** ** The registry *)
(* ===================================================================== *)

(** Modelled from the spec: the registry store, the table [tabVessels] whose
    DocType definition and database engine are not part of the Python
    sources.  A registry is the list of its rows; [name] is the primary key
    (the stable identifier) and [imo_number] is unique, as the data model
    requires.  The functions below are the store operations the code calls:
    the [SELECT ... WHERE ais_mmsi IN ... OR imo_number IN ...] of
    [update_vessel_ais_batch], [frappe.db.exists], the prepared [UPDATE] and
    [INSERT] statements and [frappe.db.set_value]. *)
Abbreviation registry := (list dict).

Definition sql_in (v : pyval) (l : list string) : bool :=
  match v with
  | PStr s => bool_decide (s ∈ l)
  | _ => false
  end.

Definition sql_eq (v w : pyval) : bool :=
  match v, w with
  | PStr s, PStr s' => String.eqb s s'
  | _, _ => false
  end.

Definition selected_columns : list string :=
  ["name"; "ais_mmsi"; "ais_last_update"; "vessel_name"; "imo_number"].

Definition select_record (row : dict) : dict :=
  list_to_map ((fun c => (c, dget row c)) <$> selected_columns).

Definition db_select_existing (reg : registry) (mmsi_list imo_list : list string)
    : list dict :=
  select_record <$>
    List.filter (fun row => sql_in (dget row "ais_mmsi") mmsi_list
                            || sql_in (dget row "imo_number") imo_list) reg.

Definition db_exists_imo (reg : registry) (imo_number : string) : bool :=
  existsb (fun row => sql_eq (dget row "imo_number") (PStr imo_number)) reg.

Definition db_sql_update (reg : registry) (u : UpdateStmt) : registry + string :=
  inl ((fun row : dict =>
          if sql_eq (dget row "name") (dget (upd_values u) "vessel_name")
          then foldl (fun (r : dict) c => <[c.1 := dget (upd_values u) c.2]> r)
                     row (set_clauses u)
          else row) <$> reg).

Definition db_set_value (reg : registry) (d : SetValue) : registry + string :=
  inl ((fun row : dict =>
          if sql_eq (dget row "name") (sv_name d) then sv_data d ∪ row else row) <$> reg).

Definition duplicate_entry (value key : string) : string :=
  "Duplicate entry '" ++ value ++ "' for key '" ++ key ++ "'".

Definition db_sql_insert (reg : registry) (i : InsertStmt) : registry + string :=
  let row := ins_values i in
  if existsb (fun r => sql_eq (dget r "name") (dget row "name")) reg
  then inr (duplicate_entry (match dget row "name" with PStr s => s | _ => "" end) "PRIMARY")
  else if existsb (fun r => sql_eq (dget r "imo_number") (dget row "imo_number")) reg
  then inr (duplicate_entry (match dget row "imo_number" with PStr s => s | _ => "" end)
                            "imo_number")
  else inl (reg ++ [row])%list.

(* ===================================================================== *)
(** ** Batch execution ([execute_batch_updates], [execute_batch_inserts]) *)
(* ===================================================================== *)

(** A database connection inside a transaction: the last committed state and
    the state the statements of the open transaction have produced. *)
Record Txn (DB : Type) : Type := {
  committed : DB;
  working : DB
}.
Arguments committed {DB} t.
Arguments working {DB} t.

Definition db_commit {DB} (t : Txn DB) : Txn DB :=
  {| committed := working t; working := working t |}.

Definition db_rollback {DB} (t : Txn DB) : Txn DB :=
  {| committed := committed t; working := committed t |}.

(** [str(e)]: the message of a database error (the text of the built-in
    exceptions is only named). *)
Definition exn_str (e : pyexn) : string :=
  match e with
  | DbError msg => msg
  | TypeError => "TypeError"
  | ValueError => "ValueError"
  | OverflowError => "OverflowError"
  | AttributeError => "AttributeError"
  | KeyError => "KeyError"
  end.

(** Line 429: the test that tells a duplicate-IMO failure from any other. *)
Definition is_duplicate_imo (msg : string) : bool :=
  str_contains "Duplicate entry" msg && str_contains "imo_number" msg.

Record ExecOutcome (DB : Type) : Type := {
  eo_txn : Txn DB;
  eo_log : list string;
  eo_result : result unit
}.
Arguments eo_txn {DB} e.
Arguments eo_log {DB} e.
Arguments eo_result {DB} e.

Section Executor.
Context `{PyRuntime} {DB : Type}.
Variable sql_update : DB → UpdateStmt → DB + string.
Variable set_value : DB → SetValue → DB + string.
Variable sql_insert : DB → InsertStmt → DB + string.

(** The [for update in updates] loop; the first failing statement raises. *)
Fixpoint run_updates (updates : list update_op) (db : DB) : DB * result unit :=
  match updates with
  | [] => (db, Ok ())
  | update :: rest =>
      match match update with
            | SqlFormat u => sql_update db u
            | DataFormat d => set_value db d
            end with
      | inl db' => run_updates rest db'
      | inr msg => (db, Raise (DbError msg))
      end
  end.

Definition execute_batch_updates (updates : list update_op) (t : Txn DB) : ExecOutcome DB :=
  match updates with
  | [] => {| eo_txn := t; eo_log := []; eo_result := Ok () |}
  | _ =>
      match run_updates updates (working t) with
      | (db, Ok _) =>
          {| eo_txn := db_commit {| committed := committed t; working := db |};
             eo_log := []; eo_result := Ok () |}
      | (db, Raise e) =>
          {| eo_txn := db_rollback {| committed := committed t; working := db |};
             eo_log := ["Batch update error: " ++ exn_str e]; eo_result := Raise e |}
      end
  end.

(** The [for insert in inserts] loop with its inner [try]: a duplicate-IMO
    failure prints a line and continues, any other failure is raised again. *)
Fixpoint run_inserts (inserts : list InsertStmt) (db : DB) (log : list string)
    : DB * list string * result unit :=
  match inserts with
  | [] => (db, log, Ok ())
  | insert :: rest =>
      match sql_insert db insert with
      | inl db' => run_inserts rest db' log
      | inr msg =>
          if is_duplicate_imo msg then
            run_inserts rest db
              (py_append log ("Duplicate IMO detected, skipping insert for MMSI: "
                              ++ py_str (dget (ins_values insert) "ais_mmsi")))
          else (db, log, Raise (DbError msg))
      end
  end.

Definition execute_batch_inserts (inserts : list InsertStmt) (t : Txn DB) : ExecOutcome DB :=
  match inserts with
  | [] => {| eo_txn := t; eo_log := []; eo_result := Ok () |}
  | _ =>
      match run_inserts inserts (working t) [] with
      | (db, log, Ok _) =>
          {| eo_txn := db_commit {| committed := committed t; working := db |};
             eo_log := log; eo_result := Ok () |}
      | (db, log, Raise e) =>
          {| eo_txn := db_rollback {| committed := committed t; working := db |};
             eo_log := py_append log ("Batch insert error: " ++ exn_str e);
             eo_result := Raise e |}
      end
  end.

End Executor.

(* ===================================================================== *)
(** ** Identity resolution and the batch ([update_vessel_ais_batch]) *)
(* ===================================================================== *)

(** What one iteration of the loop of lines 148-173 contributes. *)
Inductive action : Type :=
  | Skip
  | AddUpdate (u : update_op)
  | AddInsert (i : InsertStmt).

(** The readings one iteration takes from its environment: [time.time()],
    [datetime.now()] and [frappe.generate_hash(length=10)]. *)
Record StepEnv : Type := {
  env_time : float;
  env_now : Z;
  env_hash : string
}.

Record BatchOutcome : Type := {
  bo_registry : registry;
  bo_cache : list (string * float);
  bo_log : list string;
  bo_status : result nat
}.

Section Batch.
Context `{PyRuntime}.

(** Line 122. *)
Definition mmsi_list_of (vessels_data : list dict) : list string :=
  (fun v => py_str (dget v "mmsi")) <$> List.filter (fun v => truthy (dget v "mmsi")) vessels_data.

(** Lines 125-128. *)
Definition imo_numbers_of (vessels_data : list dict) : list string :=
  omap (fun v => str_of_Z <$> genuine_imo v) vessels_data.

(** Lines 139-142, one record.  A record whose [ais_mmsi] is not a string
    (a [NULL] column) is stored under a key that no string looks up. *)
Definition index_record (existing_vessels : gmap string dict) (record : dict)
    : result (gmap string dict) :=
  let existing_vessels :=
    match dget record "ais_mmsi" with
    | PStr k => <[k := record]> existing_vessels
    | _ => existing_vessels
    end in
  let imo := dget record "imo_number" in
  if truthy imo then
    ais ← py_startswith imo "AIS-";
    if ais : bool then Ok existing_vessels
    else Ok (<["IMO-" ++ py_str imo := record]> existing_vessels)
  else Ok existing_vessels.

Fixpoint index_records (existing_vessels : gmap string dict) (records : list dict)
    : result (gmap string dict) :=
  match records with
  | [] => Ok existing_vessels
  | record :: rest =>
      existing_vessels ← index_record existing_vessels record;
      index_records existing_vessels rest
  end.

(** Lines 119-142. *)
Definition collect_existing (reg : registry) (vessels_data : list dict)
    : result (gmap string dict) :=
  let mmsi_list := mmsi_list_of vessels_data in
  let imo_numbers := imo_numbers_of vessels_data in
  match mmsi_list with
  | [] => Ok ∅
  | _ => index_records ∅ (db_select_existing reg mmsi_list (imo_numbers ++ ["dummy"])%list)
  end.

(** Lines 149-173: the body of the loop for one [vessel_data]. *)
Definition batch_step (reg : registry) (existing_vessels : gmap string dict)
    (env : StepEnv) (vessel_data : dict) (vessel_cache : list (string * float))
    : list (string * float) * result action :=
  let mmsi := py_str (dget vessel_data "mmsi") in
  if String.eqb mmsi "" then (vessel_cache, Ok Skip) else
  let existing_record := existing_vessels !! mmsi in
  let by_imo :=
    if negb (record_truthy existing_record)
    then (fun z => existing_vessels !! ("IMO-" ++ str_of_Z z)) <$> genuine_imo vessel_data
    else None in
  let existing_record := default existing_record by_imo in
  if bool_decide (is_Some by_imo) && record_truthy existing_record then
    (vessel_cache,
     d ← prepare_mmsi_update mmsi vessel_data (default ∅ existing_record) (env_now env);
     Ok (AddUpdate (DataFormat d)))
  else
    let '(vessel_cache, accepted) :=
      should_update_vessel mmsi vessel_data existing_record (env_time env) vessel_cache in
    (vessel_cache,
     accepted ← accepted;
     if accepted : bool then
       if record_truthy existing_record then
         u ← prepare_vessel_update mmsi vessel_data (default ∅ existing_record) (env_now env);
         Ok (AddUpdate (SqlFormat u))
       else
         i ← prepare_vessel_insert (db_exists_imo reg) (S (length reg)) (env_hash env)
                (env_now env) mmsi vessel_data;
         Ok (AddInsert i)
     else Ok Skip).

(** Lines 145-173: the loop; [envs n] is the environment of iteration [n]. *)
Fixpoint batch_loop (reg : registry) (existing_vessels : gmap string dict)
    (envs : nat → StepEnv) (n : nat) (vessels_data : list dict)
    (vessel_cache : list (string * float))
    (updates : list update_op) (inserts : list InsertStmt)
    : list (string * float) * result (list update_op * list InsertStmt) :=
  match vessels_data with
  | [] => (vessel_cache, Ok (updates, inserts))
  | vessel_data :: rest =>
      match batch_step reg existing_vessels (envs n) vessel_data vessel_cache with
      | (vessel_cache, Ok Skip) =>
          batch_loop reg existing_vessels envs (S n) rest vessel_cache updates inserts
      | (vessel_cache, Ok (AddUpdate u)) =>
          batch_loop reg existing_vessels envs (S n) rest vessel_cache
            (py_append updates u) inserts
      | (vessel_cache, Ok (AddInsert i)) =>
          batch_loop reg existing_vessels envs (S n) rest vessel_cache
            updates (py_append inserts i)
      | (vessel_cache, Raise e) => (vessel_cache, Raise e)
      end
  end.

(** [update_vessel_ais_batch]: the registry and the cache go in and out; the
    status is [Ok updated_count] for [{"status": "success", ...}] and the
    exception caught by the outer [try] for [{"status": "error", ...}]. *)
Definition update_vessel_ais_batch (reg : registry) (vessel_cache : list (string * float))
    (envs : nat → StepEnv) (vessels_data : list dict) : BatchOutcome :=
  match vessels_data with
  | [] => {| bo_registry := reg; bo_cache := vessel_cache; bo_log := [];
             bo_status := Ok 0 |}
  | _ =>
      match collect_existing reg vessels_data with
      | Raise e => {| bo_registry := reg; bo_cache := vessel_cache; bo_log := [];
                      bo_status := Raise e |}
      | Ok existing_vessels =>
          match batch_loop reg existing_vessels envs 0 vessels_data vessel_cache [] [] with
          | (vessel_cache, Raise e) =>
              {| bo_registry := reg; bo_cache := vessel_cache; bo_log := [];
                 bo_status := Raise e |}
          | (vessel_cache, Ok (updates, inserts)) =>
              let t := {| committed := reg; working := reg |} in
              let eu := execute_batch_updates db_sql_update db_set_value updates t in
              match eo_result eu with
              | Raise e =>
                  {| bo_registry := committed (eo_txn eu); bo_cache := vessel_cache;
                     bo_log := eo_log eu; bo_status := Raise e |}
              | Ok _ =>
                  let ei := execute_batch_inserts db_sql_insert inserts (eo_txn eu) in
                  {| bo_registry := committed (eo_txn ei); bo_cache := vessel_cache;
                     bo_log := (eo_log eu ++ eo_log ei)%list;
                     bo_status :=
                       match eo_result ei with
                       | Raise e => Raise e
                       | Ok _ => Ok (length updates + length inserts)
                       end |}
              end
          end
      end
  end.

End Batch.

(** [update_vessel_ais] (lines 573-588), the legacy entry point: one record
    built from the arguments (the optional ones are [None] when the caller
    leaves them out) and handed to [update_vessel_ais_batch]. *)
Definition update_vessel_ais `{PyRuntime} (reg : registry)
    (vessel_cache : list (string * float)) (envs : nat → StepEnv)
    (mmsi latitude longitude speed course status vessel_name destination : pyval)
    : BatchOutcome :=
  let vessel_data : dict :=
    <["mmsi" := mmsi]> (<["latitude" := latitude]> (<["longitude" := longitude]>
    (<["speed" := speed]> (<["course" := course]> (<["status" := status]>
    (<["vessel_name" := vessel_name]> (<["destination" := destination]> ∅))))))) in
  update_vessel_ais_batch reg vessel_cache envs [vessel_data].

(* ===================================================================== *)
(** ** Link records ([create_or_get_link_record]) *)
(* ===================================================================== *)

Record LinkOutcome (DB : Type) : Type := {
  lo_txn : Txn DB;
  lo_log : list string;
  lo_result : result (option string)
}.
Arguments lo_txn {DB} l.
Arguments lo_log {DB} l.
Arguments lo_result {DB} l.

Section LinkRecords.
Context {DB : Type}.

(** [frappe.db.exists(doctype, {"name": value})] and the creation of a
    document ([frappe.new_doc], the assignments and [doc.insert]); either
    can fail with the message of its exception. *)
Variable link_exists : DB → string → string → bool + string.
Variable link_insert : DB → string → string → DB + string.

(** [create_or_get_link_record] (lines 539-570): [Ok None] and [Ok (Some v)]
    are the values returned; the two calls of [strip] outside the [try] raise
    for a value that is not a string. *)
Definition create_or_get_link_record (doctype : string) (field_value : pyval)
    (t : Txn DB) : LinkOutcome DB :=
  if negb (truthy field_value)
  then {| lo_txn := t; lo_log := []; lo_result := Ok None |}
  else
    match py_strip field_value with
    | Raise e => {| lo_txn := t; lo_log := []; lo_result := Raise e |}
    | Ok field_value =>
        if String.eqb field_value ""
        then {| lo_txn := t; lo_log := []; lo_result := Ok None |}
        else
          let failed (msg : string) :=
            {| lo_txn := t;
               lo_log := [("Error creating " ++ doctype ++ " record: " ++ msg)%string];
               lo_result := Ok None |} in
          match link_exists (working t) doctype field_value with
          | inr msg => failed msg
          | inl true => {| lo_txn := t; lo_log := []; lo_result := Ok (Some field_value) |}
          | inl false =>
              if bool_decide (doctype ∈ ["Call Sign"; "Vessel Type"]) then
                match link_insert (working t) doctype field_value with
                | inr msg => failed msg
                | inl db =>
                    {| lo_txn := db_commit {| committed := committed t; working := db |};
                       lo_log := []; lo_result := Ok (Some field_value) |}
                end
              else {| lo_txn := t; lo_log := []; lo_result := Ok None |}
          end
    end.

End LinkRecords.

(* ===================================================================== *)
(** ** Vessels near a port ([get_vessels_near_port], [calculate_distance_km],
       [get_saudi_ports]) *)
(* ===================================================================== *)

(** The functions of Python's [math] module that [calculate_distance_km]
    calls, the power [x ** 2] and [round(x, 2)].  [None] stands for the
    exception of the function: [ValueError] (math domain error) for the
    functions of [math], [OverflowError] for the power. *)
Class MathLib : Type := {
  math_radians : float → float;
  math_sin : float → option float;
  math_cos : float → option float;
  math_asin : float → option float;
  math_sqrt : float → option float;
  float_pow2 : float → option float;
  round2 : float → float
}.

(** The result of a call that raises [e] when it fails. *)
Definition or_raise {A} (e : pyexn) (r : option A) : result A :=
  match r with
  | Some a => Ok a
  | None => Raise e
  end.

(** [x <= n] for a float and an integer, which Python compares exactly. *)
Definition float_le_Z (x : float) (n : Z) : bool :=
  match Prim2SF x with
  | S754_zero _ => (0 <=? n)%Z
  | S754_infinity s => s
  | S754_nan => false
  | S754_finite s m e =>
      let v := if s then Z.neg m else Z.pos m in
      if (0 <=? e)%Z then (v * 2 ^ e <=? n)%Z else (v <=? n * 2 ^ (- e))%Z
  end.

(** [x <= v]: ordering a float against anything but a number raises. *)
Definition py_float_le (x : float) (v : pyval) : result bool :=
  match v with
  | PInt n => Ok (float_le_Z x n)
  | PFloat f => Ok (PrimFloat.leb x f)
  | _ => Raise TypeError
  end.

(** The table of [get_vessels_near_port] (lines 44-50). *)
Definition saudi_ports : list (string * dict) :=
  [ ("Jeddah", {[ "lat" := PFloat 21.4858; "lon" := PFloat 39.1925 ]});
    ("Dammam", {[ "lat" := PFloat 26.3927; "lon" := PFloat 50.1059 ]});
    ("Yanbu", {[ "lat" := PFloat 24.0896; "lon" := PFloat 38.0618 ]});
    ("Jizan", {[ "lat" := PFloat 16.8892; "lon" := PFloat 42.5511 ]});
    ("Jubail", {[ "lat" := PFloat 27.0174; "lon" := PFloat 49.6590 ]}) ].

(** [get_saudi_ports]: the list under the key [ports]. *)
Definition get_saudi_ports : list dict :=
  [ {[ "name" := PStr "Jeddah"; "lat" := PFloat 21.4858; "lon" := PFloat 39.1925 ]};
    {[ "name" := PStr "Dammam"; "lat" := PFloat 26.3927; "lon" := PFloat 50.1059 ]};
    {[ "name" := PStr "Yanbu"; "lat" := PFloat 24.0896; "lon" := PFloat 38.0618 ]};
    {[ "name" := PStr "Jizan"; "lat" := PFloat 16.8892; "lon" := PFloat 42.5511 ]};
    {[ "name" := PStr "Jubail"; "lat" := PFloat 27.0174; "lon" := PFloat 49.6590 ]} ].

(** Modelled from the spec: the query of lines 58-72 on the registry store,
    [frappe.get_all] with the fields listed and the filters that remain of
    the dictionary literal (its two [is not null] entries replace the two
    [!= 0] entries, which have the same keys). *)
Definition near_columns : list string :=
  ["name"; "vessel_name"; "imo_number"; "ais_mmsi"; "ais_last_position_lat";
   "ais_last_position_lon"; "ais_speed"; "ais_course"; "ais_status"; "ais_destination";
   "ais_last_update"; "vessel_type"].

Definition near_record (row : dict) : dict :=
  list_to_map ((fun c => (c, dget row c)) <$> near_columns).

Definition db_get_all_positions (reg : registry) : list dict :=
  near_record <$>
    List.filter (fun row => is_not_none (dget row "ais_last_position_lat")
                            && is_not_none (dget row "ais_last_position_lon")) reg.

(** [nearby_vessels.sort(key=lambda x: x.get("distance_to_port", 0))]: a
    stable sort on increasing keys.  The keys are the rounded distances, and
    a distance that is not a number never passes the test of line 84. *)
Definition distance_key (vessel : dict) : float :=
  match dget_or vessel "distance_to_port" (PInt 0) with
  | PFloat f => f
  | PInt z => float_of_Z z
  | _ => 0%float
  end.

Fixpoint insert_asc (x : dict) (l : list dict) : list dict :=
  match l with
  | [] => [x]
  | y :: l' =>
      if PrimFloat.ltb (distance_key y) (distance_key x)
      then y :: insert_asc x l' else x :: l
  end.

Definition sorted_asc (l : list dict) : list dict := foldr insert_asc [] l.

(** The answer of [get_vessels_near_port]: [{"error": msg}] or
    [{"port": port, "vessels": vessels}]. *)
Inductive NearResult : Type :=
  | NearError (msg : string)
  | NearVessels (port : string) (vessels : list dict).

Section NearPort.
Context `{PyRuntime} `{MathLib}.

(** [calculate_distance_km] (lines 610-626). *)
Definition calculate_distance_km (lat1 lon1 lat2 lon2 : pyval) : result float :=
  f1 ← py_float lat1;
  f2 ← py_float lon1;
  f3 ← py_float lat2;
  f4 ← py_float lon2;
  let lat1 := math_radians f1 in
  let lon1 := math_radians f2 in
  let lat2 := math_radians f3 in
  let lon2 := math_radians f4 in
  let dlat := PrimFloat.sub lat2 lat1 in
  let dlon := PrimFloat.sub lon2 lon1 in
  s1 ← or_raise ValueError (math_sin (PrimFloat.div dlat 2));
  p1 ← or_raise OverflowError (float_pow2 s1);
  c1 ← or_raise ValueError (math_cos lat1);
  c2 ← or_raise ValueError (math_cos lat2);
  s2 ← or_raise ValueError (math_sin (PrimFloat.div dlon 2));
  p2 ← or_raise OverflowError (float_pow2 s2);
  let a := PrimFloat.add p1 (PrimFloat.mul (PrimFloat.mul c1 c2) p2) in
  q ← or_raise ValueError (math_sqrt a);
  r ← or_raise ValueError (math_asin q);
  let c := PrimFloat.mul 2 r in
  Ok (PrimFloat.mul c 6371).

(** Lines 77-89 for one vessel: [Ok None] when the vessel is left out (by the
    test of line 77, by the radius, or by an exception that the inner [try]
    catches; the line it prints is not modelled), [Ok (Some v)] when it is
    appended. *)
Definition near_step (port_coords : dict) (radius_km : pyval) (vessel : dict)
    : result (option dict) :=
  if truthy (dget vessel "ais_last_position_lat")
     && truthy (dget vessel "ais_last_position_lon") then
    match
      lat ← py_float (dget vessel "ais_last_position_lat");
      lon ← py_float (dget vessel "ais_last_position_lon");
      distance ← calculate_distance_km (dget port_coords "lat") (dget port_coords "lon")
                   (PFloat lat) (PFloat lon);
      near ← py_float_le distance radius_km;
      if near : bool
      then Ok (Some (<["distance_to_port" := PFloat (round2 distance)]> vessel))
      else Ok None
    with
    | Ok r => Ok r
    | Raise ValueError | Raise TypeError => Ok None
    | Raise e => Raise e
    end
  else Ok None.

Fixpoint near_loop (port_coords : dict) (radius_km : pyval) (vessels : list dict)
    (nearby_vessels : list dict) : result (list dict) :=
  match vessels with
  | [] => Ok nearby_vessels
  | vessel :: rest =>
      r ← near_step port_coords radius_km vessel;
      near_loop port_coords radius_km rest
        (match r with Some v => py_append nearby_vessels v | None => nearby_vessels end)
  end.

(** [get_vessels_near_port] (lines 38-101) on a registry; the exception
    caught by the outer [try] gives the answer [{"error": str(e)}]. *)
Definition get_vessels_near_port (reg : registry) (port_name : string) (radius_km : pyval)
    : NearResult :=
  match od_get port_name saudi_ports with
  | None => NearError "Port not found"
  | Some port_coords =>
      match near_loop port_coords radius_km (db_get_all_positions reg) [] with
      | Ok nearby_vessels => NearVessels port_name (take 20 (sorted_asc nearby_vessels))
      | Raise e => NearError (exn_str e)
      end
  end.

End NearPort.

(** A runtime for running the examples: no string parses as a float, and
    floats and datetimes print as a fixed text. *)
Definition example_runtime : PyRuntime :=
  {| float_of_str := fun _ => None;
     str_of_float := fun _ => "<float>";
     str_of_datetime := fun _ => "<datetime>" |}.

(* ===================================================================== *)
(** ** Vocabulary of the statements *)
(* ===================================================================== *)

(** The pending record of [mmsi] in the queue ([{}] when there is none). *)
Definition pending (mmsi : string) (q : list (string * dict)) : dict :=
  default ∅ (od_get mmsi q).

(** Enqueueing a sequence of updates for one [mmsi], oldest first, with no
    flush in between. *)
Definition enqueue_all (mmsi : string) (us : list dict) (q : list (string * dict))
    : list (string * dict) :=
  foldl (fun q u => queue_update mmsi u q) q us.

(** The value that the last dictionary of [us] having the key [k] gives it. *)
Fixpoint last_binding (k : string) (us : list dict) : option pyval :=
  match us with
  | [] => None
  | u :: rest =>
      match last_binding k rest with
      | Some v => Some v
      | None => u !! k
      end
  end.

(** A coordinate value equal to zero: [0], [0.0] or [-0.0]. *)
Definition coordinate_zero (v : pyval) : bool :=
  match v with
  | PInt z => (z =? 0)%Z
  | PFloat f => PrimFloat.eqb f 0%float
  | _ => false
  end.

(** The values of a prepared insert before the optional AIS fields. *)
Definition insert_base (new_name vessel_name imo_number mmsi : string) (now : Z) : dict :=
  <["name" := PStr new_name]> (<["vessel_name" := PStr vessel_name]>
  (<["imo_number" := PStr imo_number]> (<["ais_mmsi" := PStr mmsi]>
  (<["grt" := PStr "0"]> (<["dwt" := PStr "0"]>
  (<["ais_last_update" := PDatetime now]> (<["creation" := PDatetime now]>
  (<["modified" := PDatetime now]> (<["owner" := PStr "Administrator"]>
  (<["modified_by" := PStr "Administrator"]> ∅)))))))))).

Section MergeBase.
Context `{PyRuntime}.

(** The data of an identity merge before the optional AIS fields. *)
Definition mmsi_update_base (mmsi : string) (now : Z) (vessel_data existing_record : dict)
    : dict :=
  let update_data : dict :=
    <["ais_mmsi" := PStr mmsi]> (<["modified" := PDatetime now]>
    (<["modified_by" := PStr "Administrator"]> ∅)) in
  if truthy (dget vessel_data "vessel_name") then
    let vessel_name := str_take 250 (strip (py_str (dget vessel_data "vessel_name"))) in
    if negb (String.eqb vessel_name "")
       && str_ne_val vessel_name (dget existing_record "vessel_name")
    then <["vessel_name" := PStr vessel_name]> update_data
    else update_data
  else update_data.

End MergeBase.

(** The coordinate fields of an update and the columns they are written to. *)
Definition coordinate_columns : list (string * string) :=
  [("latitude", "ais_last_position_lat"); ("longitude", "ais_last_position_lon")].

(** The identifiers that the loop of [prepare_vessel_insert] tries in turn:
    [base], [base-1], [base-2], ... *)
Definition imo_candidate (base : string) (n : nat) : string :=
  match n with
  | O => base
  | S _ => base ++ "-" ++ str_of_Z (Z.of_nat n)
  end.

(** The IMO numbers that are taken in a registry. *)
Definition imo_strings (reg : registry) : list string :=
  omap (fun row : dict => match dget row "imo_number" with PStr s => Some s | _ => None end) reg.

Section ExecutorVocabulary.
Context {DB : Type}.
Variable sql_insert : DB → InsertStmt → DB + string.

(** The database after every insert of the list has been attempted in
    order, the failing ones leaving it as it was. *)
Fixpoint attempt_all (db : DB) (inserts : list InsertStmt) : DB :=
  match inserts with
  | [] => db
  | insert :: rest =>
      match sql_insert db insert with
      | inl db' => attempt_all db' rest
      | inr _ => attempt_all db rest
      end
  end.

(** The inserts that fail when every insert is attempted in order, each with
    the message of its failure. *)
Fixpoint failed_inserts (db : DB) (inserts : list InsertStmt) : list (InsertStmt * string) :=
  match inserts with
  | [] => []
  | insert :: rest =>
      match sql_insert db insert with
      | inl db' => failed_inserts db' rest
      | inr msg => (insert, msg) :: failed_inserts db rest
      end
  end.

End ExecutorVocabulary.

(** The line printed for a skipped insert. *)
Definition skipped_line `{PyRuntime} (f : InsertStmt * string) : string :=
  "Duplicate IMO detected, skipping insert for MMSI: "
  ++ py_str (dget (ins_values f.1) "ais_mmsi").

(** The last element of a list that satisfies a test. *)
Fixpoint last_match {A} (p : A → bool) (l : list A) : option A :=
  match l with
  | [] => None
  | x :: rest =>
      match last_match p rest with
      | Some y => Some y
      | None => if p x then Some x else None
      end
  end.

(** A row whose [ais_mmsi] is [mmsi]; a row whose [imo_number] is the
    genuine IMO [imo] (not empty and without the [AIS-] prefix). *)
Definition by_mmsi (mmsi : string) (row : dict) : bool :=
  sql_eq (dget row "ais_mmsi") (PStr mmsi).

Definition by_imo (imo : string) (row : dict) : bool :=
  sql_eq (dget row "imo_number") (PStr imo)
  && negb (String.eqb imo "") && negb (startswith imo "AIS-").

(** The typing of the registry columns that the batch reads: [name] is a
    string, [ais_mmsi] and [imo_number] are strings or [NULL], and no
    [ais_mmsi] starts with [IMO-]. *)
Definition row_wf (row : dict) : bool :=
  match dget row "name" with PStr _ => true | _ => false end
  && match dget row "ais_mmsi" with
     | PNone => true
     | PStr s => negb (startswith s "IMO-")
     | _ => false
     end
  && match dget row "imo_number" with PNone | PStr _ => true | _ => false end.

Definition registry_wf (reg : registry) : bool := forallb row_wf reg.

(** The resolver of the design document: an exact match on the mmsi is an
    update; otherwise a match of a genuine IMO is an identity merge;
    otherwise the update is an insert. *)
Inductive resolution : Type :=
  | Update (row : dict)
  | IdentityMerge (row : dict)
  | Insert.

Definition resolve (reg : registry) (mmsi : string) (vessel_data : dict) : resolution :=
  match last_match (by_mmsi mmsi) reg with
  | Some row => Update row
  | None =>
      match genuine_imo vessel_data with
      | Some z =>
          match last_match (by_imo (str_of_Z z)) reg with
          | Some row => IdentityMerge row
          | None => Insert
          end
      | None => Insert
      end
  end.

Section GateThenUpdate.
Context `{PyRuntime}.

(** Lines 165-170 for a vessel with an existing record: the change gate,
    then the prepared update. *)
Definition gate_then_update (mmsi : string) (vessel_data record : dict) (env : StepEnv)
    (vessel_cache : list (string * float)) : list (string * float) * result action :=
  let '(vessel_cache, accepted) :=
    should_update_vessel mmsi vessel_data (Some record) (env_time env) vessel_cache in
  (vessel_cache,
   accepted ← accepted;
   if accepted : bool then
     u ← prepare_vessel_update mmsi vessel_data record (env_now env);
     Ok (AddUpdate (SqlFormat u))
   else Ok Skip).

End GateThenUpdate.

(** [a] is not older than [b]. *)
Definition not_older (a b : string * float) : Prop := PrimFloat.ltb a.2 b.2 = false.

Definition no_nan (l : list (string * float)) : Prop :=
  Forall (fun e => PrimFloat.is_nan e.2 = false) l.

(** [b] extends [a] by parameters among [Ks] and columns among [Cs] only. *)
Definition upd_frame (Ks Cs : list string) (a b : list (string * string) * dict) : Prop :=
  (∀ k, k ∉ Ks → b.2 !! k = a.2 !! k) ∧ (∀ c, c ∉ Cs → c ∈ b.1.*1 → c ∈ a.1.*1).

(** One call of [should_update_vessel]: its arguments and the clock. *)
Record GateCall : Type := {
  gc_mmsi : string;
  gc_new_data : dict;
  gc_existing : option dict;
  gc_time : float
}.

(** The cache after a sequence of calls, oldest first. *)
Definition run_calls `{PyRuntime} (calls : list GateCall)
    (vessel_cache : list (string * float)) : list (string * float) :=
  foldl (fun c call =>
           (should_update_vessel (gc_mmsi call) (gc_new_data call) (gc_existing call)
              (gc_time call) c).1) vessel_cache calls.

(** [isinstance(v, (int, float))]: the values that can be ordered against an
    integer literal. *)
Definition is_number (v : pyval) : bool :=
  match v with PInt _ | PFloat _ => true | _ => false end.

(** The payload of a frame (the dictionary under its message type) and the
    identity that [process_ais_message] reads from it. *)
Definition frame_payload (m : RawFrame) : dict :=
  default ∅ (Message m !! default "" (MessageType m)).

Definition frame_mmsi (m : RawFrame) : pyval :=
  py_or (dget (frame_payload m) "UserID") (dget (MetaData m) "MMSI").

(** The shape of the queue between two calls: one pending record per key,
    each stored under the text of its own non-empty [mmsi], and fewer than 50
    records. *)
Definition queue_wf `{PyRuntime} (q : list (string * dict)) : Prop :=
  NoDup q.*1
  ∧ Forall (fun kd => truthy (dget kd.2 "mmsi") = true ∧ py_str (dget kd.2 "mmsi") = kd.1) q
  ∧ length q < 50.

(** The test of lines 263-266 on the name of the existing record: it is
    replaced when it is empty or a placeholder [Unknown Vessel ...]. *)
Definition name_replaceable (existing_record : dict) : bool :=
  match dget existing_record "vessel_name" with
  | PStr s => String.eqb s "" || startswith s "Unknown Vessel"
  | v => negb (truthy v)
  end.

(** The clauses of an update of an existing record, by the fields of the
    incoming data: each column with the parameter that carries its value. *)
Definition update_policy (vessel_data existing_record : dict) : list (string * string) :=
  ((if truthy (dget vessel_data "latitude")
    then [("ais_last_position_lat", "latitude")] else [])
   ++ (if truthy (dget vessel_data "longitude")
       then [("ais_last_position_lon", "longitude")] else [])
   ++ (if is_not_none (dget vessel_data "speed") then [("ais_speed", "speed")] else [])
   ++ (if is_not_none (dget vessel_data "course") then [("ais_course", "course")] else [])
   ++ (if truthy (dget vessel_data "status") then [("ais_status", "status")] else [])
   ++ (if truthy (dget vessel_data "destination")
       then [("ais_destination", "destination")] else [])
   ++ (if truthy (dget vessel_data "vessel_name") && name_replaceable existing_record
       then [("vessel_name", "new_vessel_name")] else [])
   ++ (if bool_decide (is_Some (genuine_imo vessel_data))
       then [("imo_number", "imo_number")] else [])
   ++ [("ais_last_update", "update_time"); ("modified", "modified_time")])%list.

(** The columns that a prepared insert can hold, and those that the data of
    an identity merge can hold. *)
Definition insert_columns : list string :=
  ["name"; "vessel_name"; "imo_number"; "ais_mmsi"; "grt"; "dwt"; "ais_last_update";
   "creation"; "modified"; "owner"; "modified_by";
   "ais_last_position_lat"; "ais_last_position_lon"; "ais_speed"; "ais_course";
   "ais_status"; "ais_destination"].

Definition merge_columns : list string :=
  ["ais_mmsi"; "modified"; "modified_by"; "vessel_name";
   "ais_last_position_lat"; "ais_last_position_lon"; "ais_speed"; "ais_course";
   "ais_status"; "ais_destination"; "ais_last_update"].

(** The values of a column, row by row. *)
Definition column_of (c : string) (reg : registry) : list pyval :=
  (fun row : dict => dget row c) <$> reg.

(** Columns of a row that no prepared operation writes. *)
Definition protected_columns : list string :=
  ["name"; "creation"; "owner"; "grt"; "dwt"].

(** An operation that does not write the column [c]. *)
Definition op_leaves (c : string) (op : update_op) : Prop :=
  match op with
  | SqlFormat u => c ∉ (set_clauses u).*1
  | DataFormat d => sv_data d !! c = None
  end.

(** A row with a synthetic IMO number, for the vessel [mmsi]. *)
Definition synthetic_row (mmsi : string) (row : dict) : Prop :=
  ∃ s, row !! "imo_number" = Some (PStr s) ∧ startswith s "AIS-" = true
       ∧ row !! "ais_mmsi" = Some (PStr mmsi).

(* ===================================================================== *)
(** ** Example data *)
(* ===================================================================== *)

Module Examples.

(** A static-data frame naming the vessel, and a position report for the
    same vessel whose metadata carries no [ShipName]. *)
Definition static_frame : RawFrame :=
  {| MessageType := Some "ShipStaticData";
     Message := {[ "ShipStaticData" :=
                     ({[ "UserID" := PInt 403456789; "Name" := PStr "SAUDI TRADER";
                         "ImoNumber" := PInt 9123456; "Type" := PInt 70 ]} : dict) ]};
     MetaData := {[ "MMSI" := PInt 403456789 ]} |}.

Definition position_frame : RawFrame :=
  {| MessageType := Some "PositionReport";
     Message := {[ "PositionReport" :=
                     ({[ "UserID" := PInt 403456789; "Latitude" := PFloat 21.5;
                         "Longitude" := PFloat 39.2; "Sog" := PFloat 12.5;
                         "Cog" := PInt 45; "NavigationalStatus" := PInt 0 ]} : dict) ]};
     MetaData := {[ "MMSI" := PInt 403456789 ]} |}.

Definition empty_queue : QueueState :=
  {| update_queue := []; last_batch_time := 1000 |}.

(** The record of a known vessel, with its last position. *)
Definition known_record : dict :=
  {[ "name" := PStr "a1b2c3d4e5"; "ais_mmsi" := PStr "403456789";
     "ais_last_position_lat" := PFloat 21; "ais_last_position_lon" := PFloat 39 ]}.

Definition moved_update : dict :=
  {[ "mmsi" := PInt 403456789; "latitude" := PFloat 21.5; "longitude" := PFloat 39.2 ]}.

Definition recent_cache : list (string * float) :=
  [("vessel_update_403456789", 1000%float)].

Fixpoint str_repeat (c : ascii) (n : nat) : string :=
  match n with
  | O => EmptyString
  | S n' => String c (str_repeat c n')
  end.

(** The registry of the identity-merge scenario: one record with a genuine
    IMO and a stale mmsi. *)
Definition merge_registry : registry :=
  [ ({[ "name" := PStr "a1b2c3d4e5"; "ais_mmsi" := PStr "111";
        "imo_number" := PStr "9123456"; "vessel_name" := PStr "GULF STAR" ]} : dict) ].

Definition merge_record : dict := select_record (merge_registry !!! 0%nat).

(** An update for that IMO under a new mmsi, with a 200-character name. *)
Definition long_named_update : dict :=
  {[ "mmsi" := PStr "222"; "imo_number" := PInt 9123456;
     "vessel_name" := PStr (str_repeat "A" 200) ]}.

(** An update on the equator. *)
Definition equator_update : dict :=
  {[ "mmsi" := PInt 403456789; "latitude" := PFloat 0; "longitude" := PFloat 39.2 ]}.

(** A registry where the genuine IMO of an update and its synthetic IMO are
    both taken. *)
Definition crowded_registry : registry :=
  [ ({[ "name" := PStr "r1"; "ais_mmsi" := PStr "111"; "imo_number" := PStr "9123456" ]} : dict);
    ({[ "name" := PStr "r2"; "ais_mmsi" := PStr "999"; "imo_number" := PStr "AIS-999" ]} : dict) ].

Definition colliding_update : dict :=
  {[ "mmsi" := PStr "999"; "imo_number" := PInt 9123456 ]}.

(** Two prepared inserts: the first collides with [AIS-999] of
    [crowded_registry], the second is new. *)
Definition duplicate_insert : InsertStmt :=
  {| ins_values := {[ "name" := PStr "h1"; "ais_mmsi" := PStr "999";
                      "imo_number" := PStr "AIS-999" ]} |}.

Definition fresh_insert : InsertStmt :=
  {| ins_values := {[ "name" := PStr "h2"; "ais_mmsi" := PStr "555";
                      "imo_number" := PStr "AIS-555" ]} |}.

Definition crowded_txn : Txn registry :=
  {| committed := crowded_registry; working := crowded_registry |}.

(** The update of the identity-merge scenario: the IMO of the record of
    [merge_registry] under the mmsi 222. *)
Definition merge_update : dict :=
  {[ "mmsi" := PStr "222"; "imo_number" := PInt 9123456 ]}.

Definition at_1000 : StepEnv :=
  {| env_time := 1000; env_now := 1700000000000000; env_hash := "0123456789" |}.

Definition at_1001 : StepEnv :=
  {| env_time := 1001; env_now := 1700000001000000; env_hash := "9876543210" |}.

Definition noon : StepEnv :=
  {| env_time := 5000; env_now := 1700000000000000; env_hash := "0123456789" |}.

(** A cache past the ceiling: 5001 entries written at time 1000, then 5000
    entries written at time 2000. *)
Definition cache_key_of (n : nat) : string := "vessel_update_" ++ str_of_Z (Z.of_nat n).

Definition full_cache : list (string * float) :=
  ((fun n => (cache_key_of n, 1000%float)) <$> seq 0 5001)
  ++ ((fun n => (cache_key_of n, 2000%float)) <$> seq 5001 5000).

(** A frame of a type that [process_ais_message] does not handle. *)
Definition class_b_frame : RawFrame :=
  {| MessageType := Some "StandardClassBPositionReport";
     Message := ∅; MetaData := {[ "MMSI" := PInt 403456789 ]} |}.

(** An update whose latitude is an integer too large for a float. *)
Definition overflow_update : dict :=
  {[ "mmsi" := PInt 403456789; "latitude" := PInt (2 ^ 1024); "longitude" := PFloat 39.2 ]}.



(** A store of link records for the examples: the (doctype, name) pairs it
    holds; a name of more than 140 characters is refused. *)
Definition pairs_exists (db : list (string * string)) (doctype value : string)
    : bool + string :=
  inl (bool_decide ((doctype, value) ∈ db)).

Definition pairs_insert (db : list (string * string)) (doctype value : string)
    : list (string * string) + string :=
  if (140 <? String.length value)%nat then inr "Data too long for column 'name'"
  else inl (db ++ [(doctype, value)])%list.

(** Stand-ins for the functions of [math], for running the examples: each
    is the identity. *)
Definition example_math : MathLib :=
  {| math_radians := fun x => x;
     math_sin := fun x => Some x;
     math_cos := fun x => Some x;
     math_asin := fun x => Some x;
     math_sqrt := fun x => Some x;
     float_pow2 := fun x => Some x;
     round2 := fun x => x |}.

(** A registry with a vessel off Jeddah, a vessel without a position and a
    vessel on the equator. *)
Definition port_registry : registry :=
  [ ({[ "name" := PStr "r1"; "ais_mmsi" := PStr "111";
        "ais_last_position_lat" := PFloat 21.5; "ais_last_position_lon" := PFloat 39.2 ]}
       : dict);
    ({[ "name" := PStr "r2"; "ais_mmsi" := PStr "222" ]} : dict);
    ({[ "name" := PStr "r3"; "ais_mmsi" := PStr "333";
        "ais_last_position_lat" := PFloat 0; "ais_last_position_lon" := PFloat 39.2 ]}
       : dict) ].

End Examples.

(* ===================================================================== *)
(** * Properties *)
(* ===================================================================== *)

Local Open Scope nat_scope.
Local Open Scope list_scope.

(** ** Insertion-ordered dictionaries *)

Section OrderedDictFacts.
Context {V : Type}.
Implicit Types (d : list (string * V)) (k : string) (v : V).

Lemma od_get_set_eq k v d : od_get k (od_set k v d) = Some v.
Proof.
  induction d as [|[k' v'] d IH]; simpl.
  - by rewrite String.eqb_refl.
  - destruct (String.eqb k' k) eqn:E; simpl; rewrite E; [done | exact IH].
Qed.

Lemma od_get_set_ne k k' v d : k ≠ k' → od_get k' (od_set k v d) = od_get k' d.
Proof.
  intros Hne. induction d as [|[k0 v0] d IH]; simpl.
  - destruct (String.eqb k k') eqn:E; [|done].
    apply String.eqb_eq in E. contradiction.
  - destruct (String.eqb k0 k) eqn:E; simpl.
    + apply String.eqb_eq in E. subst k0.
      destruct (String.eqb k k') eqn:E'; [|done].
      apply String.eqb_eq in E'. contradiction.
    + by rewrite IH.
Qed.

Lemma od_set_length_le k v d : length (od_set k v d) ≤ S (length d).
Proof.
  induction d as [|[k' v'] d IH]; simpl; [lia|].
  destruct (String.eqb k' k); simpl; lia.
Qed.

Lemma od_get_None_notin k d : od_get k d = None → k ∉ d.*1.
Proof.
  induction d as [|[k' v'] d IH]; simpl; [intros _; apply not_elem_of_nil|].
  destruct (String.eqb k' k) eqn:E; [done|].
  intros Hg Hin. apply elem_of_cons in Hin as [->|Hin]; [|by apply IH].
  by rewrite String.eqb_refl in E.
Qed.

Lemma od_set_fresh k v d : k ∉ d.*1 → od_set k v d = d ++ [(k, v)].
Proof.
  induction d as [|[k' v'] d IH]; simpl; [done|].
  intros Hn. apply not_elem_of_cons in Hn as [Hne Hn].
  destruct (String.eqb k' k) eqn:E.
  - apply String.eqb_eq in E. congruence.
  - by rewrite IH.
Qed.

Lemma od_of_items_NoDup (items : list (string * V)) :
  NoDup items.*1 → od_of_items items = items.
Proof.
  unfold od_of_items.
  enough (∀ acc, NoDup (acc ++ items).*1 →
            foldl (fun d kv => od_set kv.1 kv.2 d) acc items = acc ++ items) as Hacc
    by (intros Hnd; apply (Hacc [] Hnd)).
  induction items as [|[k v] items IH]; intros acc Hnd; simpl.
  - by rewrite app_nil_r.
  - rewrite od_set_fresh.
    + rewrite IH; rewrite <- app_assoc; [done | exact Hnd].
    + rewrite fmap_app in Hnd. apply NoDup_app in Hnd as (_ & Hdisj & _).
      intros Hin. apply (Hdisj k Hin). simpl. apply elem_of_cons. by left.
Qed.

End OrderedDictFacts.

(** ** The change gate *)

Section ChangeGateFacts.
Context `{PyRuntime}.
Implicit Types (vessel_cache : list (string * float)) (existing_record : option dict).

Lemma force_update_accepts cache_key last_update current_time vessel_cache cache' :
  force_update cache_key last_update current_time vessel_cache = (cache', Ok true) →
  cache' = od_set cache_key current_time vessel_cache.
Proof.
  unfold force_update. destruct (match last_update with None => _ | Some _ => _ end).
  - by intros [= <-].
  - intros [= _ ?].
Qed.

(** C2 (amended): for an update whose latitude and longitude are both
    present and not zero, and an existing record whose coordinates convert to
    numbers (a coordinate that the record lacks counting as 0): when the
    latitude or the longitude moved by more than 0.001 degrees, the gate
    accepts and records the time of the call unless the last accepted write
    for that mmsi is younger than 30 seconds; in that case the 30-second
    limit wins and the update is refused, the cache left as it is.  An update
    whose latitude or longitude is null or zero gets no delta test: outside
    the 30-second limit it is accepted, and the time recorded, only by the
    forced refresh (no recorded write for that mmsi, a recorded time of
    zero, or one older than 300 seconds), and it is refused otherwise,
    however far it is from the record. *)
Theorem position_delta_accepts_unless_rate_limited
    mmsi new_data existing_record current_time vessel_cache :
  record_truthy existing_record = true →
  (truthy (dget new_data "latitude") = true →
   truthy (dget new_data "longitude") = true →
   ∀ lat_change lon_change,
     position_changes new_data (default ∅ existing_record) = Ok (lat_change, lon_change) →
     PrimFloat.ltb 0.001%float lat_change = true
     ∨ PrimFloat.ltb 0.001%float lon_change = true →
     should_update_vessel mmsi new_data existing_record current_time vessel_cache =
       if rate_limited (od_get ("vessel_update_" ++ mmsi)%string (evict vessel_cache))
            current_time
       then (evict vessel_cache, Ok false)
       else (od_set ("vessel_update_" ++ mmsi)%string current_time (evict vessel_cache),
             Ok true))
  ∧ (truthy (dget new_data "latitude") = false
     ∨ truthy (dget new_data "longitude") = false →
     should_update_vessel mmsi new_data existing_record current_time vessel_cache =
       if rate_limited (od_get ("vessel_update_" ++ mmsi)%string (evict vessel_cache))
            current_time
       then (evict vessel_cache, Ok false)
       else if match od_get ("vessel_update_" ++ mmsi)%string (evict vessel_cache) with
               | None => true
               | Some t => PrimFloat.eqb t 0%float
                           || PrimFloat.ltb 300%float (PrimFloat.sub current_time t)
               end
            then (od_set ("vessel_update_" ++ mmsi)%string current_time
                    (evict vessel_cache), Ok true)
            else (evict vessel_cache, Ok false)).
Proof.
  intros Hex. split.
  - intros Hlat Hlon lat_change lon_change Hpos Hdelta. unfold should_update_vessel.
    rewrite Hex, Hlat, Hlon, Hpos. simpl.
    destruct (rate_limited _ _); [done|].
    assert (PrimFloat.ltb 0.001%float lat_change || PrimFloat.ltb 0.001%float lon_change
            = true)
      as -> by (destruct Hdelta as [-> | ->]; [done | apply orb_true_r]).
    done.
  - intros Hzero. unfold should_update_vessel, force_update. rewrite Hex. simpl.
    destruct (rate_limited _ _); [done|].
    assert (truthy (dget new_data "latitude") && truthy (dget new_data "longitude") = false)
      as -> by (destruct Hzero as [-> | ->]; [done | apply andb_false_r]).
    done.
Qed.

(** C5 (amended): an acceptance for an existing record is recorded, the
    cache entry of that mmsi being the time of the call afterwards; an
    acceptance because there is no existing record (rule 1) returns before
    the cache is touched and records nothing. *)
Theorem acceptance_recorded_for_existing_record
    mmsi new_data existing_record current_time vessel_cache cache' :
  should_update_vessel mmsi new_data existing_record current_time vessel_cache
    = (cache', Ok true) →
  if record_truthy existing_record
  then od_get ("vessel_update_" ++ mmsi)%string cache' = Some current_time
  else cache' = vessel_cache.
Proof.
  unfold should_update_vessel.
  destruct (record_truthy existing_record); simpl; [|by intros [= <-]].
  destruct (rate_limited _ _); [intros [= _ ?]; done|].
  intros Hres.
  assert (cache' = od_set ("vessel_update_" ++ mmsi)%string current_time (evict vessel_cache))
    as ->; [|apply od_get_set_eq].
  destruct (truthy (dget new_data "latitude") && truthy (dget new_data "longitude"));
    [|by eapply force_update_accepts].
  destruct (position_changes _ _) as [[lat_change lon_change]|e].
  - destruct (PrimFloat.ltb 0.001%float lat_change || PrimFloat.ltb 0.001%float lon_change);
      [by injection Hres as <- | by eapply force_update_accepts].
  - destruct e; solve [discriminate Hres | by eapply force_update_accepts].
Qed.

End ChangeGateFacts.

(** Witness of C2: the vessel moved by half a degree and its last accepted
    write is 40 seconds old, so the update is accepted and the time recorded;
    an update on the equator, 21 degrees from the record and 100 seconds
    after the last accepted write, gets no delta test and is refused. *)
Lemma position_delta_accepts_unless_rate_limited_witness :
  should_update_vessel (H := example_runtime) "403456789" Examples.moved_update
    (Some Examples.known_record) 1040%float Examples.recent_cache
  = ([("vessel_update_403456789", 1040%float)], Ok true)
  ∧ should_update_vessel (H := example_runtime) "403456789" Examples.equator_update
      (Some Examples.known_record) 1100%float Examples.recent_cache
    = (Examples.recent_cache, Ok false).
Proof.
  assert (record_truthy (Some Examples.known_record) = true) as Hex
    by (vm_compute; reflexivity).
  split.
  - rewrite (proj1 (position_delta_accepts_unless_rate_limited (H := example_runtime)
                      "403456789" Examples.moved_update (Some Examples.known_record)
                      1040%float Examples.recent_cache Hex))
      with (lat_change := 0.5%float)
           (lon_change := PrimFloat.abs (PrimFloat.sub 39.2%float 39%float));
      [| vm_compute; reflexivity ..| left; vm_compute; reflexivity].
    vm_compute. reflexivity.
  - rewrite (proj2 (position_delta_accepts_unless_rate_limited (H := example_runtime)
                      "403456789" Examples.equator_update (Some Examples.known_record)
                      1100%float Examples.recent_cache Hex));
      [| left; vm_compute; reflexivity].
    vm_compute. reflexivity.
Defined.

(** Counterexample of C2: the same move 10 seconds after the last accepted
    write is refused, and no timestamp is recorded. *)
Lemma position_delta_refused_within_30_seconds :
  PrimFloat.ltb 0.001%float (PrimFloat.abs (PrimFloat.sub 21.5%float 21%float)) = true
  ∧ should_update_vessel (H := example_runtime) "403456789" Examples.moved_update
      (Some Examples.known_record) 1010%float Examples.recent_cache
    = (Examples.recent_cache, Ok false).
Proof. split; vm_compute; reflexivity. Qed.

(** Witness of C5: an accepted update for a known vessel leaves its time in
    the cache. *)
Lemma acceptance_recorded_for_existing_record_witness :
  od_get "vessel_update_403456789" [("vessel_update_403456789", 1040%float)]
  = Some 1040%float.
Proof.
  apply (acceptance_recorded_for_existing_record (H := example_runtime)
           "403456789" Examples.moved_update (Some Examples.known_record)
           1040%float Examples.recent_cache).
  vm_compute. reflexivity.
Defined.

(** Counterexample of C5: a brand-new vessel is accepted and nothing is
    recorded for it; the same holds through the batch, where the vessel is
    inserted and an update one second later is applied as well. *)
Lemma new_vessel_acceptance_not_recorded :
  let first := update_vessel_ais_batch (H := example_runtime) [] []
                 (fun _ => Examples.at_1000) [Examples.moved_update] in
  let second := update_vessel_ais_batch (H := example_runtime) (bo_registry first)
                  (bo_cache first) (fun _ => Examples.at_1001) [Examples.moved_update] in
  should_update_vessel (H := example_runtime) "403456789" Examples.moved_update
    None 1000%float [] = ([], Ok true)
  ∧ od_get "vessel_update_403456789" ([] : list (string * float)) = None
  ∧ bo_status first = Ok 1
  ∧ bo_cache first = []
  ∧ length (bo_registry first) = 1
  ∧ bo_status second = Ok 1.
Proof. vm_compute. repeat split. Qed.

(** ** The batch queue *)

Lemma pending_queue_update mmsi (u : dict) (q : list (string * dict)) :
  pending mmsi (queue_update mmsi u q) = u ∪ pending mmsi q.
Proof. unfold pending, queue_update. by rewrite od_get_set_eq. Qed.

Lemma pending_queue_update_ne mmsi mmsi' (u : dict) (q : list (string * dict)) :
  mmsi ≠ mmsi' → pending mmsi' (queue_update mmsi u q) = pending mmsi' q.
Proof. intros Hne. unfold pending, queue_update. by rewrite od_get_set_ne. Qed.

(** Outside a flush, [process_ais_message] does [queue_update] and nothing
    else to the queue. *)
Lemma process_ais_message_enqueues `{PyRuntime} st message_data current_time vessel_data :
  vessel_data_of_message message_data = Ok vessel_data →
  truthy (dget vessel_data "mmsi") = true →
  po_job (process_ais_message st message_data current_time) = None →
  update_queue (po_state (process_ais_message st message_data current_time))
  = queue_update (py_str (dget vessel_data "mmsi")) vessel_data (update_queue st).
Proof.
  intros Hvd Hmmsi. unfold process_ais_message. rewrite Hvd, Hmmsi.
  destruct (_ || _); [|done].
  unfold process_batch_queue.
  destruct (queue_update _ _ _) eqn:E; [|done].
  unfold queue_update in E. destruct (update_queue st) as [|[??]?]; simpl in E; [done|].
  by destruct (String.eqb _ _).
Qed.

(** C1 (amended): within a flush window the pending record of an mmsi gives
    every field the value of the last update whose dictionary has that
    field, null or not.  So a later update that lacks a field leaves the
    earlier value, and a later update that has the field as null replaces
    an earlier non-null value by null. *)
Theorem queue_merge_last_write_wins mmsi (us : list dict) (q : list (string * dict)) k :
  pending mmsi (enqueue_all mmsi us q) !! k = last_binding k (pending mmsi q :: us).
Proof.
  revert q. induction us as [|u us IH]; intros q; simpl.
  - done.
  - unfold enqueue_all in *. simpl. rewrite IH. simpl.
    destruct (last_binding k us); [done|].
    rewrite pending_queue_update, lookup_union.
    destruct (u !! k), (pending mmsi q !! k); done.
Qed.

(** Counterexample of C1: a static-data frame names the vessel, then a
    position report whose metadata has no [ShipName] arrives in the same
    window; the pending record has lost the name. *)
Lemma later_null_erases_earlier_name :
  let o1 := process_ais_message (H := example_runtime)
              Examples.empty_queue Examples.static_frame 1001%float in
  let o2 := process_ais_message (H := example_runtime)
              (po_state o1) Examples.position_frame 1002%float in
  dget (pending "403456789" (update_queue (po_state o1))) "vessel_name" = PStr "SAUDI TRADER"
  ∧ po_job o1 = None ∧ po_job o2 = None
  ∧ dget (pending "403456789" (update_queue (po_state o2))) "vessel_name" = PNone.
Proof. vm_compute. repeat split. Qed.

(** A later update that does not have a field leaves the pending value. *)
Lemma later_update_without_field_keeps_value mmsi (u : dict) (q : list (string * dict)) k :
  u !! k = None →
  pending mmsi (queue_update mmsi u q) !! k = pending mmsi q !! k.
Proof.
  intros Hk. rewrite pending_queue_update, lookup_union, Hk.
  by destruct (pending mmsi q !! k).
Qed.

(** A later update that has the field, null or not, replaces the pending
    value. *)
Lemma later_update_with_field_replaces_value mmsi (u : dict) (q : list (string * dict)) k v :
  u !! k = Some v →
  pending mmsi (queue_update mmsi u q) !! k = Some v.
Proof.
  intros Hk. rewrite pending_queue_update, lookup_union, Hk.
  by destruct (pending mmsi q !! k).
Qed.

(** ** Prepared operations *)

Lemma str_take_length n s : String.length (str_take n s) ≤ n.
Proof.
  revert s. induction n as [|n IH]; intros [|c s]; simpl; try lia.
  specialize (IH s). lia.
Qed.

Lemma coordinate_zero_falsy v : coordinate_zero v = true → truthy v = false.
Proof. destruct v; simpl; try done; by intros ->. Qed.

Section PrepareFacts.
Context `{PyRuntime}.

Lemma add_float_value_frame test vessel_data k column (values values' : dict) k' :
  add_float_value test vessel_data k column values = Ok values' →
  k' ≠ column → values' !! k' = values !! k'.
Proof.
  unfold add_float_value. destruct (test _); [|by intros [= <-]].
  destruct (py_float _); simpl; [|done].
  intros [= <-] Hne. by rewrite lookup_insert_ne.
Qed.

Lemma add_float_value_skip test vessel_data k column (values values' : dict) :
  add_float_value test vessel_data k column values = Ok values' →
  test (dget vessel_data k) = false → values' = values.
Proof. unfold add_float_value. intros Hv Ht. rewrite Ht in Hv. by injection Hv. Qed.

Lemma add_status_destination_frame vessel_data (values : dict) k' :
  k' ≠ "ais_status" → k' ≠ "ais_destination" →
  add_status_destination vessel_data values !! k' = values !! k'.
Proof.
  intros H1 H2. unfold add_status_destination.
  repeat match goal with
         | |- context [if ?b then _ else _] => destruct b
         end;
  rewrite ?lookup_insert_ne by done; done.
Qed.

Lemma add_float_clause_frame test vessel_data k column acc acc' k' :
  add_float_clause test vessel_data k column acc = Ok acc' →
  k' ≠ k → acc'.2 !! k' = acc.2 !! k'.
Proof.
  unfold add_float_clause. destruct (test _); [|by intros [= <-]].
  destruct (py_float _); simpl; [|done].
  intros [= <-] Hne. simpl. by rewrite lookup_insert_ne.
Qed.

Lemma add_float_clause_columns test vessel_data k column acc acc' column' :
  add_float_clause test vessel_data k column acc = Ok acc' →
  column' ≠ column → column' ∈ acc'.1.*1 → column' ∈ acc.1.*1.
Proof.
  unfold add_float_clause. destruct (test _); [|by intros [= <-]].
  destruct (py_float _); simpl; [|done].
  intros [= <-] Hne. simpl. unfold py_append. rewrite fmap_app, elem_of_app.
  intros [?|Hin]; [done|]. apply list_elem_of_singleton in Hin. done.
Qed.

Lemma add_float_clause_skip test vessel_data k column acc acc' :
  add_float_clause test vessel_data k column acc = Ok acc' →
  test (dget vessel_data k) = false → acc' = acc.
Proof. unfold add_float_clause. intros Hv Ht. rewrite Ht in Hv. by injection Hv. Qed.

(** The name that the two sibling paths store is cut at 140 characters:
    [prepare_vessel_update] ... *)
Lemma prepare_vessel_update_name_capped mmsi vessel_data existing_record now u v :
  prepare_vessel_update mmsi vessel_data existing_record now = Ok u →
  upd_values u !! "new_vessel_name" = Some v →
  ∃ s, dget vessel_data "vessel_name" = PStr s ∧ v = PStr (str_take 140 (strip s)).
Proof.
  unfold prepare_vessel_update.
  destruct (existing_record !! "name") as [name|]; simpl; [|done].
  destruct (add_float_clause truthy _ "latitude" _ _) as [a1|] eqn:E1; simpl; [|done].
  destruct (add_float_clause truthy _ "longitude" _ _) as [a2|] eqn:E2; simpl; [|done].
  destruct (add_float_clause _ _ "speed" _ _) as [a3|] eqn:E3; simpl; [|done].
  destruct (add_float_clause _ _ "course" _ _) as [a4|] eqn:E4; simpl; [|done].
  set (a5 := if truthy (dget vessel_data "status") then _ else a4).
  assert (a5.2 !! "new_vessel_name" = None) as H5.
  { assert (a4.2 !! "new_vessel_name" = None) as H4.
    { rewrite (add_float_clause_frame _ _ _ _ _ _ _ E4) by done.
      rewrite (add_float_clause_frame _ _ _ _ _ _ _ E3) by done.
      rewrite (add_float_clause_frame _ _ _ _ _ _ _ E2) by done.
      rewrite (add_float_clause_frame _ _ _ _ _ _ _ E1) by done.
      done. }
    subst a5. destruct (truthy (dget vessel_data "status")); simpl;
      rewrite ?lookup_insert_ne by done; done. }
  clearbody a5. clear E1 E2 E3 E4 a1 a2 a3 a4.
  match goal with |- context [if truthy (dget vessel_data "destination") then ?x else _] =>
    destruct (if truthy (dget vessel_data "destination") then x else Ok a5) as [a6|] eqn:E6
  end; simpl; [|done].
  assert (a6.2 !! "new_vessel_name" = None) as H6.
  { destruct (truthy (dget vessel_data "destination")); [|by injection E6 as <-].
    destruct (if 250 <? _ then _ else _); simpl in E6; [|done].
    injection E6 as <-. simpl. by rewrite lookup_insert_ne. }
  clear E6 H5 a5.
  match goal with |- context [if truthy (dget vessel_data "vessel_name") then ?x else _] =>
    destruct (if truthy (dget vessel_data "vessel_name") then x else Ok a6) as [a7|] eqn:E7
  end; simpl; [|done].
  intros [= <-]. simpl.
  rewrite !lookup_insert_ne by done.
  assert (∀ a : list (string * string) * dict,
            a.2 !! "new_vessel_name" = a7.2 !! "new_vessel_name" →
            a.2 !! "new_vessel_name" = Some v →
            ∃ s, dget vessel_data "vessel_name" = PStr s ∧ v = PStr (str_take 140 (strip s)))
    as Hfin.
  { intros a -> Hv.
    destruct (truthy (dget vessel_data "vessel_name")); [|injection E7 as <-; congruence].
    destruct (if negb _ then _ else _) as [[]|]; simpl in E7; try done.
    - destruct (dget vessel_data "vessel_name") as [| | |s|]; simpl in E7; try done.
      injection E7 as <-. simpl in Hv. rewrite lookup_insert_eq in Hv.
      injection Hv as <-. by exists s.
    - injection E7 as <-. congruence. }
  destruct (genuine_imo vessel_data); simpl.
  - rewrite lookup_insert_ne by done. by apply (Hfin a7).
  - by apply (Hfin a7).
Qed.

End PrepareFacts.

Section PrepareInversion.
Context `{PyRuntime}.

Lemma prepare_vessel_insert_inv taken fuel new_name now mmsi vessel_data i :
  prepare_vessel_insert taken fuel new_name now mmsi vessel_data = Ok i →
  ∃ vessel_name v1 v2 v3 v4,
    insert_vessel_name mmsi vessel_data = Ok vessel_name
    ∧ add_float_value truthy vessel_data "latitude" "ais_last_position_lat"
        (insert_base new_name vessel_name
           (insert_imo_number taken fuel mmsi vessel_data) mmsi now) = Ok v1
    ∧ add_float_value truthy vessel_data "longitude" "ais_last_position_lon" v1 = Ok v2
    ∧ add_float_value is_not_none vessel_data "speed" "ais_speed" v2 = Ok v3
    ∧ add_float_value is_not_none vessel_data "course" "ais_course" v3 = Ok v4
    ∧ ins_values i = add_status_destination vessel_data v4.
Proof.
  unfold prepare_vessel_insert.
  destruct (insert_vessel_name mmsi vessel_data) as [vessel_name|]; simpl; [|done].
  fold (insert_base new_name vessel_name
          (insert_imo_number taken fuel mmsi vessel_data) mmsi now).
  destruct (add_float_value truthy _ "latitude" _ _) as [v1|] eqn:E1; simpl; [|done].
  destruct (add_float_value truthy _ "longitude" _ _) as [v2|] eqn:E2; simpl; [|done].
  destruct (add_float_value _ _ "speed" _ _) as [v3|] eqn:E3; simpl; [|done].
  destruct (add_float_value _ _ "course" _ _) as [v4|] eqn:E4; simpl; [|done].
  intros [= <-]. by exists vessel_name, v1, v2, v3, v4.
Qed.

(** A key that none of the optional fields writes keeps the value that
    [insert_base] gave it. *)
Lemma prepare_vessel_insert_fixed taken fuel new_name now mmsi vessel_data i k :
  prepare_vessel_insert taken fuel new_name now mmsi vessel_data = Ok i →
  k ∉ ["ais_last_position_lat"; "ais_last_position_lon"; "ais_speed"; "ais_course";
       "ais_status"; "ais_destination"] →
  ∃ vessel_name,
    insert_vessel_name mmsi vessel_data = Ok vessel_name
    ∧ ins_values i !! k =
        insert_base new_name vessel_name
          (insert_imo_number taken fuel mmsi vessel_data) mmsi now !! k.
Proof.
  intros (vessel_name & v1 & v2 & v3 & v4 & Hn & E1 & E2 & E3 & E4 & ->)%prepare_vessel_insert_inv Hk.
  exists vessel_name. split; [done|].
  rewrite !not_elem_of_cons in Hk. destruct Hk as (? & ? & ? & ? & ? & ? & _).
  rewrite add_status_destination_frame by done.
  rewrite (add_float_value_frame _ _ _ _ _ _ _ E4) by done.
  rewrite (add_float_value_frame _ _ _ _ _ _ _ E3) by done.
  rewrite (add_float_value_frame _ _ _ _ _ _ _ E2) by done.
  by rewrite (add_float_value_frame _ _ _ _ _ _ _ E1) by done.
Qed.

(** ... and [prepare_vessel_insert], when the update has a name that is not
    blank. *)
Lemma prepare_vessel_insert_name_capped taken fuel new_name now mmsi vessel_data i s :
  prepare_vessel_insert taken fuel new_name now mmsi vessel_data = Ok i →
  dget vessel_data "vessel_name" = PStr s → strip s ≠ "" →
  ins_values i !! "vessel_name" = Some (PStr (str_take 140 (strip s))).
Proof.
  intros Hi Hs Hne.
  assert ("vessel_name" ∉ ["ais_last_position_lat"; "ais_last_position_lon"; "ais_speed";
                            "ais_course"; "ais_status"; "ais_destination"]) as Hk.
  { rewrite !not_elem_of_cons. repeat split; try done. apply not_elem_of_nil. }
  destruct (prepare_vessel_insert_fixed _ _ _ _ _ _ _ _ Hi Hk) as (n & Hn & Hv).
  rewrite Hv. clear Hv Hk Hi.
  unfold insert_base. rewrite lookup_insert_ne by done. rewrite lookup_insert_eq.
  do 2 f_equal. revert Hn. unfold insert_vessel_name, dget_or, dget in *.
  destruct (vessel_data !! "vessel_name") as [v|]; simpl in Hs; [|done]. subst v.
  assert (String.eqb s "" = false) as Es.
  { apply String.eqb_neq. by intros ->. }
  assert (String.eqb (strip s) "" = false) as Et by by apply String.eqb_neq.
  unfold py_or. simpl. rewrite Es. simpl. rewrite Es. simpl. rewrite Et. simpl.
  by intros [= <-].
Qed.

Lemma prepare_mmsi_update_inv mmsi vessel_data existing_record now d :
  prepare_mmsi_update mmsi vessel_data existing_record now = Ok d →
  ∃ v1 v2 v3 v4,
    add_float_value truthy vessel_data "latitude" "ais_last_position_lat"
      (mmsi_update_base mmsi now vessel_data existing_record) = Ok v1
    ∧ add_float_value truthy vessel_data "longitude" "ais_last_position_lon" v1 = Ok v2
    ∧ add_float_value is_not_none vessel_data "speed" "ais_speed" v2 = Ok v3
    ∧ add_float_value is_not_none vessel_data "course" "ais_course" v3 = Ok v4
    ∧ sv_name d = dget existing_record "name"
    ∧ sv_data d = <["ais_last_update" := PDatetime now]> (add_status_destination vessel_data v4).
Proof.
  unfold prepare_mmsi_update.
  fold (mmsi_update_base mmsi now vessel_data existing_record).
  destruct (add_float_value truthy _ "latitude" _ _) as [v1|] eqn:E1; simpl; [|done].
  destruct (add_float_value truthy _ "longitude" _ _) as [v2|] eqn:E2; simpl; [|done].
  destruct (add_float_value _ _ "speed" _ _) as [v3|] eqn:E3; simpl; [|done].
  destruct (add_float_value _ _ "course" _ _) as [v4|] eqn:E4; simpl; [|done].
  intros [= <-]. by exists v1, v2, v3, v4.
Qed.

Lemma prepare_mmsi_update_fixed mmsi vessel_data existing_record now d k :
  prepare_mmsi_update mmsi vessel_data existing_record now = Ok d →
  k ∉ ["ais_last_position_lat"; "ais_last_position_lon"; "ais_speed"; "ais_course";
       "ais_status"; "ais_destination"; "ais_last_update"] →
  sv_data d !! k = mmsi_update_base mmsi now vessel_data existing_record !! k.
Proof.
  intros (v1 & v2 & v3 & v4 & E1 & E2 & E3 & E4 & _ & ->)%prepare_mmsi_update_inv Hk.
  rewrite !not_elem_of_cons in Hk. destruct Hk as (? & ? & ? & ? & ? & ? & ? & _).
  rewrite lookup_insert_ne by done.
  rewrite add_status_destination_frame by done.
  rewrite (add_float_value_frame _ _ _ _ _ _ _ E4) by done.
  rewrite (add_float_value_frame _ _ _ _ _ _ _ E3) by done.
  rewrite (add_float_value_frame _ _ _ _ _ _ _ E2) by done.
  by rewrite (add_float_value_frame _ _ _ _ _ _ _ E1) by done.
Qed.

End PrepareInversion.

(** C8: on the identity-merge path the stored name is cut at 250 characters,
    not 140.  A 200-character name arriving for a vessel found by its IMO is
    written to the record in full. *)
Theorem identity_merge_name_not_capped_at_140 :
  ∃ d s,
    prepare_mmsi_update (H := example_runtime) "222" Examples.long_named_update
      Examples.merge_record 0 = Ok d
    ∧ sv_data d !! "vessel_name" = Some (PStr s)
    ∧ String.length s = 200.
Proof.
  eexists _, _. split; [vm_compute; reflexivity|].
  split; vm_compute; reflexivity.
Qed.

Lemma upd_frame_refl Ks Cs a : upd_frame Ks Cs a a.
Proof. by split. Qed.

Lemma upd_frame_step Ks Cs a b c k v :
  upd_frame Ks Cs a b → k ∈ Ks → c ∈ Cs →
  upd_frame Ks Cs a (py_append b.1 (c, k), <[k := v]> b.2).
Proof.
  intros [Hk Hc] Hin Hcin. split; simpl.
  - intros k' Hk'. rewrite lookup_insert_ne by (by intros ->). by apply Hk.
  - intros c' Hc'. unfold py_append. rewrite fmap_app, elem_of_app. simpl.
    rewrite list_elem_of_singleton. intros [?| ->]; [by apply Hc|done].
Qed.

Section UpdateFrame.
Context `{PyRuntime}.

Lemma prepare_vessel_update_frame mmsi vessel_data existing_record now u :
  prepare_vessel_update mmsi vessel_data existing_record now = Ok u →
  ∃ name a1 a2 a3 a4,
    existing_record !! "name" = Some name
    ∧ add_float_clause truthy vessel_data "latitude" "ais_last_position_lat"
        ([], {["vessel_name" := name]}) = Ok a1
    ∧ add_float_clause truthy vessel_data "longitude" "ais_last_position_lon" a1 = Ok a2
    ∧ add_float_clause is_not_none vessel_data "speed" "ais_speed" a2 = Ok a3
    ∧ add_float_clause is_not_none vessel_data "course" "ais_course" a3 = Ok a4
    ∧ (∀ k, k ∉ ["status"; "destination"; "new_vessel_name"; "imo_number";
                 "update_time"; "modified_time"] →
            upd_values u !! k = a4.2 !! k)
    ∧ (∀ column, column ∉ ["ais_status"; "ais_destination"; "vessel_name"; "imo_number";
                           "ais_last_update"; "modified"] →
            column ∈ (set_clauses u).*1 → column ∈ a4.1.*1).
Proof.
  unfold prepare_vessel_update.
  destruct (existing_record !! "name") as [name|]; simpl; [|done].
  destruct (add_float_clause truthy _ "latitude" _ _) as [a1|] eqn:E1; simpl; [|done].
  destruct (add_float_clause truthy _ "longitude" _ _) as [a2|] eqn:E2; simpl; [|done].
  destruct (add_float_clause _ _ "speed" _ _) as [a3|] eqn:E3; simpl; [|done].
  destruct (add_float_clause _ _ "course" _ _) as [a4|] eqn:E4; simpl; [|done].
  intros Hu. exists name, a1, a2, a3, a4. do 5 (split; [done|]).
  clear E1 E2 E3 E4.
  set (Ks := ["status"; "destination"; "new_vessel_name"; "imo_number";
              "update_time"; "modified_time"]).
  set (Cs := ["ais_status"; "ais_destination"; "vessel_name"; "imo_number";
              "ais_last_update"; "modified"]).
  set (a5 := if truthy (dget vessel_data "status")
             then (py_append a4.1 ("ais_status", "status"),
                   <["status" := dget vessel_data "status"]> a4.2)
             else a4) in Hu.
  assert (upd_frame Ks Cs a4 a5) as F5.
  { subst a5. destruct (truthy (dget vessel_data "status")); [|apply upd_frame_refl].
    apply upd_frame_step; [apply upd_frame_refl|set_solver..]. }
  clearbody a5.
  match type of Hu with
  | (?m ≫= _) = _ => destruct m as [a6|] eqn:E6; simpl in Hu; [|done]
  end.
  assert (upd_frame Ks Cs a4 a6) as F6.
  { destruct (truthy (dget vessel_data "destination")); [|by injection E6 as <-].
    destruct (if 250 <? _ then _ else _); simpl in E6; [|done]. injection E6 as <-.
    apply upd_frame_step; [done|set_solver..]. }
  clear E6 F5 a5.
  match type of Hu with
  | (?m ≫= _) = _ => destruct m as [a7|] eqn:E7; simpl in Hu; [|done]
  end.
  assert (upd_frame Ks Cs a4 a7) as F7.
  { destruct (truthy (dget vessel_data "vessel_name")); [|by injection E7 as <-].
    destruct (if negb _ then _ else _) as [[]|]; simpl in E7; [| |done].
    - destruct (py_strip _); simpl in E7; [|done]. injection E7 as <-.
      apply upd_frame_step; [done|set_solver..].
    - by injection E7 as <-. }
  clear E7 F6 a6.
  set (a8 := match genuine_imo vessel_data with Some _ => _ | None => a7 end) in Hu.
  assert (upd_frame Ks Cs a4 a8) as F8.
  { subst a8. destruct (genuine_imo _); [|done].
    apply upd_frame_step; [done|set_solver..]. }
  clearbody a8. injection Hu as <-. cbn [set_clauses upd_values].
  pose proof (upd_frame_step Ks Cs a4 _ "modified" "modified_time" (PDatetime now)
                (upd_frame_step Ks Cs a4 a8 "ais_last_update" "update_time" (PDatetime now)
                   F8 ltac:(set_solver) ltac:(set_solver))
                ltac:(set_solver) ltac:(set_solver)) as [Hk Hc].
  split; [exact Hk|exact Hc].
Qed.

End UpdateFrame.

Section ZeroCoordinates.
Context `{PyRuntime}.

(** C10: a coordinate equal to zero is treated as absent.  Normalising a
    position report, a report latitude or longitude equal to zero gives way
    to the metadata coordinate; preparing an insert, an update or an
    identity merge, a latitude or longitude equal to zero is not written. *)
Theorem zero_coordinate_treated_as_absent :
  (∀ m, MessageType m = Some "PositionReport" →
     ∃ vessel_data,
       vessel_data_of_message m = Ok vessel_data
       ∧ ∀ position, position = default ∅ (Message m !! "PositionReport") →
           (coordinate_zero (dget position "Latitude") = true →
              dget vessel_data "latitude" = dget (MetaData m) "latitude")
           ∧ (coordinate_zero (dget position "Longitude") = true →
                dget vessel_data "longitude" = dget (MetaData m) "longitude"))
  ∧ (∀ vessel_data k column,
       (k, column) ∈ coordinate_columns →
       coordinate_zero (dget vessel_data k) = true →
       (∀ taken fuel new_name now mmsi i,
          prepare_vessel_insert taken fuel new_name now mmsi vessel_data = Ok i →
          ins_values i !! column = None)
       ∧ (∀ mmsi existing_record now u,
            prepare_vessel_update mmsi vessel_data existing_record now = Ok u →
            upd_values u !! k = None ∧ column ∉ (set_clauses u).*1)
       ∧ (∀ mmsi existing_record now d,
            prepare_mmsi_update mmsi vessel_data existing_record now = Ok d →
            sv_data d !! column = None)).
Proof.
  split.
  - intros m Hm. unfold vessel_data_of_message. rewrite decide_True by done.
    eexists. split; [done|]. intros position ->.
    split; intros Hz%coordinate_zero_falsy; unfold dget at 1;
      rewrite ?lookup_insert_ne by done; rewrite lookup_insert_eq; simpl;
      unfold py_or; by rewrite Hz.
  - intros vessel_data k column Hin Hz%coordinate_zero_falsy.
    assert (∀ mmsi now existing_record,
              mmsi_update_base mmsi now vessel_data existing_record !! column = None) as Hbase.
    { intros. unfold mmsi_update_base.
      apply elem_of_cons in Hin as [[= -> ->]|Hin];
        [|apply list_elem_of_singleton in Hin as [= -> ->]];
        repeat match goal with |- context [if ?b then _ else _] => destruct b end;
        done. }
    apply elem_of_cons in Hin as [[= -> ->]|Hin];
      [|apply list_elem_of_singleton in Hin as [= -> ->]].
    + split; [|split].
      * intros ?????? (n & v1 & v2 & v3 & v4 & _ & E1 & E2 & E3 & E4 & ->)%prepare_vessel_insert_inv.
        rewrite add_status_destination_frame by done.
        rewrite (add_float_value_frame _ _ _ _ _ _ _ E4) by done.
        rewrite (add_float_value_frame _ _ _ _ _ _ _ E3) by done.
        rewrite (add_float_value_frame _ _ _ _ _ _ _ E2) by done.
        by rewrite (add_float_value_skip _ _ _ _ _ _ E1 Hz).
      * intros ???? (n & a1 & a2 & a3 & a4 & _ & E1 & E2 & E3 & E4 & Hk & Hc)%prepare_vessel_update_frame.
        rewrite (add_float_clause_skip _ _ _ _ _ _ E1 Hz) in E2.
        split.
        -- rewrite Hk by (rewrite !not_elem_of_cons; repeat split; try done; apply not_elem_of_nil).
           rewrite (add_float_clause_frame _ _ _ _ _ _ _ E4) by done.
           rewrite (add_float_clause_frame _ _ _ _ _ _ _ E3) by done.
           by rewrite (add_float_clause_frame _ _ _ _ _ _ _ E2) by done.
        -- intros Hcol. apply Hc in Hcol;
             [|rewrite !not_elem_of_cons; repeat split; try done; apply not_elem_of_nil].
           apply (add_float_clause_columns _ _ _ _ _ _ _ E4) in Hcol; [|done].
           apply (add_float_clause_columns _ _ _ _ _ _ _ E3) in Hcol; [|done].
           apply (add_float_clause_columns _ _ _ _ _ _ _ E2) in Hcol; [|done].
           simpl in Hcol. by apply not_elem_of_nil in Hcol.
      * intros ???? (v1 & v2 & v3 & v4 & E1 & E2 & E3 & E4 & _ & ->)%prepare_mmsi_update_inv.
        rewrite lookup_insert_ne by done.
        rewrite add_status_destination_frame by done.
        rewrite (add_float_value_frame _ _ _ _ _ _ _ E4) by done.
        rewrite (add_float_value_frame _ _ _ _ _ _ _ E3) by done.
        rewrite (add_float_value_frame _ _ _ _ _ _ _ E2) by done.
        rewrite (add_float_value_skip _ _ _ _ _ _ E1 Hz). apply Hbase.
    + split; [|split].
      * intros ?????? (n & v1 & v2 & v3 & v4 & _ & E1 & E2 & E3 & E4 & ->)%prepare_vessel_insert_inv.
        rewrite add_status_destination_frame by done.
        rewrite (add_float_value_frame _ _ _ _ _ _ _ E4) by done.
        rewrite (add_float_value_frame _ _ _ _ _ _ _ E3) by done.
        rewrite (add_float_value_skip _ _ _ _ _ _ E2 Hz).
        by rewrite (add_float_value_frame _ _ _ _ _ _ _ E1) by done.
      * intros ???? (n & a1 & a2 & a3 & a4 & _ & E1 & E2 & E3 & E4 & Hk & Hc)%prepare_vessel_update_frame.
        rewrite (add_float_clause_skip _ _ _ _ _ _ E2 Hz) in E3.
        split.
        -- rewrite Hk by (rewrite !not_elem_of_cons; repeat split; try done; apply not_elem_of_nil).
           rewrite (add_float_clause_frame _ _ _ _ _ _ _ E4) by done.
           rewrite (add_float_clause_frame _ _ _ _ _ _ _ E3) by done.
           by rewrite (add_float_clause_frame _ _ _ _ _ _ _ E1) by done.
        -- intros Hcol. apply Hc in Hcol;
             [|rewrite !not_elem_of_cons; repeat split; try done; apply not_elem_of_nil].
           apply (add_float_clause_columns _ _ _ _ _ _ _ E4) in Hcol; [|done].
           apply (add_float_clause_columns _ _ _ _ _ _ _ E3) in Hcol; [|done].
           apply (add_float_clause_columns _ _ _ _ _ _ _ E1) in Hcol; [|done].
           simpl in Hcol. by apply not_elem_of_nil in Hcol.
      * intros ???? (v1 & v2 & v3 & v4 & E1 & E2 & E3 & E4 & _ & ->)%prepare_mmsi_update_inv.
        rewrite lookup_insert_ne by done.
        rewrite add_status_destination_frame by done.
        rewrite (add_float_value_frame _ _ _ _ _ _ _ E4) by done.
        rewrite (add_float_value_frame _ _ _ _ _ _ _ E3) by done.
        rewrite (add_float_value_skip _ _ _ _ _ _ E2 Hz).
        rewrite (add_float_value_frame _ _ _ _ _ _ _ E1) by done. apply Hbase.
Qed.

End ZeroCoordinates.

(** Witness of C10: an update on the equator is inserted with its longitude
    and without a latitude. *)
Lemma zero_coordinate_treated_as_absent_witness :
  ∃ i, prepare_vessel_insert (H := example_runtime) (db_exists_imo []) 1 "0123456789" 0
         "403456789" Examples.equator_update = Ok i
       ∧ ins_values i !! "ais_last_position_lat" = None
       ∧ ins_values i !! "ais_last_position_lon" = Some (PFloat 39.2).
Proof.
  eexists. split; [vm_compute; reflexivity|]. split; [|vm_compute; reflexivity].
  refine (proj1 (proj2 (zero_coordinate_treated_as_absent (H := example_runtime))
                   Examples.equator_update "latitude" "ais_last_position_lat" _ _)
            (db_exists_imo []) 1 "0123456789" 0%Z "403456789" _ _).
  - apply elem_of_cons. by left.
  - vm_compute. reflexivity.
  - vm_compute. reflexivity.
Defined.

(** ** Decimal numerals *)

Lemma str_of_Z_inj a b : str_of_Z a = str_of_Z b → a = b.
Proof.
  unfold str_of_Z. intros Heq.
  apply DecimalZ.to_int_inj.
  assert (Some (Z.to_int a) = Some (Z.to_int b)) as [= ?]; [|done].
  by rewrite <- !NilEmpty.isi, Heq.
Qed.

Lemma str_of_Z_not_synthetic z : startswith (str_of_Z z) "AIS-" = false.
Proof.
  unfold str_of_Z, startswith, NilEmpty.string_of_int.
  destruct (Z.to_int z) as [d|d]; [|done].
  by destruct d.
Qed.

Lemma append_inj_r (p s t : string) : (p ++ s)%string = (p ++ t)%string → s = t.
Proof. induction p as [|c p IH]; simpl; [done|]. intros [= ?]. by apply IH. Qed.

Lemma append_length (s t : string) :
  String.length (s ++ t)%string = String.length s + String.length t.
Proof. induction s as [|c s IH]; simpl; [done|]. by rewrite IH. Qed.

Lemma imo_candidate_inj base n m : imo_candidate base n = imo_candidate base m → n = m.
Proof.
  destruct n as [|n], m as [|m]; simpl; [done| | |].
  - intros Heq. apply (f_equal String.length) in Heq.
    rewrite append_length in Heq. simpl in Heq. lia.
  - intros Heq. apply (f_equal String.length) in Heq.
    rewrite append_length in Heq. simpl in Heq. lia.
  - intros Heq%append_inj_r. injection Heq as Heq.
    apply str_of_Z_inj in Heq. lia.
Qed.

(** ** The IMO number of a new record *)

Lemma db_exists_imo_strings reg s : db_exists_imo reg s = true → s ∈ imo_strings reg.
Proof.
  unfold db_exists_imo, imo_strings. induction reg as [|row reg IH]; simpl; [done|].
  intros [Hrow|Hrest]%orb_true_iff.
  - destruct (dget row "imo_number"); simpl in Hrow; try done.
    apply String.eqb_eq in Hrow. subst. apply elem_of_cons. by left.
  - destruct (match dget row "imo_number" with PStr s0 => Some s0 | _ => None end);
      [apply elem_of_cons; right|]; by apply IH.
Qed.

Lemma imo_strings_length reg : length (imo_strings reg) ≤ length reg.
Proof.
  unfold imo_strings, omap. induction reg as [|row reg IH]; simpl; [done|].
  destruct (match dget row "imo_number" with PStr s0 => Some s0 | _ => None end); simpl; lia.
Qed.

(** The loop returns the first candidate, from the current one on, that is
    not taken, or the candidate it stopped at when the fuel ran out. *)
Lemma free_imo_first_free taken base fuel j :
  ∃ m, m ≤ fuel
       ∧ free_imo taken base (imo_candidate base j) (Z.of_nat (S j)) fuel
         = imo_candidate base (j + m)
       ∧ (∀ i, i < m → taken (imo_candidate base (j + i)) = true)
       ∧ (m < fuel → taken (imo_candidate base (j + m)) = false).
Proof.
  revert j. induction fuel as [|fuel IH]; intros j; simpl.
  - exists 0. rewrite Nat.add_0_r. repeat split; [done|lia|lia].
  - destruct (taken (imo_candidate base j)) eqn:Et.
    + destruct (IH (S j)) as (m & Hle & Heq & Hbefore & Hfree).
      exists (S m). split; [lia|]. split; [|split].
      * replace (Z.of_nat (S j) + 1)%Z with (Z.of_nat (S (S j))) by lia.
        change (base ++ "-" ++ str_of_Z (Z.of_nat (S j)))%string
          with (imo_candidate base (S j)).
        rewrite Heq. f_equal. lia.
      * intros [|i] Hi; [by rewrite Nat.add_0_r|].
        replace (j + S i) with (S j + i) by lia. apply Hbefore. lia.
      * intros Hm. replace (j + S m) with (S j + m) by lia. apply Hfree. lia.
    + exists 0. rewrite Nat.add_0_r. repeat split; [lia|lia|done].
Qed.

(** With one more test than the registry has rows the loop ends on a free
    identifier: the candidates are pairwise distinct, and only as many as
    there are rows can be taken. *)
Lemma free_imo_terminates reg base :
  ∃ n, free_imo (db_exists_imo reg) base base 1 (S (length reg)) = imo_candidate base n
       ∧ (∀ i, i < n → db_exists_imo reg (imo_candidate base i) = true)
       ∧ db_exists_imo reg (imo_candidate base n) = false.
Proof.
  destruct (free_imo_first_free (db_exists_imo reg) base (S (length reg)) 0)
    as (m & Hle & Heq & Hbefore & Hfree).
  simpl in Heq, Hbefore, Hfree. exists m. repeat split; [done|done|].
  apply Hfree.
  destruct (decide (m < S (length reg))) as [|Hge]; [done|exfalso].
  assert (m = S (length reg)) as -> by lia.
  pose (cands := imo_candidate base <$> seq 0 (S (length reg))).
  assert (NoDup cands) as Hnd.
  { apply NoDup_fmap_2; [|apply NoDup_seq]. intros ??. apply imo_candidate_inj. }
  assert (cands ⊆+ imo_strings reg) as Hsub.
  { apply NoDup_submseteq; [done|].
    intros s (i & -> & Hi)%list_elem_of_fmap. apply elem_of_seq in Hi.
    apply db_exists_imo_strings, Hbefore. lia. }
  apply submseteq_length in Hsub. unfold cands in Hsub.
  rewrite length_fmap, length_seq in Hsub.
  pose proof (imo_strings_length reg). lia.
Qed.

Section InsertImo.
Context `{PyRuntime}.

(** C4: the IMO number of an inserted record.  A genuine IMO that is not in
    the registry is used as it is; when it is taken, or when the update has
    no genuine IMO, the record gets the first identifier of [AIS-<mmsi>],
    [AIS-<mmsi>-1], [AIS-<mmsi>-2], ... that is not taken.  The identifier
    assigned is never one in the registry, and with an empty registry and no
    IMO it is [AIS-<mmsi>]. *)
Theorem insert_imo_assignment (reg : registry) mmsi vessel_data :
  let taken := db_exists_imo reg in
  let imo_number := insert_imo_number taken (S (length reg)) mmsi vessel_data in
  let synthetic :=
    ∃ n, imo_number = imo_candidate ("AIS-" ++ mmsi)%string n
         ∧ ∀ i, i < n → taken (imo_candidate ("AIS-" ++ mmsi)%string i) = true in
  taken imo_number = false
  ∧ match genuine_imo vessel_data with
    | Some z => if taken (str_of_Z z) then synthetic else imo_number = str_of_Z z
    | None => synthetic
    end
  ∧ (reg = [] → genuine_imo vessel_data = None → imo_number = ("AIS-" ++ mmsi)%string)
  ∧ (∀ new_name now i,
       prepare_vessel_insert taken (S (length reg)) new_name now mmsi vessel_data = Ok i →
       ins_values i !! "imo_number" = Some (PStr imo_number)).
Proof.
  intros taken imo_number synthetic.
  assert (startswith ("AIS-" ++ mmsi)%string "AIS-" = true) as Hais.
  { unfold startswith. simpl. by destruct mmsi. }
  assert (insert_imo_number taken (S (length reg)) mmsi vessel_data
          = free_imo taken ("AIS-" ++ mmsi)%string ("AIS-" ++ mmsi)%string 1 (S (length reg))
          → taken imo_number = false ∧ synthetic) as Hsyn.
  { intros Heq. subst imo_number synthetic. rewrite Heq.
    destruct (free_imo_terminates reg ("AIS-" ++ mmsi)%string) as (n & Hn & Hbefore & Hfree).
    subst taken. rewrite Hn. split; [done|]. by exists n. }
  split; [|split; [|split]].
  - unfold imo_number, insert_imo_number in *.
    destruct (genuine_imo vessel_data) as [z|]; [|rewrite Hais in *; by apply Hsyn].
    destruct (taken (str_of_Z z)) eqn:Et; [rewrite Hais in *; by apply Hsyn|].
    by rewrite str_of_Z_not_synthetic.
  - unfold imo_number, insert_imo_number in *.
    destruct (genuine_imo vessel_data) as [z|]; [|rewrite Hais in *; by apply Hsyn].
    destruct (taken (str_of_Z z)) eqn:Et; [rewrite Hais in *; by apply Hsyn|].
    by rewrite str_of_Z_not_synthetic.
  - intros -> Hg. unfold imo_number, insert_imo_number. rewrite Hg, Hais. done.
  - intros new_name now i Hi.
    destruct (prepare_vessel_insert_fixed _ _ _ _ _ _ _ "imo_number" Hi) as (n & _ & Hv).
    { rewrite !not_elem_of_cons. repeat split; try done. apply not_elem_of_nil. }
    rewrite Hv. unfold insert_base.
    rewrite !lookup_insert_ne by done. by rewrite lookup_insert_eq.
Qed.

End InsertImo.

(** Witness of C4: the genuine IMO and [AIS-999] are both in the registry;
    the new record gets [AIS-999-1], which is free. *)
Lemma insert_imo_assignment_witness :
  insert_imo_number (db_exists_imo Examples.crowded_registry) 3 "999"
    Examples.colliding_update = "AIS-999-1"
  ∧ db_exists_imo Examples.crowded_registry
      (insert_imo_number (db_exists_imo Examples.crowded_registry) 3 "999"
         Examples.colliding_update) = false.
Proof.
  split; [vm_compute; reflexivity|].
  exact (proj1 (insert_imo_assignment (H := example_runtime) Examples.crowded_registry
                  "999" Examples.colliding_update)).
Defined.

(** An update without an IMO, on an empty registry, is inserted under the
    synthetic IMO of its mmsi. *)
Example empty_registry_insert :
  let out := update_vessel_ais_batch (H := example_runtime) [] []
               (fun _ => Examples.noon) [Examples.moved_update] in
  bo_status out = Ok 1
  ∧ (fun row => dget row "imo_number") <$> bo_registry out = [PStr "AIS-403456789"]
  ∧ (fun row => dget row "ais_mmsi") <$> bo_registry out = [PStr "403456789"]
  ∧ (fun row => dget row "vessel_name") <$> bo_registry out
    = [PStr "Unknown Vessel 403456789"].
Proof. vm_compute. repeat split. Qed.

(** ** Batch execution *)

Section ExecutorFacts.
Context `{PyRuntime} {DB : Type}.
Variable sql_insert : DB → InsertStmt → DB + string.
Implicit Types (db : DB) (inserts : list InsertStmt) (log : list string).

Lemma run_inserts_all_duplicates inserts db log :
  Forall (fun f => is_duplicate_imo f.2 = true) (failed_inserts sql_insert db inserts) →
  run_inserts sql_insert inserts db log
  = (attempt_all sql_insert db inserts,
     log ++ (skipped_line <$> failed_inserts sql_insert db inserts), Ok ()).
Proof.
  revert db log. induction inserts as [|insert rest IH]; intros db log Hdup; simpl.
  - by rewrite app_nil_r.
  - simpl in Hdup. destruct (sql_insert db insert) as [db'|msg].
    + by apply IH.
    + apply Forall_cons in Hdup as [Hmsg Hrest]. simpl in Hmsg. rewrite Hmsg.
      rewrite IH by done. unfold py_append. simpl. by rewrite <- app_assoc.
Qed.

Lemma run_inserts_fatal inserts db log dups f later :
  failed_inserts sql_insert db inserts = dups ++ f :: later →
  Forall (fun f => is_duplicate_imo f.2 = true) dups →
  is_duplicate_imo f.2 = false →
  ∃ db', run_inserts sql_insert inserts db log
         = (db', log ++ (skipped_line <$> dups), Raise (DbError f.2)).
Proof.
  revert db log dups. induction inserts as [|insert rest IH]; intros db log dups Hf Hdup Hfat.
  - simpl in Hf. by destruct dups.
  - simpl in Hf |- *. destruct (sql_insert db insert) as [db'|msg].
    + by eapply IH.
    + destruct dups as [|d dups]; simpl in Hf; injection Hf as Hhd Htl.
      * subst f. simpl in Hfat. rewrite Hfat. exists db. by rewrite app_nil_r.
      * subst d. apply Forall_cons in Hdup as [Hmsg Hdup]. simpl in Hmsg. rewrite Hmsg.
        destruct (IH db (py_append log (skipped_line (insert, msg))) dups Htl Hdup Hfat)
          as (db' & Hrun).
        exists db'. etrans; [exact Hrun|].
        unfold py_append. simpl. by rewrite <- app_assoc.
Qed.

(** C7: when the failures of a group of inserts are all duplicate-IMO
    failures, each failing insert is skipped with a printed line, every
    other insert is applied, and the group commits; the first failure of any
    other kind ends the group: the transaction is rolled back and the error
    is raised to the caller. *)
Theorem duplicate_imo_skipped_other_errors_abort inserts (t : Txn DB) :
  let out := execute_batch_inserts sql_insert inserts t in
  let failed := failed_inserts sql_insert (working t) inserts in
  (Forall (fun f => is_duplicate_imo f.2 = true) failed →
     eo_result out = Ok ()
     ∧ working (eo_txn out) = attempt_all sql_insert (working t) inserts
     ∧ (inserts ≠ [] → committed (eo_txn out) = attempt_all sql_insert (working t) inserts)
     ∧ eo_log out = skipped_line <$> failed)
  ∧ (∀ dups f later,
       failed = dups ++ f :: later →
       Forall (fun f => is_duplicate_imo f.2 = true) dups →
       is_duplicate_imo f.2 = false →
       eo_result out = Raise (DbError f.2)
       ∧ eo_txn out = db_rollback t
       ∧ eo_log out = (skipped_line <$> dups) ++ ["Batch insert error: " ++ f.2]%string).
Proof.
  intros out failed. subst out failed. split.
  - intros Hdup. unfold execute_batch_inserts.
    destruct inserts as [|insert rest] eqn:Ei; [done|]. rewrite <- Ei in *.
    rewrite (run_inserts_all_duplicates _ _ [] Hdup). simpl.
    repeat split; done.
  - intros dups f later Hf Hdup Hfat. unfold execute_batch_inserts.
    destruct inserts as [|insert rest] eqn:Ei; [by destruct dups|]. rewrite <- Ei in *.
    destruct (run_inserts_fatal _ _ [] _ _ _ Hf Hdup Hfat) as (db' & ->). simpl.
    repeat split; done.
Qed.

End ExecutorFacts.

(** Witness of C7: the first insert collides with an IMO of the registry and
    is skipped, the second is applied and committed. *)
Lemma duplicate_imo_skipped_other_errors_abort_witness :
  let out := execute_batch_inserts (H := example_runtime) db_sql_insert
               [Examples.duplicate_insert; Examples.fresh_insert] Examples.crowded_txn in
  eo_result out = Ok ()
  ∧ (fun row => dget row "imo_number") <$> committed (eo_txn out)
    = [PStr "9123456"; PStr "AIS-999"; PStr "AIS-555"]
  ∧ eo_log out = ["Duplicate IMO detected, skipping insert for MMSI: 999"].
Proof.
  destruct (proj1 (duplicate_imo_skipped_other_errors_abort (H := example_runtime)
                     db_sql_insert [Examples.duplicate_insert; Examples.fresh_insert]
                     Examples.crowded_txn))
    as (Hres & _ & Hcommit & Hlog).
  { vm_compute. repeat constructor. }
  split; [exact Hres|]. split.
  - rewrite Hcommit by done. vm_compute. reflexivity.
  - rewrite Hlog. vm_compute. reflexivity.
Defined.

(** ** Identity resolution *)

Lemma last_match_Some {A} (p : A → bool) l x :
  last_match p l = Some x → x ∈ l ∧ p x = true.
Proof.
  induction l as [|y l IH]; simpl; [done|].
  destruct (last_match p l) as [z|].
  - intros [= ->]. destruct IH as [Hin Hp]; [done|]. split; [|done].
    apply elem_of_cons. by right.
  - destruct (p y) eqn:Hy; [|done]. intros [= ->]. split; [|done].
    apply elem_of_cons. by left.
Qed.

Lemma last_match_None {A} (p : A → bool) l :
  last_match p l = None ↔ ∀ x, x ∈ l → p x = false.
Proof.
  induction l as [|y l IH]; simpl.
  - split; [|done]. intros _ x Hx. by apply elem_of_nil in Hx.
  - destruct (last_match p l) as [z|] eqn:Hl.
    + split; [done|]. intros Hall.
      apply last_match_Some in Hl as [Hin Hp].
      rewrite Hall in Hp; [done|]. apply elem_of_cons. by right.
    + destruct (p y) eqn:Hy.
      * split; [done|]. intros Hall. rewrite Hall in Hy; [done|].
        apply elem_of_cons. by left.
      * split; [|done]. intros _ x [->|Hx]%elem_of_cons; [done|].
        by apply IH.
Qed.

Lemma last_match_ext {A} (p p' : A → bool) l :
  (∀ x, p x = p' x) → last_match p l = last_match p' l.
Proof. intros Hp. induction l as [|x l IH]; simpl; [done|]. by rewrite IH, Hp. Qed.

Lemma last_match_fmap_filter {A B} (f : A → B) (p : B → bool) (q : A → bool) l :
  (∀ x, p (f x) = true → q x = true) →
  last_match p (f <$> List.filter q l) = f <$> last_match (fun x => p (f x)) l.
Proof.
  intros Hpq. induction l as [|x l IH]; [done|].
  cbn [List.filter last_match]. destruct (q x) eqn:Hq.
  - rewrite fmap_cons. cbn [last_match]. rewrite IH.
    destruct (last_match _ l); simpl; [done|]. by destruct (p (f x)).
  - rewrite IH. destruct (last_match _ l); simpl; [done|].
    destruct (p (f x)) eqn:Hp; [|done]. apply Hpq in Hp. congruence.
Qed.

Lemma str_of_Z_nonempty z : str_of_Z z ≠ "".
Proof.
  unfold str_of_Z. intros Heq.
  assert (NilEmpty.int_of_string (NilEmpty.string_of_int (Z.to_int z))
          = NilEmpty.int_of_string "") as Hint by by rewrite Heq.
  rewrite NilEmpty.isi in Hint. simpl in Hint. injection Hint as Hint.
  pose proof (DecimalZ.of_to z) as Hz. rewrite Hint in Hz. simpl in Hz. subst z.
  discriminate Hint.
Qed.

Lemma startswith_append p s : startswith (p ++ s)%string p = true.
Proof.
  unfold startswith. induction p as [|c p IH]; simpl; [by destruct s|].
  destruct (ascii_dec c c); [done|congruence].
Qed.

Lemma select_record_get row c :
  c ∈ selected_columns → dget (select_record row) c = dget row c.
Proof.
  unfold selected_columns, select_record. rewrite !elem_of_cons.
  intros [->|[->|[->|[->|[->|Hc]]]]]; [..|by apply elem_of_nil in Hc];
    unfold dget at 1; simpl;
    rewrite ?lookup_insert_ne by done; by rewrite lookup_insert_eq.
Qed.

Lemma select_record_truthy row : record_truthy (Some (select_record row)) = true.
Proof.
  unfold record_truthy. rewrite bool_decide_eq_false_2; [done|].
  intros Heq. apply (f_equal (lookup "name")) in Heq.
  unfold select_record in Heq. simpl in Heq.
  by rewrite lookup_insert_eq, lookup_empty in Heq.
Qed.

Lemma by_mmsi_select mmsi row : by_mmsi mmsi (select_record row) = by_mmsi mmsi row.
Proof.
  unfold by_mmsi. rewrite select_record_get; [done|].
  unfold selected_columns. rewrite !elem_of_cons. tauto.
Qed.

Lemma by_imo_select imo row : by_imo imo (select_record row) = by_imo imo row.
Proof.
  unfold by_imo. rewrite select_record_get; [done|].
  unfold selected_columns. rewrite !elem_of_cons. tauto.
Qed.

Lemma row_wf_select row : row_wf (select_record row) = row_wf row.
Proof.
  unfold row_wf. rewrite !select_record_get; [done|..];
    unfold selected_columns; rewrite !elem_of_cons; tauto.
Qed.

Section Indexing.
Context `{PyRuntime}.
Implicit Types (existing_vessels : gmap string dict) (record row : dict).

Lemma imo_key_not_mmsi m s : startswith m "IMO-" = false → m ≠ ("IMO-" ++ s)%string.
Proof. intros Hm ->. by rewrite startswith_append in Hm. Qed.

Lemma index_record_lookup existing_vessels record :
  row_wf record = true →
  ∃ ev', index_record existing_vessels record = Ok ev'
    ∧ (∀ k, startswith k "IMO-" = false →
         ev' !! k = if by_mmsi k record then Some record else existing_vessels !! k)
    ∧ (∀ s, ev' !! ("IMO-" ++ s)%string
            = if by_imo s record then Some record
              else existing_vessels !! ("IMO-" ++ s)%string).
Proof.
  unfold row_wf, index_record, by_mmsi, by_imo.
  intros [[_ Hm]%andb_true_iff Hi]%andb_true_iff.
  set (ev1 := match dget record "ais_mmsi" with
              | PStr k => <[k:=record]> existing_vessels
              | _ => existing_vessels
              end).
  assert (∀ k, startswith k "IMO-" = false →
            ev1 !! k = if sql_eq (dget record "ais_mmsi") (PStr k)
                       then Some record else existing_vessels !! k) as Hev1.
  { intros k Hk. subst ev1. destruct (dget record "ais_mmsi") as [| | |m|]; try done.
    simpl. destruct (String.eqb_spec m k) as [->|Hne].
    - by rewrite lookup_insert_eq.
    - by rewrite lookup_insert_ne. }
  assert (∀ s, ev1 !! ("IMO-" ++ s)%string = existing_vessels !! ("IMO-" ++ s)%string) as Hev1'.
  { intros s. subst ev1. destruct (dget record "ais_mmsi") as [| | |m|]; try done.
    apply negb_true_iff in Hm. rewrite lookup_insert_ne; [done|].
    by apply imo_key_not_mmsi. }
  clearbody ev1.
  destruct (dget record "imo_number") as [| | |i|]; try done; simpl.
  { exists ev1. split; [done|]. split; [done|]. intros s. apply Hev1'. }
  destruct (String.eqb_spec i "") as [->|Hne]; simpl.
  { exists ev1. split; [done|]. split; [done|]. intros s. rewrite Hev1'.
    by destruct s. }
  destruct (startswith i "AIS-") eqn:Hais.
  { exists ev1. split; [done|]. split; [done|]. intros s. rewrite Hev1'.
    destruct (String.eqb_spec i s) as [<-|]; [|done].
    rewrite Hais. by rewrite andb_false_r. }
  eexists. split; [done|]. split.
  - intros k Hk. rewrite lookup_insert_ne; [by apply Hev1|].
    intros Heq. symmetry in Heq. by apply imo_key_not_mmsi in Heq.
  - intros s. destruct (String.eqb_spec i s) as [<-|Hs]; simpl.
    + rewrite Hais. destruct (String.eqb_spec i "") as [|_]; [done|]. simpl.
      by rewrite lookup_insert_eq.
    + rewrite lookup_insert_ne; [apply Hev1'|].
      intros Heq%append_inj_r. done.
Qed.

Lemma index_records_lookup existing_vessels records :
  forallb row_wf records = true →
  ∃ ev', index_records existing_vessels records = Ok ev'
    ∧ (∀ k, startswith k "IMO-" = false →
         ev' !! k = match last_match (by_mmsi k) records with
                    | Some r => Some r
                    | None => existing_vessels !! k
                    end)
    ∧ (∀ s, ev' !! ("IMO-" ++ s)%string
            = match last_match (by_imo s) records with
              | Some r => Some r
              | None => existing_vessels !! ("IMO-" ++ s)%string
              end).
Proof.
  revert existing_vessels.
  induction records as [|record rest IH]; intros existing_vessels Hwf; simpl.
  - by exists existing_vessels.
  - simpl in Hwf. apply andb_true_iff in Hwf as [Hr Hrest].
    destruct (index_record_lookup existing_vessels record Hr) as (ev1 & -> & Hm1 & Hi1).
    simpl. destruct (IH ev1 Hrest) as (ev' & -> & Hm & Hi).
    exists ev'. split; [done|]. split.
    + intros k Hk. rewrite Hm by done.
      destruct (last_match (by_mmsi k) rest); [done|]. rewrite Hm1 by done.
      by destruct (by_mmsi k record).
    + intros s. rewrite Hi. destruct (last_match (by_imo s) rest); [done|]. rewrite Hi1.
      by destruct (by_imo s record).
Qed.

(** The dictionary [existing_vessels] that the batch builds gives, for the
    mmsi of an update of the batch, the last registry row with that mmsi,
    and for its genuine IMO the last row with that IMO. *)
Lemma collect_existing_lookup (reg : registry) vessels_data vessel_data :
  registry_wf reg = true →
  vessel_data ∈ vessels_data →
  truthy (dget vessel_data "mmsi") = true →
  startswith (py_str (dget vessel_data "mmsi")) "IMO-" = false →
  ∃ existing_vessels,
    collect_existing reg vessels_data = Ok existing_vessels
    ∧ existing_vessels !! py_str (dget vessel_data "mmsi")
      = select_record <$> last_match (by_mmsi (py_str (dget vessel_data "mmsi"))) reg
    ∧ ∀ z, genuine_imo vessel_data = Some z →
        existing_vessels !! ("IMO-" ++ str_of_Z z)%string
        = select_record <$> last_match (by_imo (str_of_Z z)) reg.
Proof.
  intros Hwf Hin Hmmsi Hpre. unfold collect_existing.
  assert (py_str (dget vessel_data "mmsi") ∈ mmsi_list_of vessels_data) as Hml.
  { unfold mmsi_list_of. apply list_elem_of_fmap. exists vessel_data. split; [done|].
    apply list_elem_of_In, filter_In. split; [by apply list_elem_of_In|done]. }
  destruct (mmsi_list_of vessels_data) as [|m0 ml] eqn:Eml; [by apply elem_of_nil in Hml|].
  rewrite <- Eml in *. clear Eml m0 ml.
  set (q := fun row : dict =>
              sql_in (dget row "ais_mmsi") (mmsi_list_of vessels_data)
              || sql_in (dget row "imo_number") (imo_numbers_of vessels_data ++ ["dummy"])).
  destruct (index_records_lookup ∅ (db_select_existing reg (mmsi_list_of vessels_data)
              (imo_numbers_of vessels_data ++ ["dummy"]))) as (ev & Hev & Hm & Hi).
  { unfold db_select_existing. fold q. unfold registry_wf in Hwf.
    rewrite forallb_forall in Hwf |- *. intros r Hr.
    apply list_elem_of_In, list_elem_of_fmap in Hr as (row & -> & Hrow).
    rewrite row_wf_select. apply Hwf.
    apply list_elem_of_In, filter_In in Hrow as [Hrow _]. done. }
  exists ev. split; [done|]. split.
  - rewrite Hm by done. unfold db_select_existing. fold q.
    rewrite last_match_fmap_filter.
    + rewrite lookup_empty.
      rewrite (last_match_ext _ (by_mmsi (py_str (dget vessel_data "mmsi"))))
        by (intros row; apply by_mmsi_select).
      by destruct (last_match _ reg).
    + intros row. rewrite by_mmsi_select. unfold by_mmsi, q.
      destruct (dget row "ais_mmsi") as [| | |m|]; try done. simpl.
      intros ->%String.eqb_eq. by rewrite bool_decide_eq_true_2.
  - intros z Hz. rewrite Hi. unfold db_select_existing. fold q.
    rewrite last_match_fmap_filter.
    + rewrite lookup_empty.
      rewrite (last_match_ext _ (by_imo (str_of_Z z)))
        by (intros row; apply by_imo_select).
      by destruct (last_match _ reg).
    + intros row. rewrite by_imo_select. unfold by_imo, q.
      destruct (dget row "imo_number") as [| | |i|]; try done. simpl.
      intros [[->%String.eqb_eq _]%andb_true_iff _]%andb_true_iff.
      rewrite (bool_decide_eq_true_2 (str_of_Z z ∈ _)); [apply orb_true_r|].
      apply elem_of_app. left. unfold imo_numbers_of.
      apply list_elem_of_omap. exists vessel_data. split; [done|]. by rewrite Hz.
Qed.

End Indexing.

Lemma sql_eq_PStr v s : sql_eq v (PStr s) = true ↔ v = PStr s.
Proof.
  destruct v; simpl; try (split; [done|discriminate]).
  rewrite String.eqb_eq. split; [by intros ->|by intros [= ->]].
Qed.

Lemma by_imo_genuine z row :
  by_imo (str_of_Z z) row = true ↔ dget row "imo_number" = PStr (str_of_Z z).
Proof.
  unfold by_imo. rewrite str_of_Z_not_synthetic.
  destruct (String.eqb_spec (str_of_Z z) "") as [He|_]; [by apply str_of_Z_nonempty in He|].
  simpl. rewrite !andb_true_r. apply sql_eq_PStr.
Qed.

Section Resolver.
Context `{PyRuntime}.

(** One iteration of the loop does what [resolve] says. *)
Lemma batch_step_resolve (reg : registry) vessels_data vessel_data env vessel_cache :
  registry_wf reg = true →
  vessel_data ∈ vessels_data →
  truthy (dget vessel_data "mmsi") = true →
  py_str (dget vessel_data "mmsi") ≠ "" →
  startswith (py_str (dget vessel_data "mmsi")) "IMO-" = false →
  ∃ existing_vessels,
    collect_existing reg vessels_data = Ok existing_vessels
    ∧ batch_step reg existing_vessels env vessel_data vessel_cache
      = let mmsi := py_str (dget vessel_data "mmsi") in
        match resolve reg mmsi vessel_data with
        | Update row => gate_then_update mmsi vessel_data (select_record row) env vessel_cache
        | IdentityMerge row =>
            (vessel_cache,
             d ← prepare_mmsi_update mmsi vessel_data (select_record row) (env_now env);
             Ok (AddUpdate (DataFormat d)))
        | Insert =>
            (vessel_cache,
             i ← prepare_vessel_insert (db_exists_imo reg) (S (length reg)) (env_hash env)
                    (env_now env) mmsi vessel_data;
             Ok (AddInsert i))
        end.
Proof.
  intros Hwf Hin Hmmsi Hne Hpre.
  destruct (collect_existing_lookup reg vessels_data vessel_data Hwf Hin Hmmsi Hpre)
    as (ev & Hev & Hm & Hi).
  exists ev. split; [done|]. unfold batch_step, resolve. cbv zeta.
  apply String.eqb_neq in Hne. rewrite Hne, Hm.
  destruct (last_match (by_mmsi _) reg) as [row|]; cbn [fmap option_fmap option_map].
  - rewrite select_record_truthy. simpl. rewrite select_record_truthy.
    unfold gate_then_update.
    by destruct (should_update_vessel _ _ _ _ _) as [c [[]|]].
  - assert (record_truthy None = false) as Hnone by done. rewrite !Hnone.
    cbn [negb]. destruct (genuine_imo vessel_data) as [z|] eqn:Hz;
      cbn [fmap option_fmap option_map default from_option id].
    + rewrite (Hi z eq_refl).
      destruct (last_match (by_imo _) reg) as [row|]; cbn [fmap option_fmap option_map].
      * rewrite select_record_truthy.
        rewrite bool_decide_eq_true_2 by (by eexists). done.
      * rewrite !Hnone, andb_false_r. done.
    + rewrite !Hnone, bool_decide_eq_false_2 by (by intros [? ?]). done.
Qed.

(** Applying an identity merge: the row found by its IMO gets the incoming
    mmsi, and no row changes its [name]. *)
Lemma identity_merge_application (reg : registry) mmsi vessel_data row now d :
  row_wf row = true →
  prepare_mmsi_update mmsi vessel_data (select_record row) now = Ok d →
  sv_name d = dget row "name"
  ∧ ∃ reg', db_set_value reg d = inl reg'
      ∧ Forall2 (fun r r' : dict =>
                   dget r' "name" = dget r "name"
                   ∧ if sql_eq (dget r "name") (dget row "name")
                     then dget r' "ais_mmsi" = PStr mmsi
                     else r' = r) reg reg'.
Proof.
  intros Hwf Hd.
  assert (sv_data d !! "name" = None) as Hname.
  { rewrite (prepare_mmsi_update_fixed _ _ _ _ _ "name" Hd)
      by (rewrite !not_elem_of_cons; repeat split; try done; apply not_elem_of_nil).
    unfold mmsi_update_base.
    repeat match goal with |- context [if ?b then _ else _] => destruct b end; done. }
  assert (sv_data d !! "ais_mmsi" = Some (PStr mmsi)) as Hmmsi.
  { rewrite (prepare_mmsi_update_fixed _ _ _ _ _ "ais_mmsi" Hd)
      by (rewrite !not_elem_of_cons; repeat split; try done; apply not_elem_of_nil).
    unfold mmsi_update_base.
    repeat match goal with |- context [if ?b then _ else _] => destruct b end; done. }
  apply prepare_mmsi_update_inv in Hd as (_ & _ & _ & _ & _ & _ & _ & _ & Hsv & _).
  rewrite select_record_get in Hsv
    by (unfold selected_columns; rewrite !elem_of_cons; tauto).
  split; [done|]. eexists. split; [done|].
  apply Forall2_fmap_r, Forall_Forall2_diag, Forall_forall. intros r _.
  rewrite Hsv. unfold compose. destruct (sql_eq (dget r "name") (dget row "name")); [|done].
  unfold dget. split.
  - by rewrite lookup_union_r.
  - by rewrite (lookup_union_Some_l _ _ _ _ Hmmsi).
Qed.

(** The update prepared for an existing record is addressed to that record. *)
Lemma prepared_update_target mmsi vessel_data row now u :
  prepare_vessel_update mmsi vessel_data (select_record row) now = Ok u →
  dget (upd_values u) "vessel_name" = dget row "name".
Proof.
  intros (name & a1 & a2 & a3 & a4 & Hn & E1 & E2 & E3 & E4 & Hk & _)%prepare_vessel_update_frame.
  unfold dget at 1.
  rewrite Hk by (rewrite !not_elem_of_cons; repeat split; try done; apply not_elem_of_nil).
  rewrite (add_float_clause_frame _ _ _ _ _ _ _ E4) by done.
  rewrite (add_float_clause_frame _ _ _ _ _ _ _ E3) by done.
  rewrite (add_float_clause_frame _ _ _ _ _ _ _ E2) by done.
  rewrite (add_float_clause_frame _ _ _ _ _ _ _ E1) by done.
  cbn [fst snd]. rewrite lookup_singleton_eq. cbn [default from_option id].
  rewrite <- (select_record_get row "name")
    by (unfold selected_columns; rewrite !elem_of_cons; tauto).
  unfold dget. by rewrite Hn.
Qed.

End Resolver.

Section ResolverTheorems.
Context `{PyRuntime}.

(** C3: the resolver's precedence.  For an update of the batch, with [mmsi]
    its working identity: when a registry row has that mmsi, the iteration
    is an update of that row (prepared once the change gate has accepted
    it); otherwise, when the update has a genuine IMO and a row has that
    IMO, it is an identity merge on that row, and applying it gives the row
    the incoming mmsi and leaves every [name] as it was; otherwise it is an
    insert. *)
Theorem resolver_precedence (reg : registry) vessels_data vessel_data env vessel_cache :
  registry_wf reg = true →
  vessel_data ∈ vessels_data →
  truthy (dget vessel_data "mmsi") = true →
  py_str (dget vessel_data "mmsi") ≠ "" →
  startswith (py_str (dget vessel_data "mmsi")) "IMO-" = false →
  let mmsi := py_str (dget vessel_data "mmsi") in
  ∃ existing_vessels,
    collect_existing reg vessels_data = Ok existing_vessels
    ∧ let step := batch_step reg existing_vessels env vessel_data vessel_cache in
      match resolve reg mmsi vessel_data with
      | Update row =>
          row ∈ reg ∧ dget row "ais_mmsi" = PStr mmsi
          ∧ step = gate_then_update mmsi vessel_data (select_record row) env vessel_cache
          ∧ ∀ u, prepare_vessel_update mmsi vessel_data (select_record row) (env_now env)
                 = Ok u →
                 dget (upd_values u) "vessel_name" = dget row "name"
      | IdentityMerge row =>
          (∀ r, r ∈ reg → dget r "ais_mmsi" ≠ PStr mmsi)
          ∧ row ∈ reg
          ∧ (∃ z, genuine_imo vessel_data = Some z
                  ∧ dget row "imo_number" = PStr (str_of_Z z))
          ∧ step = (vessel_cache,
                    d ← prepare_mmsi_update mmsi vessel_data (select_record row) (env_now env);
                    Ok (AddUpdate (DataFormat d)))
          ∧ ∀ d, prepare_mmsi_update mmsi vessel_data (select_record row) (env_now env)
                 = Ok d →
                 sv_name d = dget row "name"
                 ∧ ∃ reg', db_set_value reg d = inl reg'
                     ∧ Forall2 (fun r r' : dict =>
                                  dget r' "name" = dget r "name"
                                  ∧ if sql_eq (dget r "name") (dget row "name")
                                    then dget r' "ais_mmsi" = PStr mmsi
                                    else r' = r) reg reg'
      | Insert =>
          (∀ r, r ∈ reg → dget r "ais_mmsi" ≠ PStr mmsi)
          ∧ (∀ z r, genuine_imo vessel_data = Some z → r ∈ reg →
                    dget r "imo_number" ≠ PStr (str_of_Z z))
          ∧ step = (vessel_cache,
                    i ← prepare_vessel_insert (db_exists_imo reg) (S (length reg))
                           (env_hash env) (env_now env) mmsi vessel_data;
                    Ok (AddInsert i))
      end.
Proof.
  intros Hwf Hin Hmmsi Hne Hpre mmsi.
  destruct (batch_step_resolve reg vessels_data vessel_data env vessel_cache
              Hwf Hin Hmmsi Hne Hpre) as (ev & Hev & Hstep).
  exists ev. split; [done|]. cbv zeta in Hstep |- *. fold mmsi in Hstep.
  assert (∀ r, last_match (by_mmsi mmsi) reg = None → r ∈ reg →
               dget r "ais_mmsi" ≠ PStr mmsi) as Hnone.
  { intros r Hl Hr Hd. rewrite last_match_None in Hl. specialize (Hl r Hr).
    unfold by_mmsi in Hl. apply sql_eq_PStr in Hd. congruence. }
  unfold resolve in *.
  destruct (last_match (by_mmsi mmsi) reg) as [row|] eqn:Hm.
  - apply last_match_Some in Hm as [Hrow Hby]. apply sql_eq_PStr in Hby.
    split; [exact Hrow|]. split; [exact Hby|]. split; [exact Hstep|].
    intros u. apply prepared_update_target.
  - destruct (genuine_imo vessel_data) as [z|] eqn:Hz.
    + destruct (last_match (by_imo (str_of_Z z)) reg) as [row|] eqn:Hi.
      * apply last_match_Some in Hi as [Hrow Hby]. apply by_imo_genuine in Hby.
        split; [intros r; by apply Hnone|]. split; [exact Hrow|].
        split; [exists z; by split|]. split; [exact Hstep|].
        intros d. apply identity_merge_application.
        unfold registry_wf in Hwf. rewrite forallb_forall in Hwf.
        apply Hwf, list_elem_of_In, Hrow.
      * split; [intros r; by apply Hnone|]. split; [|exact Hstep].
        intros z' r [= <-] Hr Hd. rewrite last_match_None in Hi.
        specialize (Hi r Hr). apply by_imo_genuine in Hd. congruence.
    + split; [intros r; by apply Hnone|]. split; [|exact Hstep].
      intros z' r Hz'. discriminate Hz'.
Qed.

(** C9: an update whose mmsi is in no registry row and whose genuine IMO is
    in one becomes an identity merge whatever the cache holds and whatever
    the time is: the change gate is not consulted and the cache is left as
    it is. *)
Theorem identity_merge_bypasses_change_gate (reg : registry) vessels_data vessel_data z row :
  registry_wf reg = true →
  vessel_data ∈ vessels_data →
  truthy (dget vessel_data "mmsi") = true →
  py_str (dget vessel_data "mmsi") ≠ "" →
  startswith (py_str (dget vessel_data "mmsi")) "IMO-" = false →
  (∀ r, r ∈ reg → dget r "ais_mmsi" ≠ PStr (py_str (dget vessel_data "mmsi"))) →
  genuine_imo vessel_data = Some z →
  row ∈ reg → dget row "imo_number" = PStr (str_of_Z z) →
  ∃ existing_vessels record,
    collect_existing reg vessels_data = Ok existing_vessels
    ∧ record ∈ reg ∧ dget record "imo_number" = PStr (str_of_Z z)
    ∧ ∀ env vessel_cache,
        batch_step reg existing_vessels env vessel_data vessel_cache
        = (vessel_cache,
           d ← prepare_mmsi_update (py_str (dget vessel_data "mmsi")) vessel_data
                  (select_record record) (env_now env);
           Ok (AddUpdate (DataFormat d))).
Proof.
  intros Hwf Hin Hmmsi Hne Hpre Hnomatch Hz Hrow Himo.
  assert (last_match (by_mmsi (py_str (dget vessel_data "mmsi"))) reg = None) as Hm.
  { apply last_match_None. intros r Hr. specialize (Hnomatch r Hr).
    unfold by_mmsi. destruct (sql_eq _ _) eqn:E; [|done]. by apply sql_eq_PStr in E. }
  destruct (last_match (by_imo (str_of_Z z)) reg) as [record|] eqn:Hi.
  2:{ rewrite last_match_None in Hi. specialize (Hi row Hrow).
      apply by_imo_genuine in Himo. congruence. }
  destruct (batch_step_resolve reg vessels_data vessel_data Examples.noon []
              Hwf Hin Hmmsi Hne Hpre) as (ev & Hev & _).
  exists ev, record. split; [done|].
  apply last_match_Some in Hi as Hrec. destruct Hrec as [Hrec Hby].
  apply by_imo_genuine in Hby. split; [done|]. split; [done|].
  intros env vessel_cache.
  destruct (batch_step_resolve reg vessels_data vessel_data env vessel_cache
              Hwf Hin Hmmsi Hne Hpre) as (ev' & Hev' & Hstep).
  rewrite Hev in Hev'. injection Hev' as <-.
  rewrite Hstep. unfold resolve. cbv zeta. rewrite Hm, Hz, Hi. reflexivity.
Qed.

End ResolverTheorems.

(** Witness of C3: the identity-merge scenario.  The registry has one record
    with IMO 9123456 and mmsi 111; the update has mmsi 222 and that IMO. *)
Lemma resolver_precedence_witness :
  let mmsi := py_str (H := example_runtime) (dget Examples.merge_update "mmsi") in
  ∃ existing_vessels,
    collect_existing (H := example_runtime) Examples.merge_registry [Examples.merge_update]
    = Ok existing_vessels
    ∧ let step := batch_step (H := example_runtime) Examples.merge_registry existing_vessels
                    Examples.noon Examples.merge_update [] in
      match resolve Examples.merge_registry mmsi Examples.merge_update with
      | Update row =>
          row ∈ Examples.merge_registry ∧ dget row "ais_mmsi" = PStr mmsi
          ∧ step = gate_then_update (H := example_runtime) mmsi Examples.merge_update
                     (select_record row) Examples.noon []
          ∧ ∀ u, prepare_vessel_update (H := example_runtime) mmsi Examples.merge_update
                   (select_record row) (env_now Examples.noon) = Ok u →
                 dget (upd_values u) "vessel_name" = dget row "name"
      | IdentityMerge row =>
          (∀ r, r ∈ Examples.merge_registry → dget r "ais_mmsi" ≠ PStr mmsi)
          ∧ row ∈ Examples.merge_registry
          ∧ (∃ z, genuine_imo Examples.merge_update = Some z
                  ∧ dget row "imo_number" = PStr (str_of_Z z))
          ∧ step = (([] : list (string * float)),
                    d ← prepare_mmsi_update (H := example_runtime) mmsi Examples.merge_update
                           (select_record row) (env_now Examples.noon);
                    Ok (AddUpdate (DataFormat d)))
          ∧ ∀ d, prepare_mmsi_update (H := example_runtime) mmsi Examples.merge_update
                   (select_record row) (env_now Examples.noon) = Ok d →
                 sv_name d = dget row "name"
                 ∧ ∃ reg', db_set_value Examples.merge_registry d = inl reg'
                     ∧ Forall2 (fun r r' : dict =>
                                  dget r' "name" = dget r "name"
                                  ∧ if sql_eq (dget r "name") (dget row "name")
                                    then dget r' "ais_mmsi" = PStr mmsi
                                    else r' = r) Examples.merge_registry reg'
      | Insert =>
          (∀ r, r ∈ Examples.merge_registry → dget r "ais_mmsi" ≠ PStr mmsi)
          ∧ (∀ z r, genuine_imo Examples.merge_update = Some z →
                    r ∈ Examples.merge_registry →
                    dget r "imo_number" ≠ PStr (str_of_Z z))
          ∧ step = (([] : list (string * float)),
                    i ← prepare_vessel_insert (H := example_runtime)
                           (db_exists_imo Examples.merge_registry)
                           (S (length Examples.merge_registry))
                           (env_hash Examples.noon) (env_now Examples.noon) mmsi
                           Examples.merge_update;
                    Ok (AddInsert i))
      end.
Proof.
  apply (resolver_precedence (H := example_runtime) Examples.merge_registry
           [Examples.merge_update] Examples.merge_update Examples.noon []).
  - vm_compute. reflexivity.
  - apply list_elem_of_singleton. reflexivity.
  - vm_compute. reflexivity.
  - vm_compute. intros E. discriminate E.
  - vm_compute. reflexivity.
Defined.

(** Witness of C9: the same scenario, for every cache and every time. *)
Lemma identity_merge_bypasses_change_gate_witness :
  ∃ existing_vessels record,
    collect_existing (H := example_runtime) Examples.merge_registry [Examples.merge_update]
    = Ok existing_vessels
    ∧ record ∈ Examples.merge_registry
    ∧ dget record "imo_number" = PStr (str_of_Z 9123456)
    ∧ ∀ env vessel_cache,
        batch_step (H := example_runtime) Examples.merge_registry existing_vessels env
          Examples.merge_update vessel_cache
        = (vessel_cache,
           d ← prepare_mmsi_update (H := example_runtime)
                  (py_str (H := example_runtime) (dget Examples.merge_update "mmsi"))
                  Examples.merge_update (select_record record) (env_now env);
           Ok (AddUpdate (DataFormat d))).
Proof.
  apply (identity_merge_bypasses_change_gate (H := example_runtime) Examples.merge_registry
           [Examples.merge_update] Examples.merge_update 9123456
           (Examples.merge_registry !!! 0)).
  - vm_compute. reflexivity.
  - apply list_elem_of_singleton. reflexivity.
  - vm_compute. reflexivity.
  - vm_compute. intros E. discriminate E.
  - vm_compute. reflexivity.
  - intros r Hr. apply list_elem_of_singleton in Hr. subst r.
    vm_compute. intros E. discriminate E.
  - vm_compute. reflexivity.
  - apply list_elem_of_singleton. reflexivity.
  - vm_compute. reflexivity.
Defined.

(** The scenario run through the whole batch: one operation is applied, the
    record keeps its name and has the mmsi 222 afterwards. *)
Example identity_merge_scenario :
  let out := update_vessel_ais_batch (H := example_runtime) Examples.merge_registry
               Examples.recent_cache (fun _ => Examples.noon) [Examples.merge_update] in
  bo_status out = Ok 1
  ∧ bo_cache out = Examples.recent_cache
  ∧ (fun row => dget row "name") <$> bo_registry out = [PStr "a1b2c3d4e5"]
  ∧ (fun row => dget row "ais_mmsi") <$> bo_registry out = [PStr "222"]
  ∧ (fun row => dget row "imo_number") <$> bo_registry out = [PStr "9123456"].
Proof. vm_compute. repeat split. Qed.

(** ** Ordering of timestamps *)

Ltac compare_cases :=
  repeat match goal with s : bool |- _ => destruct s end; try done;
  repeat match goal with
         | |- context [Z.compare ?a ?b] => destruct (Z.compare_spec a b)
         end;
  subst; try lia; try done;
  repeat match goal with
         | |- context [Pcompare ?a ?b Eq] =>
             change (Pcompare a b Eq) with (Pos.compare a b);
             destruct (Pos.compare_spec a b)
         end;
  simpl; subst; try lia; try done.

Lemma SFltb_asym x y : SFltb x y = true → SFltb y x = false.
Proof.
  unfold SFltb, SFcompare.
  destruct x as [sx|sx| |sx mx ex], y as [sy|sy| |sy my ey]; try done; compare_cases.
Qed.

Lemma SFltb_negtrans x y z :
  y ≠ S754_nan → SFltb x y = false → SFltb y z = false → SFltb x z = false.
Proof.
  unfold SFltb, SFcompare. intros Hy.
  destruct x as [sx|sx| |sx mx ex], y as [sy|sy| |sy my ey], z as [sz|sz| |sz mz ez];
    try done; compare_cases.
Qed.

Lemma SFltb_total x y :
  x ≠ S754_nan → y ≠ S754_nan → SFltb x y = false → SFleb y x = true.
Proof.
  unfold SFltb, SFleb, SFcompare. intros Hx Hy.
  destruct x as [sx|sx| |sx mx ex], y as [sy|sy| |sy my ey]; try done; compare_cases.
Qed.

Lemma is_nan_false f : PrimFloat.is_nan f = false → Prim2SF f ≠ S754_nan.
Proof.
  unfold PrimFloat.is_nan. rewrite FloatAxioms.eqb_spec. intros Hf Hn.
  by rewrite Hn in Hf.
Qed.

Lemma ltb_asym x y : PrimFloat.ltb x y = true → PrimFloat.ltb y x = false.
Proof. rewrite !FloatAxioms.ltb_spec. apply SFltb_asym. Qed.

Lemma ltb_negtrans x y z :
  PrimFloat.is_nan y = false →
  PrimFloat.ltb x y = false → PrimFloat.ltb y z = false → PrimFloat.ltb x z = false.
Proof. intros Hy%is_nan_false. rewrite !FloatAxioms.ltb_spec. by apply SFltb_negtrans. Qed.

Lemma ltb_false_leb x y :
  PrimFloat.is_nan x = false → PrimFloat.is_nan y = false →
  PrimFloat.ltb x y = false → PrimFloat.leb y x = true.
Proof.
  intros Hx%is_nan_false Hy%is_nan_false.
  rewrite FloatAxioms.ltb_spec, FloatAxioms.leb_spec. by apply SFltb_total.
Qed.

(** ** The sort of the eviction *)

Lemma insert_desc_perm x l : insert_desc x l ≡ₚ x :: l.
Proof.
  induction l as [|y l IH]; simpl; [done|].
  destruct (PrimFloat.ltb x.2 y.2); [|done].
  rewrite IH. apply Permutation_swap.
Qed.

Lemma sorted_desc_perm l : sorted_desc l ≡ₚ l.
Proof.
  induction l as [|x l IH]; simpl; [done|].
  rewrite insert_desc_perm. by rewrite IH.
Qed.

Lemma insert_desc_sorted x l :
  no_nan l → StronglySorted not_older l → StronglySorted not_older (insert_desc x l).
Proof.
  intros Hnan Hsorted. induction l as [|y l IH]; simpl.
  - repeat constructor.
  - apply Forall_cons in Hnan as [Hy Hnan].
    apply StronglySorted_cons in Hsorted as [Hyl Hsorted].
    destruct (PrimFloat.ltb x.2 y.2) eqn:Hxy.
    + apply StronglySorted_cons. split; [|by apply IH].
      rewrite insert_desc_perm. apply Forall_cons. split; [|done].
      by apply ltb_asym.
    + apply StronglySorted_cons. split; [|by apply StronglySorted_cons].
      apply Forall_cons. split; [done|].
      eapply Forall_impl; [exact Hyl|]. intros z Hyz. unfold not_older in *.
      by eapply ltb_negtrans.
Qed.

Lemma sorted_desc_sorted l : no_nan l → StronglySorted not_older (sorted_desc l).
Proof.
  intros Hnan. induction l as [|x l IH]; simpl; [constructor|].
  apply Forall_cons in Hnan as [Hx Hnan].
  apply insert_desc_sorted; [|by apply IH].
  unfold no_nan. by rewrite sorted_desc_perm.
Qed.

Lemma od_of_items_length {V} (items : list (string * V)) :
  length (od_of_items items) ≤ length items.
Proof.
  unfold od_of_items.
  enough (∀ acc, length (foldl (fun d kv => od_set kv.1 kv.2 d) acc items)
                 ≤ length acc + length items) as Hacc by apply (Hacc []).
  induction items as [|[k v] items IH]; intros acc; simpl; [lia|].
  etrans; [apply IH|]. pose proof (od_set_length_le k v acc). lia.
Qed.

Lemma retained_below_ceiling : RETAINED ≤ MAX_CACHE_SIZE.
Proof. apply Nat.leb_le. vm_compute. reflexivity. Qed.

Lemma evict_length vessel_cache :
  length (evict vessel_cache) ≤ MAX_CACHE_SIZE.
Proof.
  unfold evict. destruct (MAX_CACHE_SIZE <? length vessel_cache) eqn:E.
  - etrans; [apply od_of_items_length|]. rewrite length_take.
    pose proof retained_below_ceiling. lia.
  - apply Nat.ltb_ge in E. done.
Qed.

Lemma evict_retains vessel_cache :
  MAX_CACHE_SIZE < length vessel_cache →
  NoDup vessel_cache.*1 →
  evict vessel_cache = take RETAINED (sorted_desc vessel_cache).
Proof.
  intros Hlen Hnd. unfold evict. apply Nat.ltb_lt in Hlen. rewrite Hlen.
  apply od_of_items_NoDup. rewrite fmap_take.
  eapply sublist_NoDup; [|apply sublist_take].
  by rewrite sorted_desc_perm.
Qed.


(** ** The bound on the cache *)

Section Eviction.
Context `{PyRuntime}.

(** A call for an existing record leaves the evicted cache, with or without
    a new timestamp for the mmsi of the call. *)
Lemma should_update_vessel_cache mmsi new_data existing_record current_time vessel_cache :
  record_truthy existing_record = true →
  (should_update_vessel mmsi new_data existing_record current_time vessel_cache).1
    = evict vessel_cache
  ∨ (should_update_vessel mmsi new_data existing_record current_time vessel_cache).1
    = od_set ("vessel_update_" ++ mmsi)%string current_time (evict vessel_cache).
Proof.
  intros Hex. unfold should_update_vessel, force_update. rewrite Hex. simpl.
  repeat match goal with
         | |- context [if ?b then _ else _] => destruct b
         | |- context [match position_changes ?a ?b with _ => _ end] =>
             destruct (position_changes a b) as [[??]|[]]
         end; simpl; auto.
Qed.

(** C6: the cache is bounded.  A call made while the cache holds at most
    one entry more than the ceiling leaves it so.  When the cache holds more
    than [MAX_CACHE_SIZE] entries, a call for an existing record first cuts
    it down to the [RETAINED] entries of greatest timestamp (every entry
    kept is at least as recent as every entry dropped), and then adds at
    most the entry of its own mmsi, so that the cache is below the ceiling
    again. *)
Theorem cache_eviction_bounded mmsi new_data existing_record current_time vessel_cache :
  NoDup vessel_cache.*1 →
  no_nan vessel_cache →
  let cache' :=
    (should_update_vessel mmsi new_data existing_record current_time vessel_cache).1 in
  let kept := take RETAINED (sorted_desc vessel_cache) in
  let dropped := drop RETAINED (sorted_desc vessel_cache) in
  (length vessel_cache ≤ S MAX_CACHE_SIZE → length cache' ≤ S MAX_CACHE_SIZE)
  ∧ (record_truthy existing_record = true →
     MAX_CACHE_SIZE < length vessel_cache →
     length kept = RETAINED
     ∧ vessel_cache ≡ₚ kept ++ dropped
     ∧ (∀ e d, e ∈ kept → d ∈ dropped → PrimFloat.leb d.2 e.2 = true)
     ∧ (cache' = kept
        ∨ cache' = od_set ("vessel_update_" ++ mmsi)%string current_time kept)
     ∧ length cache' ≤ S RETAINED
     ∧ length cache' ≤ MAX_CACHE_SIZE).
Proof.
  intros Hnd Hnan cache' kept dropped.
  assert (RETAINED < MAX_CACHE_SIZE) as Hlt by (apply Nat.ltb_lt; vm_compute; reflexivity).
  split.
  - intros Hlen. subst cache'.
    destruct (record_truthy existing_record) eqn:Hex.
    + pose proof (evict_length vessel_cache) as Hev.
      destruct (should_update_vessel_cache mmsi new_data existing_record current_time
                  vessel_cache Hex) as [-> | ->]; [lia|].
      pose proof (od_set_length_le ("vessel_update_" ++ mmsi)%string current_time
                    (evict vessel_cache)). lia.
    + unfold should_update_vessel. by rewrite Hex.
  - intros Hex Hlen.
    assert (length kept = RETAINED) as Hkept.
    { subst kept. rewrite length_take.
      pose proof (Permutation_length (sorted_desc_perm vessel_cache)). lia. }
    assert (evict vessel_cache = kept) as Hev by by apply evict_retains.
    split; [done|]. split; [|split; [|split]].
    + subst kept dropped. by rewrite take_drop, sorted_desc_perm.
    + intros e d He Hd.
      assert (no_nan (sorted_desc vessel_cache)) as Hnan'
        by (unfold no_nan; by rewrite sorted_desc_perm).
      unfold no_nan in Hnan'. rewrite Forall_forall in Hnan'.
      apply ltb_false_leb.
      * apply Hnan'. rewrite <- (take_drop RETAINED (sorted_desc vessel_cache)).
        apply elem_of_app. by left.
      * apply Hnan'. rewrite <- (take_drop RETAINED (sorted_desc vessel_cache)).
        apply elem_of_app. by right.
      * pose proof (sorted_desc_sorted vessel_cache Hnan) as Hs.
        rewrite <- (take_drop RETAINED (sorted_desc vessel_cache)) in Hs.
        by apply (StronglySorted_app_1_elem_of _ _ _ e d Hs).
    + subst cache'. rewrite <- Hev. by apply should_update_vessel_cache.
    + subst cache'.
      destruct (should_update_vessel_cache mmsi new_data existing_record current_time
                  vessel_cache Hex) as [-> | ->]; rewrite Hev.
      * lia.
      * pose proof (od_set_length_le ("vessel_update_" ++ mmsi)%string current_time kept).
        lia.
Qed.

End Eviction.

Lemma cache_key_of_inj n m : Examples.cache_key_of n = Examples.cache_key_of m → n = m.
Proof.
  unfold Examples.cache_key_of. intros Heq%append_inj_r.
  apply str_of_Z_inj in Heq. lia.
Qed.

Lemma full_cache_NoDup : NoDup Examples.full_cache.*1.
Proof.
  unfold Examples.full_cache. rewrite fmap_app, <- !list_fmap_compose.
  change (NoDup ((Examples.cache_key_of <$> seq 0 5001)
                 ++ (Examples.cache_key_of <$> seq (0 + 5001) 5000))).
  rewrite <- fmap_app, <- seq_app.
  apply NoDup_fmap_2; [|apply NoDup_seq]. intros ??. apply cache_key_of_inj.
Qed.

Lemma full_cache_no_nan : no_nan Examples.full_cache.
Proof.
  unfold no_nan, Examples.full_cache.
  apply Forall_app. split; apply Forall_fmap, Forall_forall; by intros.
Qed.

Lemma full_cache_length : MAX_CACHE_SIZE < length Examples.full_cache.
Proof.
  unfold Examples.full_cache. rewrite length_app, !length_fmap, !length_seq.
  apply Nat.ltb_lt. vm_compute. reflexivity.
Qed.

(** Witness of C6: a cache of 10001 entries, and a call for a known vessel. *)
Lemma cache_eviction_bounded_witness :
  MAX_CACHE_SIZE < length Examples.full_cache
  ∧ length (should_update_vessel (H := example_runtime) "403456789" Examples.moved_update
              (Some Examples.known_record) 3000%float Examples.full_cache).1
    ≤ MAX_CACHE_SIZE.
Proof.
  split; [exact full_cache_length|].
  refine (proj2 (proj2 (proj2 (proj2 (proj2
            (proj2 (cache_eviction_bounded (H := example_runtime) "403456789"
                      Examples.moved_update (Some Examples.known_record) 3000%float
                      Examples.full_cache full_cache_NoDup full_cache_no_nan)
               _ full_cache_length)))))).
  vm_compute. reflexivity.
Defined.

(** The sort is stable and puts the greatest timestamps first. *)
Example sorted_desc_example :
  sorted_desc [("a", 5%float); ("b", 9%float); ("c", 5%float); ("d", 7%float)]
  = [("b", 9%float); ("d", 7%float); ("a", 5%float); ("c", 5%float)].
Proof. vm_compute. reflexivity. Qed.

(** ** The cache along a sequence of calls *)

Lemma od_set_keys {V} k (v : V) (d : list (string * V)) :
  (od_set k v d).*1 = if bool_decide (k ∈ d.*1) then d.*1 else d.*1 ++ [k].
Proof.
  induction d as [|[k' v'] d IH]; [done|].
  cbn [od_set]. destruct (String.eqb_spec k' k) as [->|Hne]; rewrite !fmap_cons; cbn [fst].
  - rewrite bool_decide_eq_true_2; [done|]. apply elem_of_cons. by left.
  - rewrite IH. destruct (bool_decide (k ∈ d.*1)) eqn:E.
    + apply bool_decide_eq_true in E. rewrite bool_decide_eq_true_2; [done|].
      apply elem_of_cons. by right.
    + apply bool_decide_eq_false in E. rewrite bool_decide_eq_false_2; [done|].
      intros [->|?]%elem_of_cons; done.
Qed.

Lemma od_set_NoDup {V} k (v : V) (d : list (string * V)) :
  NoDup d.*1 → NoDup (od_set k v d).*1.
Proof.
  intros Hnd. rewrite od_set_keys. destruct (bool_decide (k ∈ d.*1)) eqn:E; [done|].
  apply bool_decide_eq_false in E. apply NoDup_app. split; [done|]. split.
  - intros x Hx ->%list_elem_of_singleton. done.
  - apply NoDup_singleton.
Qed.

Lemma od_set_no_nan k v (d : list (string * float)) :
  PrimFloat.is_nan v = false → no_nan d → no_nan (od_set k v d).
Proof.
  intros Hv Hd. unfold no_nan in *. induction d as [|[k' v'] d IH]; simpl.
  - by repeat constructor.
  - apply Forall_cons in Hd as [Hk' Hd]. destruct (String.eqb k' k).
    + by constructor.
    + constructor; [done|by apply IH].
Qed.

Lemma evict_wf vessel_cache :
  NoDup vessel_cache.*1 → no_nan vessel_cache →
  NoDup (evict vessel_cache).*1 ∧ no_nan (evict vessel_cache).
Proof.
  intros Hnd Hnan. unfold evict. destruct (MAX_CACHE_SIZE <? length vessel_cache); [|done].
  assert (NoDup (take RETAINED (sorted_desc vessel_cache)).*1) as Hnd'.
  { rewrite fmap_take. eapply sublist_NoDup; [|apply sublist_take].
    by rewrite sorted_desc_perm. }
  rewrite od_of_items_NoDup by done. split; [done|].
  unfold no_nan in *. apply Forall_take. by rewrite sorted_desc_perm.
Qed.

Section CallSequences.
Context `{PyRuntime}.

Lemma should_update_vessel_size mmsi new_data existing_record current_time vessel_cache :
  length vessel_cache ≤ S MAX_CACHE_SIZE →
  length (should_update_vessel mmsi new_data existing_record current_time vessel_cache).1
  ≤ S MAX_CACHE_SIZE.
Proof.
  intros Hlen. destruct (record_truthy existing_record) eqn:Hex.
  - pose proof (evict_length vessel_cache) as Hev.
    destruct (should_update_vessel_cache mmsi new_data existing_record current_time
                vessel_cache Hex) as [-> | ->]; [lia|].
    pose proof (od_set_length_le ("vessel_update_" ++ mmsi)%string current_time
                  (evict vessel_cache)). lia.
  - unfold should_update_vessel. by rewrite Hex.
Qed.

(** From the empty cache, whatever the calls, the cache is a dictionary
    without NaN timestamps and never holds more than one entry above the
    ceiling. *)
Lemma cache_bounded_along_calls calls :
  Forall (fun call => PrimFloat.is_nan (gc_time call) = false) calls →
  NoDup (run_calls calls []).*1
  ∧ no_nan (run_calls calls [])
  ∧ length (run_calls calls []) ≤ S MAX_CACHE_SIZE.
Proof.
  unfold run_calls.
  enough (∀ c, NoDup c.*1 → no_nan c → length c ≤ S MAX_CACHE_SIZE →
               Forall (fun call => PrimFloat.is_nan (gc_time call) = false) calls →
               let c' := foldl (fun c call =>
                           (should_update_vessel (gc_mmsi call) (gc_new_data call)
                              (gc_existing call) (gc_time call) c).1) c calls in
               NoDup c'.*1 ∧ no_nan c' ∧ length c' ≤ S MAX_CACHE_SIZE) as Hgen.
  { intros Hcalls. apply (Hgen []); [constructor|constructor|simpl; lia|done]. }
  induction calls as [|call calls IH]; intros c Hnd Hnan Hlen Hcalls; simpl; [done|].
  apply Forall_cons in Hcalls as [Hcall Hcalls].
  pose proof (should_update_vessel_size (gc_mmsi call) (gc_new_data call)
                (gc_existing call) (gc_time call) c Hlen) as Hlen'.
  apply IH; [| |done|done].
  - destruct (record_truthy (gc_existing call)) eqn:Hex.
    + destruct (evict_wf c Hnd Hnan) as [Hnd' _].
      destruct (should_update_vessel_cache (gc_mmsi call) (gc_new_data call)
                  (gc_existing call) (gc_time call) c Hex) as [-> | ->];
        [done|by apply od_set_NoDup].
    + unfold should_update_vessel. by rewrite Hex.
  - destruct (record_truthy (gc_existing call)) eqn:Hex.
    + destruct (evict_wf c Hnd Hnan) as [_ Hnan'].
      destruct (should_update_vessel_cache (gc_mmsi call) (gc_new_data call)
                  (gc_existing call) (gc_time call) c Hex) as [-> | ->];
        [done|by apply od_set_no_nan].
    + unfold should_update_vessel. by rewrite Hex.
Qed.

End CallSequences.

(** ** Normalisation of frames *)



Lemma process_ais_message_status `{PyRuntime} st m current_time :
  po_status (process_ais_message st m current_time)
  = match vessel_data_of_message m with Ok _ => "success" | Raise _ => "error" end.
Proof.
  unfold process_ais_message. destruct (vessel_data_of_message m) as [vd|e]; [|done].
  destruct (truthy _); [|done]. destruct (_ || _); [|done].
  by destruct (process_batch_queue _).
Qed.






Lemma vessel_data_of_message_mmsi m vessel_data :
  vessel_data_of_message m = Ok vessel_data →
  dget vessel_data "mmsi"
  = if bool_decide (MessageType m = Some "PositionReport"
                    ∨ MessageType m = Some "ShipStaticData")
    then frame_mmsi m else PNone.
Proof.
  unfold vessel_data_of_message, frame_mmsi, frame_payload.
  destruct (decide (MessageType m = Some "PositionReport")) as [E|E].
  { rewrite bool_decide_eq_true_2 by by left.
    rewrite E. simpl. intros [= <-].
    unfold dget at 1. by rewrite lookup_insert_eq. }
  destruct (decide (MessageType m = Some "ShipStaticData")) as [E'|E'].
  { rewrite bool_decide_eq_true_2 by by right.
    rewrite E'. simpl.
    destruct (get_vessel_type _); simpl; [|done].
    destruct (_ && _); intros [= <-]; unfold dget at 1.
    - by rewrite !lookup_insert_ne, lookup_insert_eq by done.
    - by rewrite lookup_insert_eq. }
  intros [= <-]. rewrite bool_decide_eq_false_2 by (intros [?|?]; done). done.
Qed.

(** X3: a frame that is not rejected and either is of another type than
    [PositionReport] and [ShipStaticData] or carries no identity (neither a
    [UserID] in the payload nor an [MMSI] in the metadata, or only null, zero
    or empty ones) changes nothing: the queue and the flush clock are as
    before and no batch is handed over, although the time-based flush may be
    overdue. *)
Theorem frame_without_identity_changes_nothing `{PyRuntime} st m current_time :
  po_status (process_ais_message st m current_time) = "success" →
  (MessageType m ≠ Some "PositionReport" ∧ MessageType m ≠ Some "ShipStaticData")
  ∨ truthy (frame_mmsi m) = false →
  po_state (process_ais_message st m current_time) = st
  ∧ po_job (process_ais_message st m current_time) = None.
Proof.
  rewrite process_ais_message_status. unfold process_ais_message.
  destruct (vessel_data_of_message m) as [vd|e] eqn:Hvd; [|done].
  intros _ Hcase. rewrite (vessel_data_of_message_mmsi _ _ Hvd).
  destruct Hcase as [[H1 H2]|Hm].
  - rewrite bool_decide_eq_false_2 by (intros [?|?]; done). done.
  - destruct (bool_decide _); [by rewrite Hm | done].
Qed.

(** Witness of X3: a frame of a type the code does not handle, arriving when
    the flush is overdue. *)
Lemma frame_without_identity_changes_nothing_witness :
  po_state (process_ais_message (H := example_runtime) Examples.empty_queue
              Examples.class_b_frame 5000%float) = Examples.empty_queue
  ∧ po_job (process_ais_message (H := example_runtime) Examples.empty_queue
              Examples.class_b_frame 5000%float) = None.
Proof.
  apply (frame_without_identity_changes_nothing (H := example_runtime)
           Examples.empty_queue Examples.class_b_frame 5000%float).
  - reflexivity.
  - left. split; discriminate.
Defined.

(** ** The shape of the queue *)

Section QueueShape.
Context `{PyRuntime}.

Lemma od_set_Forall {V} (P : string * V → Prop) k v (d : list (string * V)) :
  Forall P d → P (k, v) → Forall P (od_set k v d).
Proof.
  intros Hd Hkv. induction Hd as [|[k' v'] d Hx Hd IH]; simpl.
  - by constructor.
  - destruct (String.eqb k' k) eqn:E.
    + apply String.eqb_eq in E. subst k'. by constructor.
    + by constructor.
Qed.

Lemma truthy_dget_lookup (d : dict) k : truthy (dget d k) = true → d !! k = Some (dget d k).
Proof. unfold dget. by destruct (d !! k). Qed.

Lemma queue_update_shape mmsi (vessel_data : dict) q :
  truthy (dget vessel_data "mmsi") = true →
  py_str (dget vessel_data "mmsi") = mmsi →
  NoDup q.*1 →
  Forall (fun kd => truthy (dget kd.2 "mmsi") = true ∧ py_str (dget kd.2 "mmsi") = kd.1) q →
  NoDup (queue_update mmsi vessel_data q).*1
  ∧ Forall (fun kd => truthy (dget kd.2 "mmsi") = true ∧ py_str (dget kd.2 "mmsi") = kd.1)
      (queue_update mmsi vessel_data q)
  ∧ length (queue_update mmsi vessel_data q) ≤ S (length q)
  ∧ queue_update mmsi vessel_data q ≠ [].
Proof.
  intros Ht Hs Hnd Hall. unfold queue_update. split; [|split; [|split]].
  - by apply od_set_NoDup.
  - apply od_set_Forall; [done|]. simpl.
    assert (dget (vessel_data ∪ default ∅ (od_get mmsi q)) "mmsi" = dget vessel_data "mmsi")
      as ->; [|done].
    unfold dget at 1. rewrite lookup_union, (truthy_dget_lookup _ _ Ht).
    by destruct (default ∅ (od_get mmsi q) !! "mmsi").
  - apply od_set_length_le.
  - destruct q as [|[k v] q]; simpl; [done|]. by destruct (String.eqb k mmsi).
Qed.

(** X4: the shape of the queue is an invariant of [process_ais_message]:
    between calls it holds one pending record per key, each under the text of
    its own non-empty [mmsi], and fewer than 50 of them.  A call that hands a
    batch over empties the queue and sets the flush clock to the time of the
    call; the batch holds at least one and at most 50 records, no two of
    them for the same [mmsi]. *)
Theorem queue_shape_preserved st m current_time :
  queue_wf (update_queue st) →
  let out := process_ais_message st m current_time in
  queue_wf (update_queue (po_state out))
  ∧ ∀ batch, po_job out = Some batch →
      update_queue (po_state out) = []
      ∧ last_batch_time (po_state out) = current_time
      ∧ 0 < length batch ≤ 50
      ∧ NoDup ((fun v => py_str (dget v "mmsi")) <$> batch)
      ∧ Forall (fun v => truthy (dget v "mmsi") = true) batch.
Proof.
  intros (Hnd & Hall & Hlen). simpl. unfold process_ais_message.
  destruct (vessel_data_of_message m) as [vd|e]; [|by split].
  destruct (truthy (dget vd "mmsi")) eqn:Ht; [|by split].
  destruct (queue_update_shape _ vd (update_queue st) Ht eq_refl Hnd Hall)
    as (Hnd' & Hall' & Hlen' & Hne).
  set (q := queue_update _ vd (update_queue st)) in *.
  destruct (_ || (50 <=? length q)) eqn:Hflush.
  - unfold process_batch_queue. destruct q as [|kd q'] eqn:Eq; [done|]. rewrite <- Eq in *.
    simpl. split.
    + split; [constructor|]. split; [constructor|]. simpl. lia.
    + intros batch [= <-]. split; [done|]. split; [done|].
      rewrite length_fmap. split; [|split].
      * split; [rewrite Eq; simpl; lia | lia].
      * assert ((fun v : dict => py_str (dget v "mmsi")) <$> q.*2 = q.*1) as ->; [|done].
        clear -Hall'. induction Hall' as [|[k v] l [_ Hk] _ IH]; [done|].
        rewrite !fmap_cons. simpl in *. by f_equal.
      * clear -Hall'. induction Hall' as [|[k v] l [Hk _] _ IH]; simpl; by constructor.
  - simpl. split; [|done].
    apply orb_false_elim in Hflush as [_ Hsz]. apply Nat.leb_gt in Hsz.
    by split; [|split].
Qed.

End QueueShape.

(** Witness of X4: the first frame into an empty queue. *)
Lemma queue_shape_preserved_witness :
  queue_wf (H := example_runtime)
    (update_queue (po_state (process_ais_message (H := example_runtime)
                               Examples.empty_queue Examples.static_frame 1001%float)))
  ∧ ∀ batch,
      po_job (process_ais_message (H := example_runtime)
                Examples.empty_queue Examples.static_frame 1001%float) = Some batch →
      update_queue (po_state (process_ais_message (H := example_runtime)
                                Examples.empty_queue Examples.static_frame 1001%float)) = []
      ∧ last_batch_time (po_state (process_ais_message (H := example_runtime)
                                     Examples.empty_queue Examples.static_frame 1001%float))
        = 1001%float
      ∧ 0 < length batch ≤ 50
      ∧ NoDup ((fun v => py_str (H := example_runtime) (dget v "mmsi")) <$> batch)
      ∧ Forall (fun v => truthy (dget v "mmsi") = true) batch.
Proof.
  apply (queue_shape_preserved (H := example_runtime)
           Examples.empty_queue Examples.static_frame 1001%float).
  split; [constructor|]. split; [constructor|]. simpl. lia.
Defined.

(** ** Errors, refusals and the rate limit of the change gate *)

Lemma SFltb_trans x y z : SFltb x y = true → SFltb y z = true → SFltb x z = true.
Proof.
  unfold SFltb, SFcompare.
  destruct x as [sx|sx| |sx mx ex], y as [sy|sy| |sy my ey], z as [sz|sz| |sz mz ez];
    try done; compare_cases.
Qed.

Lemma ltb_trans x y z :
  PrimFloat.ltb x y = true → PrimFloat.ltb y z = true → PrimFloat.ltb x z = true.
Proof. rewrite !FloatAxioms.ltb_spec. apply SFltb_trans. Qed.

Section GateOutcomes.
Context `{PyRuntime}.
Implicit Types (vessel_cache : list (string * float)) (existing_record : option dict).

Lemma py_float_raise v e :
  py_float v = Raise e →
  e = TypeError ∨ e = ValueError
  ∨ (e = OverflowError ∧ ∃ z, v = PInt z ∧ PrimFloat.is_infinity (float_of_Z z) = true).
Proof.
  destruct v as [|z|f|s|t]; simpl; try (intros [= <-]; auto; fail).
  - destruct (PrimFloat.is_infinity (float_of_Z z)) eqn:E; [|done].
    intros [= <-]. right; right. split; [done|]. by exists z.
  - destruct (float_of_str s); [done|]. intros [= <-]. auto.
Qed.

Lemma position_changes_raise (new_data existing_record : dict) e :
  position_changes new_data existing_record = Raise e →
  e = TypeError ∨ e = ValueError
  ∨ (e = OverflowError
     ∧ ∃ z, PrimFloat.is_infinity (float_of_Z z) = true
            ∧ PInt z ∈ [dget new_data "latitude";
                        dget_or existing_record "ais_last_position_lat" (PInt 0);
                        dget new_data "longitude";
                        dget_or existing_record "ais_last_position_lon" (PInt 0)]).
Proof.
  unfold position_changes.
  assert (∀ v, v ∈ [dget new_data "latitude";
                    dget_or existing_record "ais_last_position_lat" (PInt 0);
                    dget new_data "longitude";
                    dget_or existing_record "ais_last_position_lon" (PInt 0)] →
               py_float v = Raise e →
               e = TypeError ∨ e = ValueError
               ∨ (e = OverflowError
                  ∧ ∃ z, PrimFloat.is_infinity (float_of_Z z) = true
                         ∧ PInt z ∈ [dget new_data "latitude";
                                     dget_or existing_record "ais_last_position_lat" (PInt 0);
                                     dget new_data "longitude";
                                     dget_or existing_record "ais_last_position_lon" (PInt 0)]))
    as Hone.
  { intros v Hin Hv. destruct (py_float_raise v e Hv) as [?|[?|[-> (z & -> & Hz)]]]; auto.
    right; right. split; [done|]. by exists z. }
  destruct (py_float (dget new_data "latitude")) eqn:E1; simpl;
    [|intros [= <-]; eapply Hone; [|exact E1]; rewrite !elem_of_cons; tauto].
  destruct (py_float (dget_or existing_record "ais_last_position_lat" _)) eqn:E2; simpl;
    [|intros [= <-]; eapply Hone; [|exact E2]; rewrite !elem_of_cons; tauto].
  destruct (py_float (dget new_data "longitude")) eqn:E3; simpl;
    [|intros [= <-]; eapply Hone; [|exact E3]; rewrite !elem_of_cons; tauto].
  destruct (py_float (dget_or existing_record "ais_last_position_lon" _)) eqn:E4; simpl;
    [done|intros [= <-]; eapply Hone; [|exact E4]; rewrite !elem_of_cons; tauto].
Qed.

Lemma force_update_result cache_key last_update current_time vessel_cache :
  force_update cache_key last_update current_time vessel_cache
  = if match last_update with
       | None => true
       | Some t => PrimFloat.eqb t 0%float
                   || PrimFloat.ltb 300%float (PrimFloat.sub current_time t)
       end
    then (od_set cache_key current_time vessel_cache, Ok true)
    else (vessel_cache, Ok false).
Proof. done. Qed.

Lemma accepted_cache mmsi new_data existing_record current_time vessel_cache cache' :
  record_truthy existing_record = true →
  should_update_vessel mmsi new_data existing_record current_time vessel_cache
    = (cache', Ok true) →
  cache' = od_set ("vessel_update_" ++ mmsi)%string current_time (evict vessel_cache).
Proof.
  intros Hex. unfold should_update_vessel. rewrite !force_update_result, Hex. simpl.
  destruct (rate_limited _ _); [done|].
  set (forced := match od_get _ (evict vessel_cache) with None => true | Some _ => _ end).
  destruct (truthy (dget new_data "latitude") && truthy (dget new_data "longitude"));
    [|destruct forced; [by intros [= <-]|done]].
  destruct (position_changes _ _) as [[lat_change lon_change]|[]]; try done;
    [destruct (_ || _); [by intros [= <-]|] | |];
    (destruct forced; [by intros [= <-]|done]).
Qed.

(** X5: the change gate lets one exception through and no other: an
    [OverflowError], raised when a coordinate of the update or of the
    existing record is an integer too large for a float.  A coordinate that
    is missing, null or not a number is not an error (the gate falls back to
    the forced refresh), and on the error the cache records nothing. *)
Theorem change_gate_raises_only_overflow
    mmsi new_data existing_record current_time vessel_cache cache' e :
  should_update_vessel mmsi new_data existing_record current_time vessel_cache
    = (cache', Raise e) →
  e = OverflowError
  ∧ cache' = evict vessel_cache
  ∧ ∃ z, PrimFloat.is_infinity (float_of_Z z) = true
         ∧ PInt z ∈ [dget new_data "latitude";
                     dget_or (default ∅ existing_record) "ais_last_position_lat" (PInt 0);
                     dget new_data "longitude";
                     dget_or (default ∅ existing_record) "ais_last_position_lon" (PInt 0)].
Proof.
  unfold should_update_vessel. rewrite !force_update_result.
  destruct (negb (record_truthy existing_record)); [done|].
  destruct (rate_limited _ _); [done|].
  set (forced := match od_get _ (evict vessel_cache) with None => true | Some _ => _ end).
  destruct (truthy (dget new_data "latitude") && truthy (dget new_data "longitude"));
    [|by destruct forced].
  destruct (position_changes _ _) as [[lat_change lon_change]|e'] eqn:E.
  - destruct (_ || _); [done|by destruct forced].
  - destruct (position_changes_raise _ _ _ E) as [->|[->|[-> Hz]]]; try (by destruct forced).
    by intros [= <- <-].
Qed.

(** X6: a refusal is always the trace of a recorded write: the gate answers
    [False] only for a vessel with an existing record whose cache entry is
    not zero and at most 300 seconds old, and a refusal records nothing (the
    cache is only evicted). *)
Theorem refusal_needs_recent_write
    mmsi new_data existing_record current_time vessel_cache cache' :
  should_update_vessel mmsi new_data existing_record current_time vessel_cache
    = (cache', Ok false) →
  record_truthy existing_record = true
  ∧ cache' = evict vessel_cache
  ∧ ∃ t, od_get ("vessel_update_" ++ mmsi)%string (evict vessel_cache) = Some t
         ∧ PrimFloat.eqb t 0%float = false
         ∧ PrimFloat.ltb 300%float (PrimFloat.sub current_time t) = false.
Proof.
  unfold should_update_vessel. rewrite !force_update_result.
  destruct (record_truthy existing_record); simpl; [|done].
  unfold rate_limited.
  destruct (od_get _ (evict vessel_cache)) as [t|] eqn:Hget.
  - destruct (PrimFloat.eqb t 0%float) eqn:Ez; simpl.
    + destruct (_ && _); [|done]. destruct (position_changes _ _) as [[??]|[]]; try done.
      by destruct (_ || _).
    + destruct (PrimFloat.ltb (PrimFloat.sub current_time t) 30%float) eqn:E30.
      * intros [= <-]. split; [done|]. split; [done|]. exists t.
        split; [done|]. split; [done|].
        destruct (PrimFloat.ltb 300%float (PrimFloat.sub current_time t)) eqn:E300; [|done].
        by pose proof (ltb_trans _ _ _ E300 E30).
      * destruct (PrimFloat.ltb 300%float (PrimFloat.sub current_time t)) eqn:E300.
        { destruct (_ && _); [|done]. destruct (position_changes _ _) as [[??]|[]]; try done.
          by destruct (_ || _). }
        intros Hres. split; [done|].
        assert (cache' = evict vessel_cache) as ->.
        { destruct (_ && _); [|by injection Hres].
          destruct (position_changes _ _) as [[??]|[]]; try done;
            [destruct (_ || _); [done|] | |]; by injection Hres. }
        split; [done|]. exists t. auto.
  - destruct (_ && _); [|done]. destruct (position_changes _ _) as [[??]|[]]; try done.
    by destruct (_ || _).
Qed.

(** X7: an accepted write blocks the next ones for 30 seconds.  After the
    gate has accepted an update for an existing record at a time [t1] other
    than zero, leaving the cache within its ceiling, every call for the same
    mmsi and an existing record at a time less than 30 seconds after [t1] is
    refused, whatever the update holds, and leaves the cache as it is. *)
Theorem accepted_write_blocks_next_30_seconds
    mmsi new_data existing_record t1 vessel_cache cache1 new_data' existing_record' t2 :
  record_truthy existing_record = true →
  should_update_vessel mmsi new_data existing_record t1 vessel_cache = (cache1, Ok true) →
  length cache1 ≤ MAX_CACHE_SIZE →
  PrimFloat.eqb t1 0%float = false →
  PrimFloat.ltb (PrimFloat.sub t2 t1) 30%float = true →
  record_truthy existing_record' = true →
  should_update_vessel mmsi new_data' existing_record' t2 cache1 = (cache1, Ok false).
Proof.
  intros Hex Hacc Hlen Hz Hlt Hex'.
  assert (od_get ("vessel_update_" ++ mmsi)%string cache1 = Some t1) as Hget.
  { rewrite (accepted_cache _ _ _ _ _ _ Hex Hacc). apply od_get_set_eq. }
  unfold should_update_vessel. rewrite Hex'. simpl.
  assert (evict cache1 = cache1) as ->.
  { unfold evict. by rewrite (proj2 (Nat.ltb_ge _ _) Hlen). }
  rewrite Hget. simpl. by rewrite Hz, Hlt.
Qed.

End GateOutcomes.

(** Witness of X5: a latitude of 2^1024. *)
Lemma change_gate_raises_only_overflow_witness :
  OverflowError = OverflowError
  ∧ [] = evict []
  ∧ ∃ z, PrimFloat.is_infinity (float_of_Z z) = true
         ∧ PInt z ∈ [dget Examples.overflow_update "latitude";
                     dget_or (default ∅ (Some Examples.known_record))
                       "ais_last_position_lat" (PInt 0);
                     dget Examples.overflow_update "longitude";
                     dget_or (default ∅ (Some Examples.known_record))
                       "ais_last_position_lon" (PInt 0)].
Proof.
  apply (change_gate_raises_only_overflow (H := example_runtime) "403456789"
           Examples.overflow_update (Some Examples.known_record) 1040%float []).
  vm_compute. reflexivity.
Defined.

(** Witness of X6: the vessel moved, 10 seconds after its last write. *)
Lemma refusal_needs_recent_write_witness :
  record_truthy (Some Examples.known_record) = true
  ∧ Examples.recent_cache = evict Examples.recent_cache
  ∧ ∃ t, od_get "vessel_update_403456789" (evict Examples.recent_cache) = Some t
         ∧ PrimFloat.eqb t 0%float = false
         ∧ PrimFloat.ltb 300%float (PrimFloat.sub 1010%float t) = false.
Proof.
  apply (refusal_needs_recent_write (H := example_runtime) "403456789"
           Examples.moved_update (Some Examples.known_record) 1010%float
           Examples.recent_cache).
  vm_compute. reflexivity.
Defined.

(** Witness of X7: a write accepted at 1040, and a second update 10 seconds
    later. *)
Lemma accepted_write_blocks_next_30_seconds_witness :
  should_update_vessel (H := example_runtime) "403456789" Examples.equator_update
    (Some Examples.known_record) 1050%float [("vessel_update_403456789", 1040%float)]
  = ([("vessel_update_403456789", 1040%float)], Ok false).
Proof.
  apply (accepted_write_blocks_next_30_seconds (H := example_runtime) "403456789"
           Examples.moved_update (Some Examples.known_record) 1040%float
           Examples.recent_cache [("vessel_update_403456789", 1040%float)]
           Examples.equator_update (Some Examples.known_record) 1050%float).
  - vm_compute. reflexivity.
  - vm_compute. reflexivity.
  - vm_compute. lia.
  - vm_compute. reflexivity.
  - vm_compute. reflexivity.
  - vm_compute. reflexivity.
Defined.

(** ** The columns of a prepared update *)

Section UpdatePolicy.
Context `{PyRuntime}.

Lemma policy_step (acc : list (string * string) * dict) c k v :
  dom acc.2 = {["vessel_name"]} ∪ list_to_set acc.1.*2 →
  dom (<[k := v]> acc.2) = {["vessel_name"]} ∪ list_to_set (py_append acc.1 (c, k)).*2.
Proof.
  intros Hd. unfold py_append.
  rewrite dom_insert_L, Hd, fmap_app, list_to_set_app_L. simpl.
  rewrite union_empty_r_L, (comm_L (∪) {[k]}), (assoc_L (∪)). done.
Qed.

Lemma add_float_clause_policy test vessel_data k column acc acc' :
  add_float_clause test vessel_data k column acc = Ok acc' →
  dom acc.2 = {["vessel_name"]} ∪ list_to_set acc.1.*2 →
  acc'.1 = acc.1 ++ (if test (dget vessel_data k) then [(column, k)] else [])
  ∧ dom acc'.2 = {["vessel_name"]} ∪ list_to_set acc'.1.*2.
Proof.
  unfold add_float_clause. destruct (test _).
  - destruct (py_float _); simpl; [|done]. intros [= <-] Hd. split; [done|].
    by apply policy_step.
  - intros [= <-] Hd. by rewrite app_nil_r.
Qed.

Lemma prepare_vessel_update_clauses mmsi vessel_data existing_record now u :
  prepare_vessel_update mmsi vessel_data existing_record now = Ok u →
  set_clauses u = update_policy vessel_data existing_record
  ∧ dom (upd_values u) = {["vessel_name"]} ∪ list_to_set (set_clauses u).*2.
Proof.
  unfold prepare_vessel_update.
  destruct (existing_record !! "name") as [name|]; simpl; [|done].
  set (a0 := ([] : list (string * string), ({["vessel_name" := name]} : dict))).
  assert (a0.1 = []) as L0 by done.
  assert (dom a0.2 = {["vessel_name"]} ∪ list_to_set a0.1.*2) as D0.
  { simpl. rewrite dom_singleton_L. simpl. by rewrite union_empty_r_L. }
  clearbody a0.
  destruct (add_float_clause truthy _ "latitude" _ _) as [a1|] eqn:E1; simpl; [|done].
  destruct (add_float_clause_policy _ _ _ _ _ _ E1 D0) as [L1 D1]. clear E1 D0.
  destruct (add_float_clause truthy _ "longitude" _ _) as [a2|] eqn:E2; simpl; [|done].
  destruct (add_float_clause_policy _ _ _ _ _ _ E2 D1) as [L2 D2]. clear E2 D1.
  destruct (add_float_clause _ _ "speed" _ _) as [a3|] eqn:E3; simpl; [|done].
  destruct (add_float_clause_policy _ _ _ _ _ _ E3 D2) as [L3 D3]. clear E3 D2.
  destruct (add_float_clause _ _ "course" _ _) as [a4|] eqn:E4; simpl; [|done].
  destruct (add_float_clause_policy _ _ _ _ _ _ E4 D3) as [L4 D4]. clear E4 D3.
  intros Hu.
  set (a5 := if truthy (dget vessel_data "status")
             then (py_append a4.1 ("ais_status", "status"),
                   <["status" := dget vessel_data "status"]> a4.2)
             else a4) in Hu.
  assert (a5.1 = a4.1 ++ (if truthy (dget vessel_data "status")
                          then [("ais_status", "status")] else [])
          ∧ dom a5.2 = {["vessel_name"]} ∪ list_to_set a5.1.*2) as [L5 D5].
  { subst a5. destruct (truthy (dget vessel_data "status")).
    - split; [done|]. by apply policy_step.
    - by rewrite app_nil_r. }
  clearbody a5. clear D4.
  match type of Hu with
  | (?m ≫= _) = _ => destruct m as [a6|] eqn:E6; simpl in Hu; [|done]
  end.
  assert (a6.1 = a5.1 ++ (if truthy (dget vessel_data "destination")
                          then [("ais_destination", "destination")] else [])
          ∧ dom a6.2 = {["vessel_name"]} ∪ list_to_set a6.1.*2) as [L6 D6].
  { destruct (truthy (dget vessel_data "destination")).
    - destruct (if 250 <? _ then _ else _); simpl in E6; [|done]. injection E6 as <-.
      split; [done|]. by apply policy_step.
    - injection E6 as <-. by rewrite app_nil_r. }
  clear E6 D5.
  match type of Hu with
  | (?m ≫= _) = _ => destruct m as [a7|] eqn:E7; simpl in Hu; [|done]
  end.
  assert (a7.1 = a6.1 ++ (if truthy (dget vessel_data "vessel_name")
                             && name_replaceable existing_record
                          then [("vessel_name", "new_vessel_name")] else [])
          ∧ dom a7.2 = {["vessel_name"]} ∪ list_to_set a7.1.*2) as [L7 D7].
  { destruct (truthy (dget vessel_data "vessel_name")); simpl;
      [|injection E7 as <-; by rewrite app_nil_r].
    assert (∀ r, (if negb (truthy (dget existing_record "vessel_name")) then Ok true
                  else py_startswith (dget existing_record "vessel_name") "Unknown Vessel")
                 = Ok r → r = name_replaceable existing_record) as Hr.
    { unfold name_replaceable.
      destruct (dget existing_record "vessel_name") as [|z|f|s|t]; simpl; intros r.
      - by intros [= <-].
      - destruct (negb (z =? 0)%Z); simpl; [done|by intros [= <-]].
      - destruct (negb (PrimFloat.eqb f 0)); simpl; [done|by intros [= <-]].
      - destruct (String.eqb s ""); simpl; by intros [= <-].
      - done. }
    destruct (if negb _ then _ else _) as [r|] eqn:Er; simpl in E7; [|done].
    rewrite <- (Hr r eq_refl). destruct r.
    - destruct (py_strip _); simpl in E7; [|done]. injection E7 as <-.
      split; [done|]. by apply policy_step.
    - injection E7 as <-. by rewrite app_nil_r. }
  clear E7 D6.
  set (a8 := match genuine_imo vessel_data with
             | Some z => (py_append a7.1 ("imo_number", "imo_number"),
                          <["imo_number" := PStr (str_of_Z z)]> a7.2)
             | None => a7
             end) in Hu.
  assert (a8.1 = a7.1 ++ (if bool_decide (is_Some (genuine_imo vessel_data))
                          then [("imo_number", "imo_number")] else [])
          ∧ dom a8.2 = {["vessel_name"]} ∪ list_to_set a8.1.*2) as [L8 D8].
  { subst a8. destruct (genuine_imo vessel_data) as [z|].
    - rewrite bool_decide_eq_true_2 by eauto. split; [done|]. by apply policy_step.
    - rewrite bool_decide_eq_false_2 by (by intros [??]). by rewrite app_nil_r. }
  clearbody a8. clear D7.
  injection Hu as <-. simpl. split.
  - unfold py_append, update_policy.
    rewrite L8, L7, L6, L5, L4, L3, L2, L1, L0. by rewrite <- !app_assoc.
  - pose proof (policy_step a8 "ais_last_update" "update_time" (PDatetime now) D8) as D9.
    exact (policy_step (py_append a8.1 ("ais_last_update", "update_time"),
                        <["update_time" := PDatetime now]> a8.2)
             "modified" "modified_time" (PDatetime now) D9).
Qed.

Lemma elem_of_if_singleton {A} (b : bool) (x y : A) :
  x ∈ (if b then [y] else []) ↔ b = true ∧ x = y.
Proof.
  destruct b.
  - rewrite list_elem_of_singleton. tauto.
  - split; [by intros ?%elem_of_nil | by intros [? _]].
Qed.

Lemma update_policy_elem vessel_data existing_record c :
  c ∈ update_policy vessel_data existing_record ↔
    (truthy (dget vessel_data "latitude") = true ∧ c = ("ais_last_position_lat", "latitude"))
    ∨ (truthy (dget vessel_data "longitude") = true
       ∧ c = ("ais_last_position_lon", "longitude"))
    ∨ (is_not_none (dget vessel_data "speed") = true ∧ c = ("ais_speed", "speed"))
    ∨ (is_not_none (dget vessel_data "course") = true ∧ c = ("ais_course", "course"))
    ∨ (truthy (dget vessel_data "status") = true ∧ c = ("ais_status", "status"))
    ∨ (truthy (dget vessel_data "destination") = true
       ∧ c = ("ais_destination", "destination"))
    ∨ (truthy (dget vessel_data "vessel_name") && name_replaceable existing_record = true
       ∧ c = ("vessel_name", "new_vessel_name"))
    ∨ (bool_decide (is_Some (genuine_imo vessel_data)) = true
       ∧ c = ("imo_number", "imo_number"))
    ∨ c = ("ais_last_update", "update_time") ∨ c = ("modified", "modified_time").
Proof.
  unfold update_policy. rewrite !elem_of_app, !elem_of_if_singleton.
  rewrite elem_of_cons, list_elem_of_singleton. tauto.
Qed.

(** X8: the statement prepared for an existing record sets exactly the
    columns of the fields that the incoming data carries, in program order:
    a coordinate that is not null or zero, a speed or course that is not
    null, a non-empty status or destination, the name only when the record
    has none or a placeholder, the IMO only when it is a non-zero integer,
    and always the two timestamps.  The parameters bound are those of the
    clauses and of the [WHERE], so no placeholder of the SQL is unbound. *)
Theorem update_sets_the_columns_of_present_fields
    mmsi vessel_data existing_record now u :
  prepare_vessel_update mmsi vessel_data existing_record now = Ok u →
  set_clauses u = update_policy vessel_data existing_record
  ∧ dom (upd_values u) = {["vessel_name"]} ∪ list_to_set (set_clauses u).*2
  ∧ upd_values u !! "vessel_name" = existing_record !! "name"
  ∧ ∀ c, c ∈ set_clauses u → is_Some (upd_values u !! c.2).
Proof.
  intros Hu. destruct (prepare_vessel_update_clauses _ _ _ _ _ Hu) as [Hc Hd].
  split; [done|]. split; [done|]. split.
  - destruct (prepare_vessel_update_frame _ _ _ _ _ Hu)
      as (name & a1 & a2 & a3 & a4 & Hn & E1 & E2 & E3 & E4 & Hk & _).
    rewrite Hk by (rewrite !not_elem_of_cons; repeat split; try done; apply not_elem_of_nil).
    rewrite (add_float_clause_frame _ _ _ _ _ _ _ E4) by done.
    rewrite (add_float_clause_frame _ _ _ _ _ _ _ E3) by done.
    rewrite (add_float_clause_frame _ _ _ _ _ _ _ E2) by done.
    rewrite (add_float_clause_frame _ _ _ _ _ _ _ E1) by done.
    simpl. by rewrite lookup_singleton_eq.
  - intros c Hin. apply elem_of_dom. rewrite Hd. apply elem_of_union_r.
    apply elem_of_list_to_set, list_elem_of_fmap. by exists c.
Qed.


End UpdatePolicy.

(** Witness of X8: the moved vessel of the examples. *)
Lemma update_sets_the_columns_of_present_fields_witness :
  ∃ u, prepare_vessel_update (H := example_runtime) "403456789" Examples.moved_update
         Examples.known_record 0 = Ok u
       ∧ set_clauses u = update_policy Examples.moved_update Examples.known_record
       ∧ dom (upd_values u) = {["vessel_name"]} ∪ list_to_set (set_clauses u).*2
       ∧ upd_values u !! "vessel_name" = Examples.known_record !! "name"
       ∧ ∀ c, c ∈ set_clauses u → is_Some (upd_values u !! c.2).
Proof.
  eexists. split; [vm_compute; reflexivity|].
  apply (update_sets_the_columns_of_present_fields (H := example_runtime) "403456789"
           Examples.moved_update Examples.known_record 0%Z).
  vm_compute. reflexivity.
Defined.


(** ** The rows of a prepared insert and of an identity merge *)

Ltac in_list :=
  solve [repeat first [apply list_elem_of_here | apply list_elem_of_further]].

(** Case analysis on the key looked up in a dictionary literal. *)
Ltac key_cases H :=
  repeat match type of H with
         | is_Some (<[?a := _]> _ !! ?k) =>
             destruct (decide (k = a)) as [->|?];
             [in_list | rewrite lookup_insert_ne in H by done]
         end;
  try (rewrite lookup_empty in H; by destruct H).

Lemma str_take_nonempty n s : s ≠ "" → str_take (S n) s ≠ "".
Proof. by destruct s. Qed.

Lemma free_imo_nonempty taken base imo_number counter fuel :
  imo_number ≠ "" → free_imo taken base imo_number counter fuel ≠ "".
Proof.
  revert imo_number counter. induction fuel as [|fuel IH]; intros imo_number counter Hne;
    simpl; [done|].
  destruct (taken imo_number); [|done]. apply IH.
  intros Heq. apply (f_equal String.length) in Heq.
  rewrite append_length in Heq. simpl in Heq. lia.
Qed.

Section InsertRows.
Context `{PyRuntime}.

Lemma insert_vessel_name_nonempty mmsi vessel_data vessel_name :
  insert_vessel_name mmsi vessel_data = Ok vessel_name →
  vessel_name ≠ ""
  ∧ (String.length mmsi ≤ 125 → String.length vessel_name ≤ 140).
Proof.
  unfold insert_vessel_name.
  destruct (if truthy _ then _ else _) as [s|]; simpl; [|done].
  intros [= <-]. destruct (String.eqb s "") eqn:E; simpl.
  - split; [done|]. intros Hlen. rewrite append_length. simpl. lia.
  - apply String.eqb_neq in E. split; [by apply str_take_nonempty|].
    intros _. apply str_take_length.
Qed.

Lemma insert_imo_number_nonempty taken fuel mmsi vessel_data :
  insert_imo_number taken fuel mmsi vessel_data ≠ "".
Proof.
  unfold insert_imo_number.
  set (imo := match genuine_imo vessel_data with Some _ => _ | None => _ end).
  assert (imo ≠ "") as Hne.
  { subst imo. destruct (genuine_imo vessel_data) as [z|]; [|done].
    destruct (taken (str_of_Z z)); [done|apply str_of_Z_nonempty]. }
  destruct (startswith imo "AIS-"); [by apply free_imo_nonempty|done].
Qed.

Lemma add_float_value_keys test vessel_data k column (values values' : dict) k' :
  add_float_value test vessel_data k column values = Ok values' →
  is_Some (values' !! k') → k' = column ∨ is_Some (values !! k').
Proof.
  unfold add_float_value. destruct (test _); [|intros [= <-]; by right].
  destruct (py_float _); simpl; [|done]. intros [= <-].
  destruct (decide (k' = column)) as [->|Hne]; [by left|].
  rewrite lookup_insert_ne by done. by right.
Qed.

Lemma add_status_destination_keys vessel_data (values : dict) k' :
  is_Some (add_status_destination vessel_data values !! k') →
  k' = "ais_status" ∨ k' = "ais_destination" ∨ is_Some (values !! k').
Proof.
  destruct (decide (k' = "ais_status")) as [->|H1]; [by left|].
  destruct (decide (k' = "ais_destination")) as [->|H2]; [by right; left|].
  rewrite add_status_destination_frame by done. by right; right.
Qed.


(** X10: the row of a new vessel is always complete.  It carries the
    generated key, the mmsi, a name that is never empty (and at most 140
    characters long when the mmsi has at most 125), an IMO number that is
    never empty, and the constants of the registry; beyond these it holds
    only AIS columns, so the call sign and the vessel type of a static frame
    are not stored. *)
Theorem insert_row_is_complete taken fuel new_name now mmsi vessel_data i :
  prepare_vessel_insert taken fuel new_name now mmsi vessel_data = Ok i →
  ∃ vessel_name imo_number,
    ins_values i !! "name" = Some (PStr new_name)
    ∧ ins_values i !! "ais_mmsi" = Some (PStr mmsi)
    ∧ ins_values i !! "vessel_name" = Some (PStr vessel_name)
    ∧ vessel_name ≠ ""
    ∧ (String.length mmsi ≤ 125 → String.length vessel_name ≤ 140)
    ∧ ins_values i !! "imo_number" = Some (PStr imo_number)
    ∧ imo_number ≠ ""
    ∧ ins_values i !! "grt" = Some (PStr "0")
    ∧ ins_values i !! "dwt" = Some (PStr "0")
    ∧ ins_values i !! "creation" = Some (PDatetime now)
    ∧ ins_values i !! "ais_last_update" = Some (PDatetime now)
    ∧ dom (ins_values i) ⊆ list_to_set insert_columns.
Proof.
  intros Hi.
  assert (∀ k, k ∈ ["name"; "ais_mmsi"; "vessel_name"; "imo_number"; "grt"; "dwt";
                    "creation"; "ais_last_update"] →
            ∃ vessel_name,
              insert_vessel_name mmsi vessel_data = Ok vessel_name
              ∧ ins_values i !! k
                = insert_base new_name vessel_name
                    (insert_imo_number taken fuel mmsi vessel_data) mmsi now !! k) as Hfix.
  { intros k Hk. apply (prepare_vessel_insert_fixed _ _ _ _ _ _ _ _ Hi).
    rewrite !elem_of_cons in Hk.
    repeat (destruct Hk as [->|Hk];
            [rewrite !not_elem_of_cons; repeat split; try done; apply not_elem_of_nil|]).
    by apply elem_of_nil in Hk. }
  destruct (prepare_vessel_insert_inv _ _ _ _ _ _ _ Hi)
    as (vessel_name & v1 & v2 & v3 & v4 & Hn & E1 & E2 & E3 & E4 & Hv).
  exists vessel_name, (insert_imo_number taken fuel mmsi vessel_data).
  destruct (insert_vessel_name_nonempty _ _ _ Hn) as [Hne Hlen].
  assert (∀ k, k ∈ ["name"; "ais_mmsi"; "vessel_name"; "imo_number"; "grt"; "dwt";
                    "creation"; "ais_last_update"] →
            ins_values i !! k
            = insert_base new_name vessel_name
                (insert_imo_number taken fuel mmsi vessel_data) mmsi now !! k) as Hfix'.
  { intros k Hk. destruct (Hfix k Hk) as (n' & Hn' & ->). congruence. }
  clear Hfix.
  repeat match goal with
         | |- ins_values i !! ?k = _ ∧ _ =>
             split; [rewrite Hfix' by (rewrite !elem_of_cons; tauto); reflexivity|]
         | |- _ ≠ _ ∧ _ => split; [first [exact Hne | apply insert_imo_number_nonempty]|]
         | |- (_ → _) ∧ _ => split; [exact Hlen|]
         end.
  rewrite Hv. intros k Hk%elem_of_dom. apply elem_of_list_to_set.
  apply add_status_destination_keys in Hk as [->|[->|Hk]]; [in_list..|].
  apply (add_float_value_keys _ _ _ _ _ _ _ E4) in Hk as [->|Hk]; [in_list|].
  apply (add_float_value_keys _ _ _ _ _ _ _ E3) in Hk as [->|Hk]; [in_list|].
  apply (add_float_value_keys _ _ _ _ _ _ _ E2) in Hk as [->|Hk]; [in_list|].
  apply (add_float_value_keys _ _ _ _ _ _ _ E1) in Hk as [->|Hk]; [in_list|].
  unfold insert_base in Hk. key_cases Hk.
Qed.


(** X12: an identity merge rebinds the mmsi and leaves the identity of the
    record alone.  The data written to the record found by its IMO always
    holds the new mmsi and the time of the merge, is addressed to the key of
    that record, and holds AIS columns and the name only: neither the key
    nor the IMO number is ever written. *)
Theorem identity_merge_keeps_key_and_imo mmsi vessel_data existing_record now d :
  prepare_mmsi_update mmsi vessel_data existing_record now = Ok d →
  sv_name d = dget existing_record "name"
  ∧ sv_data d !! "ais_mmsi" = Some (PStr mmsi)
  ∧ sv_data d !! "ais_last_update" = Some (PDatetime now)
  ∧ sv_data d !! "name" = None
  ∧ sv_data d !! "imo_number" = None
  ∧ dom (sv_data d) ⊆ list_to_set merge_columns.
Proof.
  intros Hd.
  assert (∀ k, k ∈ ["ais_mmsi"; "name"; "imo_number"] →
            sv_data d !! k = mmsi_update_base mmsi now vessel_data existing_record !! k)
    as Hfix.
  { intros k Hk. apply (prepare_mmsi_update_fixed _ _ _ _ _ _ Hd).
    rewrite !elem_of_cons in Hk.
    repeat (destruct Hk as [->|Hk];
            [rewrite !not_elem_of_cons; repeat split; try done; apply not_elem_of_nil|]).
    by apply elem_of_nil in Hk. }
  destruct (prepare_mmsi_update_inv _ _ _ _ _ Hd)
    as (v1 & v2 & v3 & v4 & E1 & E2 & E3 & E4 & Hname & Hv).
  split; [done|].
  assert (∀ k, k ∈ ["ais_mmsi"; "name"; "imo_number"] →
            mmsi_update_base mmsi now vessel_data existing_record !! k
            = ({["ais_mmsi" := PStr mmsi]} : dict) !! k) as Hbase.
  { intros k Hk. unfold mmsi_update_base.
    rewrite !elem_of_cons in Hk.
    repeat match goal with
           | |- context [if ?b then _ else _] => destruct b
           end;
    repeat (destruct Hk as [->|Hk]; [done|]); by apply elem_of_nil in Hk. }
  split; [rewrite Hfix, Hbase by (rewrite !elem_of_cons; tauto); done|].
  split; [by rewrite Hv, lookup_insert_eq|].
  split; [rewrite Hfix, Hbase by (rewrite !elem_of_cons; tauto); done|].
  split; [rewrite Hfix, Hbase by (rewrite !elem_of_cons; tauto); done|].
  rewrite Hv. intros k Hk%elem_of_dom. apply elem_of_list_to_set.
  destruct (decide (k = "ais_last_update")) as [->|Hne]; [in_list|].
  rewrite lookup_insert_ne in Hk by done.
  apply add_status_destination_keys in Hk as [->|[->|Hk]]; [in_list..|].
  apply (add_float_value_keys _ _ _ _ _ _ _ E4) in Hk as [->|Hk]; [in_list|].
  apply (add_float_value_keys _ _ _ _ _ _ _ E3) in Hk as [->|Hk]; [in_list|].
  apply (add_float_value_keys _ _ _ _ _ _ _ E2) in Hk as [->|Hk]; [in_list|].
  apply (add_float_value_keys _ _ _ _ _ _ _ E1) in Hk as [->|Hk]; [in_list|].
  unfold mmsi_update_base in Hk.
  destruct (truthy (dget vessel_data "vessel_name")); [|key_cases Hk].
  destruct (_ && _); key_cases Hk.
Qed.

End InsertRows.

(** Witness of X10: the insert prepared for the moved vessel of the examples
    on an empty registry. *)
Lemma insert_row_is_complete_witness :
  ∃ i, prepare_vessel_insert (H := example_runtime) (db_exists_imo []) 1 "0123456789" 0
         "403456789" Examples.moved_update = Ok i
       ∧ ∃ vessel_name imo_number,
           ins_values i !! "name" = Some (PStr "0123456789")
           ∧ ins_values i !! "ais_mmsi" = Some (PStr "403456789")
           ∧ ins_values i !! "vessel_name" = Some (PStr vessel_name)
           ∧ vessel_name ≠ ""
           ∧ (String.length "403456789" ≤ 125 → String.length vessel_name ≤ 140)
           ∧ ins_values i !! "imo_number" = Some (PStr imo_number)
           ∧ imo_number ≠ ""
           ∧ ins_values i !! "grt" = Some (PStr "0")
           ∧ ins_values i !! "dwt" = Some (PStr "0")
           ∧ ins_values i !! "creation" = Some (PDatetime 0)
           ∧ ins_values i !! "ais_last_update" = Some (PDatetime 0)
           ∧ dom (ins_values i) ⊆ list_to_set insert_columns.
Proof.
  eexists. split; [vm_compute; reflexivity|].
  apply (insert_row_is_complete (H := example_runtime) (db_exists_imo []) 1 "0123456789"
           0%Z "403456789" Examples.moved_update).
  vm_compute. reflexivity.
Defined.


(** Witness of X12: the identity merge of the examples. *)
Lemma identity_merge_keeps_key_and_imo_witness :
  ∃ d, prepare_mmsi_update (H := example_runtime) "222" Examples.merge_update
         Examples.merge_record 0 = Ok d
       ∧ sv_name d = dget Examples.merge_record "name"
       ∧ sv_data d !! "ais_mmsi" = Some (PStr "222")
       ∧ sv_data d !! "ais_last_update" = Some (PDatetime 0)
       ∧ sv_data d !! "name" = None
       ∧ sv_data d !! "imo_number" = None
       ∧ dom (sv_data d) ⊆ list_to_set merge_columns.
Proof.
  eexists. split; [vm_compute; reflexivity|].
  apply (identity_merge_keeps_key_and_imo (H := example_runtime) "222"
           Examples.merge_update Examples.merge_record 0%Z).
  vm_compute. reflexivity.
Defined.

(** ** The outcome of a batch *)

Lemma last_match_app_last {A} (p : A → bool) l x :
  p x = true → last_match p (l ++ [x]) = Some x.
Proof. intros Hp. induction l as [|y l IH]; simpl; [by rewrite Hp | by rewrite IH]. Qed.

Lemma db_sql_insert_fresh (reg : registry) i name imo :
  dget (ins_values i) "name" = PStr name →
  (∀ row, row ∈ reg → dget row "name" ≠ PStr name) →
  dget (ins_values i) "imo_number" = PStr imo →
  db_exists_imo reg imo = false →
  db_sql_insert reg i = inl (reg ++ [ins_values i]).
Proof.
  intros Hname Hfresh Himo Hfree. unfold db_sql_insert. rewrite Hname, Himo.
  destruct (existsb (fun r : dict => sql_eq (dget r "name") (PStr name)) reg) eqn:E.
  { apply existsb_exists in E as (r & Hin%list_elem_of_In & Heq%sql_eq_PStr).
    by apply Hfresh in Hin. }
  unfold db_exists_imo in Hfree. by rewrite Hfree.
Qed.

Section ExecutorErrors.
Context `{PyRuntime} {DB : Type}.
Variable sql_update : DB → UpdateStmt → DB + string.
Variable set_value : DB → SetValue → DB + string.
Variable sql_insert : DB → InsertStmt → DB + string.





End ExecutorErrors.

Section BatchOutcomes.
Context `{PyRuntime}.

Lemma insert_imo_number_free (reg : registry) mmsi vessel_data :
  db_exists_imo reg
    (insert_imo_number (db_exists_imo reg) (S (length reg)) mmsi vessel_data) = false.
Proof.
  assert (startswith ("AIS-" ++ mmsi)%string "AIS-" = true) as Hais
    by apply startswith_append.
  assert (db_exists_imo reg
            (free_imo (db_exists_imo reg) ("AIS-" ++ mmsi)%string ("AIS-" ++ mmsi)%string 1
               (S (length reg))) = false) as Hsyn.
  { destruct (free_imo_terminates reg ("AIS-" ++ mmsi)%string) as (n & Hn & _ & Hfree).
    by rewrite Hn. }
  unfold insert_imo_number.
  destruct (genuine_imo vessel_data) as [z|]; [|by rewrite Hais].
  destruct (db_exists_imo reg (str_of_Z z)) eqn:Et; [by rewrite Hais|].
  by rewrite str_of_Z_not_synthetic.
Qed.


(** X14: a new vessel is created once.  When a batch of one record resolves
    to an insert that can be prepared, and the generated key is not the key
    of a row, the batch succeeds with a count of 1, the registry is the old
    one followed by the prepared row, the cache is untouched, the registry
    keeps its typing, and from then on that mmsi resolves to the new row,
    whatever the update holds. *)
Theorem new_vessel_is_found_by_the_next_batch
    (reg : registry) vessel_cache envs vessel_data i :
  registry_wf reg = true →
  truthy (dget vessel_data "mmsi") = true →
  py_str (dget vessel_data "mmsi") ≠ "" →
  startswith (py_str (dget vessel_data "mmsi")) "IMO-" = false →
  resolve reg (py_str (dget vessel_data "mmsi")) vessel_data = Insert →
  prepare_vessel_insert (db_exists_imo reg) (S (length reg)) (env_hash (envs 0))
    (env_now (envs 0)) (py_str (dget vessel_data "mmsi")) vessel_data = Ok i →
  (∀ row, row ∈ reg → dget row "name" ≠ PStr (env_hash (envs 0))) →
  bo_status (update_vessel_ais_batch reg vessel_cache envs [vessel_data]) = Ok 1
  ∧ bo_registry (update_vessel_ais_batch reg vessel_cache envs [vessel_data])
    = reg ++ [ins_values i]
  ∧ bo_cache (update_vessel_ais_batch reg vessel_cache envs [vessel_data]) = vessel_cache
  ∧ registry_wf (reg ++ [ins_values i]) = true
  ∧ ∀ vessel_data',
      resolve (reg ++ [ins_values i]) (py_str (dget vessel_data "mmsi")) vessel_data'
      = Update (ins_values i).
Proof.
  intros Hwf Hm Hne Hpre Hres Hprep Hfresh.
  set (mmsi := py_str (dget vessel_data "mmsi")) in *.
  assert (∀ k, k ∈ ["name"; "ais_mmsi"; "imo_number"] →
            dget (ins_values i) k
            = dget (insert_base (env_hash (envs 0)) "" 
                      (insert_imo_number (db_exists_imo reg) (S (length reg)) mmsi
                         vessel_data) mmsi (env_now (envs 0))) k) as Hfix.
  { intros k Hk.
    destruct (prepare_vessel_insert_fixed _ _ _ _ _ _ _ k Hprep) as (n & _ & Hv).
    { rewrite !elem_of_cons in Hk.
      repeat (destruct Hk as [->|Hk];
              [rewrite !not_elem_of_cons; repeat split; try done; apply not_elem_of_nil|]).
      by apply elem_of_nil in Hk. }
    unfold dget. rewrite Hv. unfold insert_base. rewrite !elem_of_cons in Hk.
    repeat (destruct Hk as [->|Hk];
            [rewrite ?lookup_insert_ne by done; by rewrite !lookup_insert_eq|]).
    by apply elem_of_nil in Hk. }
  assert (dget (ins_values i) "name" = PStr (env_hash (envs 0))) as Hname.
  { rewrite Hfix by (rewrite !elem_of_cons; tauto). unfold dget, insert_base.
    by rewrite lookup_insert_eq. }
  assert (dget (ins_values i) "ais_mmsi" = PStr mmsi) as Hmmsi.
  { rewrite Hfix by (rewrite !elem_of_cons; tauto). unfold dget, insert_base.
    rewrite !lookup_insert_ne by done. by rewrite lookup_insert_eq. }
  assert (dget (ins_values i) "imo_number"
          = PStr (insert_imo_number (db_exists_imo reg) (S (length reg)) mmsi vessel_data))
    as Himo.
  { rewrite Hfix by (rewrite !elem_of_cons; tauto). unfold dget, insert_base.
    rewrite !lookup_insert_ne by done. by rewrite lookup_insert_eq. }
  pose proof (db_sql_insert_fresh reg i _ _ Hname Hfresh Himo
                (insert_imo_number_free reg mmsi vessel_data)) as Hins.
  destruct (batch_step_resolve reg [vessel_data] vessel_data (envs 0) vessel_cache Hwf
              ltac:(apply list_elem_of_here) Hm Hne Hpre) as (ev & Hev & Hstep).
  fold mmsi in Hstep. cbv zeta in Hstep. rewrite Hres, Hprep in Hstep.
  assert (update_vessel_ais_batch reg vessel_cache envs [vessel_data]
          = {| bo_registry := reg ++ [ins_values i]; bo_cache := vessel_cache;
               bo_log := []; bo_status := Ok 1 |}) as ->.
  { unfold update_vessel_ais_batch. rewrite Hev. cbn [batch_loop]. rewrite Hstep.
    cbn [mbind result_bind]. unfold execute_batch_updates. cbn [eo_result eo_txn eo_log].
    unfold execute_batch_inserts, py_append. cbn [app run_inserts working committed].
    rewrite Hins. by cbn. }
  cbn [bo_status bo_registry bo_cache].
  split; [done|]. split; [done|]. split; [done|]. split.
  - unfold registry_wf in *. rewrite forallb_app, Hwf. cbn [forallb andb].
    unfold row_wf. rewrite Hname, Hmmsi, Himo, Hpre. done.
  - intros vessel_data'. unfold resolve.
    rewrite last_match_app_last; [done|]. unfold by_mmsi. rewrite Hmmsi. simpl.
    apply String.eqb_refl.
Qed.

End BatchOutcomes.


(** Witness of X14: the moved vessel of the examples arriving at an empty
    registry. *)
Lemma new_vessel_is_found_by_the_next_batch_witness :
  ∃ i, prepare_vessel_insert (H := example_runtime) (db_exists_imo []) 1 "0123456789"
         1700000000000000 "403456789" Examples.moved_update = Ok i
       ∧ bo_status (update_vessel_ais_batch (H := example_runtime) [] []
                      (fun _ => Examples.at_1000) [Examples.moved_update]) = Ok 1
       ∧ bo_registry (update_vessel_ais_batch (H := example_runtime) [] []
                        (fun _ => Examples.at_1000) [Examples.moved_update])
         = [] ++ [ins_values i]
       ∧ bo_cache (update_vessel_ais_batch (H := example_runtime) [] []
                     (fun _ => Examples.at_1000) [Examples.moved_update]) = []
       ∧ registry_wf ([] ++ [ins_values i]) = true
       ∧ ∀ vessel_data',
           resolve ([] ++ [ins_values i])
             (py_str (H := example_runtime) (dget Examples.moved_update "mmsi")) vessel_data'
           = Update (ins_values i).
Proof.
  eexists. split; [vm_compute; reflexivity|].
  apply (new_vessel_is_found_by_the_next_batch (H := example_runtime) [] []
           (fun _ => Examples.at_1000) Examples.moved_update).
  - reflexivity.
  - vm_compute. reflexivity.
  - vm_compute. discriminate.
  - vm_compute. reflexivity.
  - vm_compute. reflexivity.
  - vm_compute. reflexivity.
  - intros row Hrow. by apply elem_of_nil in Hrow.
Defined.

(** ** What a batch leaves alone *)

Ltac not_in_list H :=
  solve [repeat (apply elem_of_cons in H as [H|H]; [discriminate H|]);
         by apply elem_of_nil in H].

Lemma foldl_insert_other (vals row : dict) (clauses : list (string * string)) c :
  c ∉ clauses.*1 →
  dget (foldl (fun (r : dict) cl => <[cl.1 := dget vals cl.2]> r) row clauses) c
  = dget row c.
Proof.
  revert row. induction clauses as [|cl clauses IH]; intros row Hc; simpl; [done|].
  rewrite fmap_cons in Hc. apply not_elem_of_cons in Hc as [Hne Hc].
  rewrite IH by done. unfold dget. by rewrite lookup_insert_ne.
Qed.

Lemma db_sql_update_column (reg reg' : registry) u c :
  db_sql_update reg u = inl reg' → c ∉ (set_clauses u).*1 →
  column_of c reg' = column_of c reg.
Proof.
  unfold db_sql_update, column_of. intros [= <-] Hc.
  rewrite <- list_fmap_compose. apply list_fmap_ext. intros _ row _. simpl.
  destruct (sql_eq _ _); [by apply foldl_insert_other | done].
Qed.

Lemma db_set_value_column (reg reg' : registry) d c :
  db_set_value reg d = inl reg' → sv_data d !! c = None →
  column_of c reg' = column_of c reg.
Proof.
  unfold db_set_value, column_of. intros [= <-] Hc.
  rewrite <- list_fmap_compose. apply list_fmap_ext. intros _ row _. simpl.
  destruct (sql_eq _ _); [|done]. unfold dget. by rewrite lookup_union_r.
Qed.

Lemma run_updates_length updates (reg : registry) :
  length (run_updates db_sql_update db_set_value updates reg).1 = length reg.
Proof.
  revert reg. induction updates as [|[u|d] rest IH]; intros reg; simpl; [done|..].
  - rewrite IH. by rewrite length_fmap.
  - rewrite IH. by rewrite length_fmap.
Qed.

Lemma run_updates_column updates (reg : registry) c :
  Forall (op_leaves c) updates →
  column_of c (run_updates db_sql_update db_set_value updates reg).1 = column_of c reg.
Proof.
  intros Hall. revert reg. induction Hall as [|[u|d] rest Hop _ IH]; intros reg; simpl;
    [done|..].
  - rewrite IH. by apply (db_sql_update_column reg _ u).
  - rewrite IH. by apply (db_set_value_column reg _ d).
Qed.

Lemma run_updates_ok updates (reg : registry) :
  (run_updates db_sql_update db_set_value updates reg).2 = Ok ().
Proof.
  revert reg. induction updates as [|[u|d] rest IH]; intros reg; simpl; [done|..];
    apply IH.
Qed.

Lemma db_sql_insert_appends (reg reg' : registry) i :
  db_sql_insert reg i = inl reg' → reg' = reg ++ [ins_values i].
Proof.
  unfold db_sql_insert. destruct (existsb _ reg); [done|].
  destruct (existsb _ reg); [done|]. by intros [= <-].
Qed.

Lemma run_inserts_appends `{PyRuntime} inserts (reg : registry) log :
  ∃ added,
    (run_inserts db_sql_insert inserts reg log).1.1 = reg ++ added
    ∧ added `sublist_of` (ins_values <$> inserts).
Proof.
  revert reg log. induction inserts as [|i rest IH]; intros reg log; simpl.
  - exists []. by rewrite app_nil_r.
  - destruct (db_sql_insert reg i) as [reg'|msg] eqn:E.
    + apply db_sql_insert_appends in E as ->.
      destruct (IH (reg ++ [ins_values i]) log) as (added & -> & Hsub).
      exists (ins_values i :: added). rewrite <- app_assoc. split; [done|].
      by apply sublist_skip.
    + destruct (is_duplicate_imo msg).
      * destruct (IH reg (py_append log ("Duplicate IMO detected, skipping insert for MMSI: "
                                         ++ py_str (dget (ins_values i) "ais_mmsi"))%string))
          as (added & -> & Hsub).
        exists added. split; [done|]. by apply sublist_cons.
      * exists []. simpl. rewrite app_nil_r. split; [done|]. apply sublist_nil_l.
Qed.

Section BatchFrame.
Context `{PyRuntime}.

Lemma prepare_mmsi_update_keys mmsi vessel_data existing_record now d k :
  prepare_mmsi_update mmsi vessel_data existing_record now = Ok d →
  is_Some (sv_data d !! k) → k ∈ merge_columns.
Proof.
  intros Hd.
  destruct (prepare_mmsi_update_inv _ _ _ _ _ Hd)
    as (v1 & v2 & v3 & v4 & E1 & E2 & E3 & E4 & _ & Hv).
  rewrite Hv. intros Hk. unfold merge_columns.
  destruct (decide (k = "ais_last_update")) as [->|Hne]; [in_list|].
  rewrite lookup_insert_ne in Hk by done.
  apply add_status_destination_keys in Hk as [->|[->|Hk]]; [in_list..|].
  apply (add_float_value_keys _ _ _ _ _ _ _ E4) in Hk as [->|Hk]; [in_list|].
  apply (add_float_value_keys _ _ _ _ _ _ _ E3) in Hk as [->|Hk]; [in_list|].
  apply (add_float_value_keys _ _ _ _ _ _ _ E2) in Hk as [->|Hk]; [in_list|].
  apply (add_float_value_keys _ _ _ _ _ _ _ E1) in Hk as [->|Hk]; [in_list|].
  unfold mmsi_update_base in Hk.
  destruct (truthy (dget vessel_data "vessel_name")); [|key_cases Hk].
  destruct (_ && _); key_cases Hk.
Qed.

Lemma prepare_mmsi_update_leaves mmsi vessel_data existing_record now d c :
  prepare_mmsi_update mmsi vessel_data existing_record now = Ok d →
  c ∈ protected_columns → sv_data d !! c = None.
Proof.
  intros Hd Hc. apply eq_None_not_Some. intros Hk.
  apply (prepare_mmsi_update_keys _ _ _ _ _ _ Hd) in Hk.
  unfold protected_columns in Hc. unfold merge_columns in Hk.
  repeat (apply elem_of_cons in Hc as [->|Hc]; [not_in_list Hk|]).
  by apply elem_of_nil in Hc.
Qed.

Lemma prepare_vessel_update_leaves mmsi vessel_data existing_record now u c :
  prepare_vessel_update mmsi vessel_data existing_record now = Ok u →
  c ∈ protected_columns ∨ c = "ais_mmsi"
  ∨ (c = "imo_number" ∧ genuine_imo vessel_data = None) →
  c ∉ (set_clauses u).*1.
Proof.
  intros Hu Hc. destruct (prepare_vessel_update_clauses _ _ _ _ _ Hu) as [Hcl _].
  rewrite Hcl. intros ([c' k] & Heq & Hin)%list_elem_of_fmap. simpl in Heq. subst c'.
  apply update_policy_elem in Hin.
  destruct Hc as [Hc|[->|[-> Hg]]].
  - unfold protected_columns in Hc.
    repeat (apply elem_of_cons in Hc as [->|Hc]; [intuition congruence|]).
    by apply elem_of_nil in Hc.
  - intuition congruence.
  - rewrite Hg in Hin. rewrite bool_decide_eq_false_2 in Hin by (by intros [??]).
    intuition congruence.
Qed.

Lemma batch_step_update_op reg existing_vessels env vessel_data vessel_cache cache' op :
  batch_step reg existing_vessels env vessel_data vessel_cache
    = (cache', Ok (AddUpdate op)) →
  (∃ existing_record d,
      prepare_mmsi_update (py_str (dget vessel_data "mmsi")) vessel_data existing_record
        (env_now env) = Ok d
      ∧ op = DataFormat d ∧ is_Some (genuine_imo vessel_data))
  ∨ (∃ existing_record u,
       prepare_vessel_update (py_str (dget vessel_data "mmsi")) vessel_data existing_record
         (env_now env) = Ok u
       ∧ op = SqlFormat u).
Proof.
  unfold batch_step. destruct (String.eqb _ ""); [done|].
  set (by_imo := if negb _ then _ else None).
  set (er := default (existing_vessels !! py_str (dget vessel_data "mmsi")) by_imo).
  destruct (bool_decide (is_Some by_imo) && record_truthy er) eqn:E.
  - intros [= <- Hr]. left. revert Hr.
    destruct (prepare_mmsi_update _ _ _ _) as [d|] eqn:Ed; simpl; [|done].
    intros [= <-]. eexists _, d. split; [exact Ed|]. split; [done|].
    apply andb_true_iff in E as [E _]. apply bool_decide_eq_true in E.
    subst by_imo. destruct (negb (record_truthy _)); [|by destruct E].
    destruct (genuine_imo vessel_data); [eauto|by destruct E].
  - destruct (should_update_vessel _ _ _ _ _) as [c acc].
    intros [= <- Hr]. right. revert Hr. destruct acc as [[]|]; simpl; try done.
    destruct (record_truthy er);
      [|destruct (prepare_vessel_insert _ _ _ _ _ _); simpl; done].
    destruct (prepare_vessel_update _ _ _ _) as [u|] eqn:Eu; simpl; [|done].
    intros [= <-]. by eexists _, u.
Qed.

Lemma batch_step_insert reg existing_vessels env vessel_data vessel_cache cache' i :
  batch_step reg existing_vessels env vessel_data vessel_cache
    = (cache', Ok (AddInsert i)) →
  prepare_vessel_insert (db_exists_imo reg) (S (length reg)) (env_hash env) (env_now env)
    (py_str (dget vessel_data "mmsi")) vessel_data = Ok i.
Proof.
  unfold batch_step. destruct (String.eqb _ ""); [done|].
  set (by_imo := if negb _ then _ else None).
  set (er := default (existing_vessels !! py_str (dget vessel_data "mmsi")) by_imo).
  destruct (bool_decide (is_Some by_imo) && record_truthy er) eqn:E.
  - intros [= <- Hr]. revert Hr. destruct (prepare_mmsi_update _ _ _ _); simpl; done.
  - destruct (should_update_vessel _ _ _ _ _) as [c acc].
    intros [= <- Hr]. revert Hr. destruct acc as [[]|]; simpl; try done.
    destruct (record_truthy er);
      [destruct (prepare_vessel_update _ _ _ _); simpl; done|].
    destruct (prepare_vessel_insert _ _ _ _ _ _) as [i'|]; simpl; [|done].
    by intros [= <-].
Qed.

Lemma batch_loop_Forall (PU : update_op → Prop) (PI : InsertStmt → Prop)
    reg existing_vessels envs vessels_data :
  (∀ vessel_data env c c' op,
     vessel_data ∈ vessels_data →
     batch_step reg existing_vessels env vessel_data c = (c', Ok (AddUpdate op)) → PU op) →
  (∀ vessel_data env c c' i,
     vessel_data ∈ vessels_data →
     batch_step reg existing_vessels env vessel_data c = (c', Ok (AddInsert i)) → PI i) →
  ∀ n vessel_cache updates inserts cache' updates' inserts',
    batch_loop reg existing_vessels envs n vessels_data vessel_cache updates inserts
      = (cache', Ok (updates', inserts')) →
    Forall PU updates → Forall PI inserts →
    Forall PU updates' ∧ Forall PI inserts'
    ∧ length inserts' ≤ length inserts + length vessels_data.
Proof.
  induction vessels_data as [|vd rest IH]; intros HU HI n c updates inserts c' updates'
    inserts'; simpl.
  - intros [= <- <- <-] ??. split; [done|]. split; [done|lia].
  - destruct (batch_step _ _ _ vd c) as [c1 [[|op|i]|e]] eqn:Es; [| | |done].
    + intros Hl FU FI.
      destruct (IH ltac:(intros; eapply HU; [by apply list_elem_of_further|done])
                   ltac:(intros; eapply HI; [by apply list_elem_of_further|done])
                   _ _ _ _ _ _ _ Hl FU FI) as (? & ? & ?).
      split; [done|]. split; [done|lia].
    + intros Hl FU FI.
      assert (Forall PU (py_append updates op)) as FU'.
      { apply Forall_app. split; [done|]. constructor; [|done].
        eapply HU; [apply list_elem_of_here|exact Es]. }
      destruct (IH ltac:(intros; eapply HU; [by apply list_elem_of_further|done])
                   ltac:(intros; eapply HI; [by apply list_elem_of_further|done])
                   _ _ _ _ _ _ _ Hl FU' FI) as (? & ? & ?).
      split; [done|]. split; [done|lia].
    + intros Hl FU FI.
      assert (Forall PI (py_append inserts i)) as FI'.
      { apply Forall_app. split; [done|]. constructor; [|done].
        eapply HI; [apply list_elem_of_here|exact Es]. }
      destruct (IH ltac:(intros; eapply HU; [by apply list_elem_of_further|done])
                   ltac:(intros; eapply HI; [by apply list_elem_of_further|done])
                   _ _ _ _ _ _ _ Hl FU FI') as (? & ? & Hlen).
      split; [done|]. split; [done|].
      unfold py_append in Hlen. rewrite length_app in Hlen. simpl in Hlen. lia.
Qed.

(** The shortcut for an empty batch gives what the general path gives. *)
Lemma update_vessel_ais_batch_eq (reg : registry) vessel_cache envs vessels_data :
  update_vessel_ais_batch reg vessel_cache envs vessels_data
  = match collect_existing reg vessels_data with
    | Raise e => {| bo_registry := reg; bo_cache := vessel_cache; bo_log := [];
                    bo_status := Raise e |}
    | Ok existing_vessels =>
        match batch_loop reg existing_vessels envs 0 vessels_data vessel_cache [] [] with
        | (vessel_cache, Raise e) =>
            {| bo_registry := reg; bo_cache := vessel_cache; bo_log := [];
               bo_status := Raise e |}
        | (vessel_cache, Ok (updates, inserts)) =>
            let t := {| committed := reg; working := reg |} in
            let eu := execute_batch_updates db_sql_update db_set_value updates t in
            match eo_result eu with
            | Raise e =>
                {| bo_registry := committed (eo_txn eu); bo_cache := vessel_cache;
                   bo_log := eo_log eu; bo_status := Raise e |}
            | Ok _ =>
                let ei := execute_batch_inserts db_sql_insert inserts (eo_txn eu) in
                {| bo_registry := committed (eo_txn ei); bo_cache := vessel_cache;
                   bo_log := (eo_log eu ++ eo_log ei)%list;
                   bo_status :=
                     match eo_result ei with
                     | Raise e => Raise e
                     | Ok _ => Ok (length updates + length inserts)
                     end |}
            end
        end
    end.
Proof. by destruct vessels_data. Qed.

(** The registry after a batch: the old rows, with the columns that every
    update of the batch leaves alone unchanged, followed by rows that the
    batch prepared. *)
Lemma batch_registry_shape (C : list string) (PI : InsertStmt → Prop)
    (reg : registry) vessel_cache envs vessels_data :
  (∀ existing_vessels vessel_data env c c' op,
     vessel_data ∈ vessels_data →
     batch_step reg existing_vessels env vessel_data c = (c', Ok (AddUpdate op)) →
     ∀ col, col ∈ C → op_leaves col op) →
  (∀ existing_vessels vessel_data env c c' i,
     vessel_data ∈ vessels_data →
     batch_step reg existing_vessels env vessel_data c = (c', Ok (AddInsert i)) → PI i) →
  ∃ kept added,
    bo_registry (update_vessel_ais_batch reg vessel_cache envs vessels_data) = kept ++ added
    ∧ length kept = length reg
    ∧ (∀ col, col ∈ C → column_of col kept = column_of col reg)
    ∧ length added ≤ length vessels_data
    ∧ Forall (fun row => ∃ i, PI i ∧ row = ins_values i) added
    ∧ (∀ e, bo_status (update_vessel_ais_batch reg vessel_cache envs vessels_data)
            = Raise e → added = []).
Proof.
  intros HU HI.
  assert (∃ kept added : registry, reg = kept ++ added
            ∧ length kept = length reg
            ∧ (∀ col, col ∈ C → column_of col kept = column_of col reg)
            ∧ length added ≤ length vessels_data
            ∧ Forall (fun row => ∃ i, PI i ∧ row = ins_values i) added
            ∧ added = []) as Hsame.
  { exists reg, []. rewrite app_nil_r. repeat split; try done; simpl; lia. }
  assert (∀ (r : registry) (s : result nat),
            (∃ kept added : registry, r = kept ++ added
               ∧ length kept = length reg
               ∧ (∀ col, col ∈ C → column_of col kept = column_of col reg)
               ∧ length added ≤ length vessels_data
               ∧ Forall (fun row => ∃ i, PI i ∧ row = ins_values i) added
               ∧ added = []) →
            ∃ kept added : registry, r = kept ++ added
               ∧ length kept = length reg
               ∧ (∀ col, col ∈ C → column_of col kept = column_of col reg)
               ∧ length added ≤ length vessels_data
               ∧ Forall (fun row => ∃ i, PI i ∧ row = ins_values i) added
               ∧ (∀ e : pyexn, s = Raise e → added = [])) as Hweak.
  { intros r s (kept & added & ? & ? & ? & ? & ? & ?). exists kept, added.
    repeat split; try done. }
  rewrite update_vessel_ais_batch_eq.
  destruct (collect_existing reg vessels_data) as [ev|e0]; [|apply Hweak, Hsame].
  destruct (batch_loop _ _ _ _ _ _ _ _) as [c [[updates inserts]|e1]] eqn:El;
    [|apply Hweak, Hsame].
  destruct (batch_loop_Forall (fun op => ∀ col, col ∈ C → op_leaves col op) PI
              reg ev envs vessels_data
              ltac:(cbv beta; intros; eapply HU; eauto) ltac:(intros; eapply HI; eauto)
              _ _ _ _ _ _ _ El ltac:(constructor) ltac:(constructor))
    as (FU & FI & Hlen). simpl in Hlen.
  unfold execute_batch_updates. cbn [working committed].
  set (eu := match updates with [] => _ | _ => _ end).
  assert (∃ kept, eu = {| eo_txn := {| committed := kept; working := kept |};
                          eo_log := []; eo_result := Ok () |}
                  ∧ length kept = length reg
                  ∧ ∀ col, col ∈ C → column_of col kept = column_of col reg)
    as (kept & -> & Hk1 & Hk2).
  { subst eu. destruct updates as [|op rest'] eqn:Eu; [by exists reg|]. rewrite <- Eu in *.
    pose proof (run_updates_ok updates reg) as Hok.
    pose proof (run_updates_length updates reg) as Hl1.
    destruct (run_updates db_sql_update db_set_value updates reg) as [db r] eqn:Er.
    simpl in Hok, Hl1. subst r. exists db. split; [done|]. split; [done|].
    intros col Hcol.
    assert (db = (run_updates db_sql_update db_set_value updates reg).1) as ->
      by by rewrite Er.
    apply run_updates_column. eapply Forall_impl; [exact FU|]. intros op' Hop. by apply Hop. }
  cbn [eo_result eo_txn eo_log].
  unfold execute_batch_inserts. cbn [working committed].
  destruct inserts as [|i0 rest'] eqn:Ei.
  { cbn [eo_txn committed eo_result bo_registry bo_status].
    exists kept, (@nil dict). rewrite app_nil_r.
    repeat split; try done; simpl; lia. }
  rewrite <- Ei in *.
  destruct (run_inserts_appends inserts kept []) as (added & Hrun & Hsub).
  destruct (run_inserts db_sql_insert inserts kept []) as [[db log] r] eqn:Er.
  simpl in Hrun. subst db.
  destruct r as [[]|e];
    cbn [eo_txn committed eo_result db_commit db_rollback working bo_registry bo_status].
  - exists kept, added. split; [done|]. split; [done|]. split; [done|].
    split; [|split; [|done]].
    + apply sublist_length in Hsub. rewrite length_fmap in Hsub. lia.
    + apply Forall_forall. intros row Hrow.
      assert (row ∈ ins_values <$> inserts) as Hin by by eapply elem_of_sublist.
      apply list_elem_of_fmap in Hin as (i & -> & Hin).
      exists i. split; [|done]. by eapply Forall_forall in FI.
  - exists kept, (@nil dict). rewrite app_nil_r. repeat split; try done; simpl; lia.
Qed.

Lemma insert_synthetic taken fuel new_name now mmsi vessel_data i :
  prepare_vessel_insert taken fuel new_name now mmsi vessel_data = Ok i →
  genuine_imo vessel_data = None →
  synthetic_row mmsi (ins_values i).
Proof.
  intros Hi Hg. exists (insert_imo_number taken fuel mmsi vessel_data).
  assert (∀ k, k ∈ ["ais_mmsi"; "imo_number"] →
            ins_values i !! k
            = insert_base new_name ""
                (insert_imo_number taken fuel mmsi vessel_data) mmsi now !! k) as Hfix.
  { intros k Hk.
    destruct (prepare_vessel_insert_fixed _ _ _ _ _ _ _ k Hi) as (n & _ & Hv).
    { repeat (apply elem_of_cons in Hk as [->|Hk];
              [rewrite !not_elem_of_cons; repeat split; try done; apply not_elem_of_nil|]).
      by apply elem_of_nil in Hk. }
    rewrite Hv. unfold insert_base.
    repeat (apply elem_of_cons in Hk as [->|Hk];
            [rewrite ?lookup_insert_ne by done; by rewrite !lookup_insert_eq|]).
    by apply elem_of_nil in Hk. }
  split; [|split].
  - rewrite Hfix by in_list. unfold insert_base.
    rewrite !lookup_insert_ne by done. by rewrite lookup_insert_eq.
  - unfold insert_imo_number. rewrite Hg, startswith_append.
    destruct (free_imo_first_free taken ("AIS-" ++ mmsi)%string fuel 0)
      as (m & _ & Heq & _).
    cbn [imo_candidate Nat.add] in Heq. change (Z.of_nat 1) with 1%Z in Heq.
    rewrite Heq. destruct m as [|m]; unfold imo_candidate.
    + apply startswith_append.
    + unfold startswith. simpl.
      match goal with |- String.prefix "" ?t = true => by destruct t end.
  - rewrite Hfix by in_list. unfold insert_base.
    rewrite !lookup_insert_ne by done. by rewrite lookup_insert_eq.
Qed.

(** X15: a batch never deletes a vessel and never changes what identifies or
    dates its row.  After any batch the registry is its old rows, in order,
    with the same [name], [creation], [owner], [grt] and [dwt], followed by
    the rows added, at most one per record of the batch; and a batch that
    ends with an error has added no row. *)
Theorem batch_never_deletes_or_rekeys (reg : registry) vessel_cache envs vessels_data :
  ∃ kept added,
    bo_registry (update_vessel_ais_batch reg vessel_cache envs vessels_data)
    = kept ++ added
    ∧ length kept = length reg
    ∧ (∀ col, col ∈ protected_columns → column_of col kept = column_of col reg)
    ∧ length added ≤ length vessels_data
    ∧ (∀ e, bo_status (update_vessel_ais_batch reg vessel_cache envs vessels_data)
            = Raise e → added = []).
Proof.
  destruct (batch_registry_shape protected_columns (fun _ => True) reg vessel_cache envs
              vessels_data) as (kept & added & Hreg & Hlen & Hcol & Hadd & _ & Herr).
  - intros ev vd env c c' op _ Hstep col Hcol.
    apply batch_step_update_op in Hstep as [(er & d & Hd & -> & _)|(er & u & Hu & ->)];
      simpl.
    + by eapply prepare_mmsi_update_leaves.
    + eapply prepare_vessel_update_leaves; [exact Hu|by left].
  - done.
  - by exists kept, added.
Qed.

(** X16: the legacy entry point [update_vessel_ais] has no IMO parameter, so
    it never merges identities: whatever its arguments, the rows of the
    registry keep their [name], [ais_mmsi] and [imo_number], at most one row
    is added, and a row it adds carries the mmsi of the call and a synthetic
    IMO number [AIS-...]. *)
Theorem legacy_update_leaves_identity (reg : registry) vessel_cache envs
    mmsi latitude longitude speed course status vessel_name destination :
  ∃ kept added,
    bo_registry (update_vessel_ais reg vessel_cache envs mmsi latitude longitude speed
                   course status vessel_name destination) = kept ++ added
    ∧ length kept = length reg
    ∧ (∀ col, col ∈ ["name"; "ais_mmsi"; "imo_number"] →
         column_of col kept = column_of col reg)
    ∧ length added ≤ 1
    ∧ Forall (synthetic_row (py_str mmsi)) added.
Proof.
  unfold update_vessel_ais.
  set (vessel_data := <["mmsi" := mmsi]> _).
  assert (genuine_imo vessel_data = None) as Hg.
  { unfold genuine_imo, dget. subst vessel_data.
    rewrite !lookup_insert_ne by done. by rewrite lookup_empty. }
  assert (dget vessel_data "mmsi" = mmsi) as Hm.
  { unfold dget. subst vessel_data. by rewrite lookup_insert_eq. }
  clearbody vessel_data.
  destruct (batch_registry_shape ["name"; "ais_mmsi"; "imo_number"]
              (fun i => synthetic_row (py_str mmsi) (ins_values i))
              reg vessel_cache envs [vessel_data])
    as (kept & added & Hreg & Hlen & Hcol & Hadd & Hrows & _).
  - intros ev vd env c c' op ->%list_elem_of_singleton Hstep col Hcol.
    apply batch_step_update_op in Hstep as [(er & d & Hd & -> & Hs)|(er & u & Hu & ->)].
    { rewrite Hg in Hs. by destruct Hs. }
    simpl. eapply prepare_vessel_update_leaves; [exact Hu|].
    repeat (apply elem_of_cons in Hcol as [->|Hcol]);
      [left; in_list | right; by left | right; right; done | by apply elem_of_nil in Hcol].
  - intros ev vd env c c' i ->%list_elem_of_singleton Hstep.
    apply batch_step_insert in Hstep. rewrite Hm in Hstep.
    by eapply insert_synthetic.
  - exists kept, added. split; [done|]. split; [done|]. split; [done|]. split; [done|].
    eapply Forall_impl; [exact Hrows|]. by intros row (i & Hi & ->).
Qed.

End BatchFrame.

(** An instance of X16: the legacy call for a vessel that the registry does
    not know adds one row with the IMO number [AIS-<mmsi>]. *)
Example legacy_update_of_new_vessel :
  (fun row : dict => (dget row "ais_mmsi", dget row "imo_number"))
    <$> bo_registry (update_vessel_ais (H := example_runtime) Examples.merge_registry []
                       (fun _ => Examples.at_1000) (PStr "403456789") (PFloat 21.5)
                       (PFloat 39.2) PNone PNone PNone PNone PNone)
  = [(PStr "111", PStr "9123456"); (PStr "403456789", PStr "AIS-403456789")].
Proof. vm_compute. reflexivity. Qed.

(** ** Link records *)

Section LinkRecordFacts.
Context {DB : Type}.
Variable link_exists : DB → string → string → bool + string.
Variable link_insert : DB → string → string → DB + string.

(** X17: what [create_or_get_link_record] returns and when it writes.  A
    value that is not a string and not false raises [AttributeError] before
    anything is looked up.  Otherwise the call returns normally, a failure of
    the store included: the result is nothing, or the trimmed value, which is
    then not empty.  The store changes only when a record of the doctype
    [Call Sign] or [Vessel Type] was missing and its creation succeeded; the
    change is committed. *)
Theorem link_record_result doctype field_value (t : Txn DB) :
  let out := create_or_get_link_record link_exists link_insert doctype field_value t in
  match field_value with
  | PStr _ | PNone => ∃ r, lo_result out = Ok r
  | v => if truthy v then out = {| lo_txn := t; lo_log := [];
                                   lo_result := Raise AttributeError |}
         else out = {| lo_txn := t; lo_log := []; lo_result := Ok None |}
  end
  ∧ (∀ v, lo_result out = Ok (Some v) →
       ∃ s, field_value = PStr s ∧ v = strip s ∧ v ≠ "")
  ∧ (lo_txn out = t
     ∨ ∃ s db, field_value = PStr s
               ∧ doctype ∈ ["Call Sign"; "Vessel Type"]
               ∧ link_exists (working t) doctype (strip s) = inl false
               ∧ link_insert (working t) doctype (strip s) = inl db
               ∧ lo_txn out = {| committed := db; working := db |}
               ∧ lo_result out = Ok (Some (strip s))).
Proof.
  simpl. unfold create_or_get_link_record.
  destruct field_value as [|z|f|s|d]; simpl.
  - split; [by eexists|]. split; [done|by left].
  - destruct (negb (z =? 0)%Z); simpl; (split; [done|]); (split; [done|by left]).
  - destruct (negb (PrimFloat.eqb f 0)); simpl; (split; [done|]); (split; [done|by left]).
  - destruct (negb (String.eqb s "")); simpl;
      [|split; [by eexists|]; split; [done|by left]].
    destruct (String.eqb (strip s) "") eqn:Es; simpl.
    { split; [by eexists|]. split; [done|by left]. }
    apply String.eqb_neq in Es.
    destruct (link_exists (working t) doctype (strip s)) as [[]|msg] eqn:Ee; simpl.
    + split; [by eexists|]. split; [|by left]. intros v [= <-]. by exists s.
    + destruct (bool_decide (doctype ∈ ["Call Sign"; "Vessel Type"])) eqn:Ed; simpl.
      * apply bool_decide_eq_true in Ed.
        destruct (link_insert (working t) doctype (strip s)) as [db|msg] eqn:Ei; simpl.
        -- split; [by eexists|]. split; [intros v [= <-]; by exists s|].
           right. by exists s, db.
        -- split; [by eexists|]. split; [done|by left].
      * split; [by eexists|]. split; [done|by left].
    + split; [by eexists|]. split; [done|by left].
  - split; [done|]. split; [done|by left].
Qed.

(** X18: [create_or_get_link_record] is idempotent on a store that finds
    what has been inserted into it: after a call that returned a value, the
    same call returns the same value and neither writes nor prints. *)
Theorem link_record_idempotent doctype field_value (t : Txn DB) v :
  (∀ db db' d x, link_insert db d x = inl db' → link_exists db' d x = inl true) →
  lo_result (create_or_get_link_record link_exists link_insert doctype field_value t)
    = Ok (Some v) →
  create_or_get_link_record link_exists link_insert doctype field_value
    (lo_txn (create_or_get_link_record link_exists link_insert doctype field_value t))
  = {| lo_txn := lo_txn (create_or_get_link_record link_exists link_insert doctype
                           field_value t);
       lo_log := []; lo_result := Ok (Some v) |}.
Proof.
  intros Hstore. unfold create_or_get_link_record.
  destruct (negb (truthy field_value)); [done|].
  destruct (py_strip field_value) as [s|e]; [|done].
  destruct (String.eqb s ""); [done|].
  destruct (link_exists (working t) doctype s) as [[]|msg] eqn:Ee; simpl; [| |done].
  - intros [= <-]. by rewrite Ee.
  - destruct (bool_decide (doctype ∈ ["Call Sign"; "Vessel Type"])); [|done].
    destruct (link_insert (working t) doctype s) as [db|msg] eqn:Ei; simpl; [|done].
    intros [= <-]. by rewrite (Hstore _ _ _ _ Ei).
Qed.

End LinkRecordFacts.

(** Witness of X18: a call sign with blanks around it, on an empty store. *)
Lemma link_record_idempotent_witness :
  create_or_get_link_record Examples.pairs_exists Examples.pairs_insert "Call Sign" (PStr " HZAB ")
    (lo_txn (create_or_get_link_record Examples.pairs_exists Examples.pairs_insert "Call Sign"
               (PStr " HZAB ") {| committed := []; working := [] |}))
  = {| lo_txn := lo_txn (create_or_get_link_record Examples.pairs_exists Examples.pairs_insert "Call Sign"
                           (PStr " HZAB ") {| committed := []; working := [] |});
       lo_log := []; lo_result := Ok (Some "HZAB") |}.
Proof.
  apply (link_record_idempotent Examples.pairs_exists Examples.pairs_insert "Call Sign" (PStr " HZAB ")
           {| committed := []; working := [] |} "HZAB").
  - intros db db' d x. unfold Examples.pairs_insert, Examples.pairs_exists.
    destruct (140 <? String.length x); [done|]. intros [= <-].
    f_equal. apply bool_decide_eq_true. apply elem_of_app. right. apply list_elem_of_here.
  - vm_compute. reflexivity.
Defined.

(** An instance of X17: the record is created and committed, and a doctype
    other than the two is never created. *)
Example link_record_created_once :
  lo_txn (create_or_get_link_record Examples.pairs_exists Examples.pairs_insert "Call Sign" (PStr " HZAB ")
            {| committed := []; working := [] |})
  = {| committed := [("Call Sign", "HZAB")]; working := [("Call Sign", "HZAB")] |}
  ∧ create_or_get_link_record Examples.pairs_exists Examples.pairs_insert "Port" (PStr "Jeddah")
      {| committed := []; working := [] |}
    = {| lo_txn := {| committed := []; working := [] |}; lo_log := [];
         lo_result := Ok None |}.
Proof. split; vm_compute; reflexivity. Qed.

(** ** Vessels near a port *)

Lemma od_get_notin_None {V} k (d : list (string * V)) : k ∉ d.*1 → od_get k d = None.
Proof.
  induction d as [|[k' v] d IH]; simpl; [done|].
  intros [Hne Hn]%not_elem_of_cons.
  destruct (String.eqb k' k) eqn:E; [|by apply IH].
  apply String.eqb_eq in E. congruence.
Qed.

Lemma list_to_map_columns (cols : list string) (row : dict) c :
  c ∈ cols →
  (list_to_map ((fun c => (c, dget row c)) <$> cols) : dict) !! c = Some (dget row c).
Proof.
  induction cols as [|c' cols IH]; [by intros ?%elem_of_nil|].
  rewrite fmap_cons. cbn [list_to_map foldr uncurry]. fold (@list_to_map string pyval dict _ _).
  destruct (decide (c = c')) as [->|Hne]; [by rewrite lookup_insert_eq|].
  intros [?|Hin]%elem_of_cons; [done|].
  rewrite lookup_insert_ne by done. by apply IH.
Qed.

Lemma near_record_get row c : c ∈ near_columns → dget (near_record row) c = dget row c.
Proof.
  intros Hc. unfold dget at 1, near_record. by rewrite list_to_map_columns.
Qed.

Lemma insert_asc_Forall (P : dict → Prop) x l :
  P x → Forall P l → Forall P (insert_asc x l).
Proof.
  intros Hx Hl. induction Hl as [|y l Hy Hl IH]; simpl; [by constructor|].
  destruct (PrimFloat.ltb _ _); by repeat constructor.
Qed.

Lemma sorted_asc_Forall (P : dict → Prop) l : Forall P l → Forall P (sorted_asc l).
Proof.
  intros Hl. induction Hl as [|x l Hx Hl IH]; simpl; [done|].
  by apply insert_asc_Forall.
Qed.

Section NearPortFacts.
Context `{PyRuntime} `{MathLib}.

Lemma or_raise_inv {A} e (r : option A) e' : or_raise e r = Raise e' → e' = e.
Proof. destruct r; simpl; [done|]. by intros [= <-]. Qed.

Lemma calculate_distance_km_raise lat1 lon1 lat2 lon2 e :
  calculate_distance_km lat1 lon1 lat2 lon2 = Raise e →
  e = TypeError ∨ e = ValueError ∨ e = OverflowError.
Proof.
  unfold calculate_distance_km.
  repeat match goal with
         | |- (py_float ?v ≫= _) = _ → _ =>
             let E := fresh "E" in
             destruct (py_float v) eqn:E; simpl;
             [|intros [= <-]; apply py_float_raise in E; tauto]
         | |- (or_raise ?x ?r ≫= _) = _ → _ =>
             let E := fresh "E" in
             destruct (or_raise x r) eqn:E; simpl;
             [|intros [= <-]; apply or_raise_inv in E; subst; tauto]
         end.
  done.
Qed.

(** What [near_step] does with a vessel. *)
Lemma near_step_inv port_coords radius_km vessel r :
  near_step port_coords radius_km vessel = r →
  match r with
  | Ok (Some v) =>
      truthy (dget vessel "ais_last_position_lat") = true
      ∧ truthy (dget vessel "ais_last_position_lon") = true
      ∧ ∃ lat lon distance,
          py_float (dget vessel "ais_last_position_lat") = Ok lat
          ∧ py_float (dget vessel "ais_last_position_lon") = Ok lon
          ∧ calculate_distance_km (dget port_coords "lat") (dget port_coords "lon")
              (PFloat lat) (PFloat lon) = Ok distance
          ∧ py_float_le distance radius_km = Ok true
          ∧ v = <["distance_to_port" := PFloat (round2 distance)]> vessel
  | Ok None => True
  | Raise e => e = OverflowError
  end.
Proof.
  unfold near_step. intros <-.
  destruct (truthy (dget vessel "ais_last_position_lat")) eqn:Tlat; [|done].
  destruct (truthy (dget vessel "ais_last_position_lon")) eqn:Tlon; [|done].
  cbn [andb].
  destruct (py_float (dget vessel "ais_last_position_lat")) as [lat|e] eqn:Elat; simpl.
  2: { apply py_float_raise in Elat as [->|[->|[-> _]]]; done. }
  destruct (py_float (dget vessel "ais_last_position_lon")) as [lon|e] eqn:Elon; simpl.
  2: { apply py_float_raise in Elon as [->|[->|[-> _]]]; done. }
  destruct (calculate_distance_km _ _ _ _) as [distance|e] eqn:Ed; simpl.
  2: { apply calculate_distance_km_raise in Ed as [->|[->| ->]]; done. }
  destruct (py_float_le distance radius_km) as [[]|e] eqn:Er; simpl.
  - split; [done|]. split; [done|]. by exists lat, lon, distance.
  - done.
  - destruct radius_km; simpl in Er; try done; by injection Er as <-.
Qed.

Lemma near_loop_inv (P : dict → Prop) port_coords radius_km vessels acc :
  Forall P acc →
  (∀ vessel v, vessel ∈ vessels →
     near_step port_coords radius_km vessel = Ok (Some v) → P v) →
  match near_loop port_coords radius_km vessels acc with
  | Ok nearby_vessels => Forall P nearby_vessels
  | Raise e => e = OverflowError
  end.
Proof.
  revert acc. induction vessels as [|vessel rest IH]; intros acc Hacc Hstep; simpl; [done|].
  pose proof (near_step_inv port_coords radius_km vessel _ eq_refl) as Hinv.
  destruct (near_step port_coords radius_km vessel) as [[v|]|e] eqn:Es; simpl; [| |done].
  - apply IH.
    + apply Forall_app. split; [done|]. constructor; [|done].
      eapply Hstep; [apply list_elem_of_here|done].
    + intros vessel' v' Hin. apply Hstep. by apply list_elem_of_further.
  - apply IH; [done|].
    intros vessel' v' Hin. apply Hstep. by apply list_elem_of_further.
Qed.

(** X19: what [get_vessels_near_port] lists.  The answer names the port
    asked for, which is one of the table, and holds at most 20 vessels; each
    is a row of the registry, with the columns of the query, whose latitude
    and longitude are both neither null nor zero and convert to numbers,
    whose distance to the port as [calculate_distance_km] computes it is at
    most the radius, and which carries that distance rounded to two
    digits. *)
Theorem near_port_lists_rows_within_radius
    (reg : registry) port_name radius_km port vessels :
  get_vessels_near_port reg port_name radius_km = NearVessels port vessels →
  port = port_name
  ∧ length vessels ≤ 20
  ∧ ∃ port_coords,
      od_get port_name saudi_ports = Some port_coords
      ∧ Forall (fun v =>
                  ∃ row lat lon distance,
                    row ∈ reg
                    ∧ truthy (dget row "ais_last_position_lat") = true
                    ∧ truthy (dget row "ais_last_position_lon") = true
                    ∧ py_float (dget row "ais_last_position_lat") = Ok lat
                    ∧ py_float (dget row "ais_last_position_lon") = Ok lon
                    ∧ calculate_distance_km (dget port_coords "lat")
                        (dget port_coords "lon") (PFloat lat) (PFloat lon) = Ok distance
                    ∧ py_float_le distance radius_km = Ok true
                    ∧ v = <["distance_to_port" := PFloat (round2 distance)]>
                            (near_record row)) vessels.
Proof.
  unfold get_vessels_near_port.
  destruct (od_get port_name saudi_ports) as [port_coords|]; [|done].
  destruct (near_loop _ _ _ _) as [nearby|e] eqn:El; [|done].
  intros [= <- <-]. split; [done|]. split; [rewrite length_take; lia|].
  exists port_coords. split; [done|].
  apply Forall_take, sorted_asc_Forall.
  pose proof (near_loop_inv
                (fun v =>
                   ∃ row lat lon distance,
                     row ∈ reg
                     ∧ truthy (dget row "ais_last_position_lat") = true
                     ∧ truthy (dget row "ais_last_position_lon") = true
                     ∧ py_float (dget row "ais_last_position_lat") = Ok lat
                     ∧ py_float (dget row "ais_last_position_lon") = Ok lon
                     ∧ calculate_distance_km (dget port_coords "lat")
                         (dget port_coords "lon") (PFloat lat) (PFloat lon) = Ok distance
                     ∧ py_float_le distance radius_km = Ok true
                     ∧ v = <["distance_to_port" := PFloat (round2 distance)]>
                             (near_record row))
                port_coords radius_km (db_get_all_positions reg) []) as Hinv.
  rewrite El in Hinv. apply Hinv; [constructor|].
  intros vessel v Hin Hstep.
  apply list_elem_of_fmap in Hin as (row & -> & Hrow).
  apply list_elem_of_In, filter_In in Hrow as [Hrow%list_elem_of_In _].
  pose proof (near_step_inv _ _ _ _ Hstep) as (Tlat & Tlon & lat & lon & d & Elat & Elon
                                               & Ed & Er & ->).
  rewrite near_record_get in Tlat, Tlon, Elat, Elon by in_list.
  exists row, lat, lon, d. repeat (split; [assumption|]). reflexivity.
Qed.

(** X20: the two port tables agree.  [get_vessels_near_port] answers
    [Port not found] exactly for the names that [get_saudi_ports] does not
    list, whatever the registry and the radius are. *)
Theorem port_not_found_iff_unlisted (reg : registry) port_name radius_km :
  get_vessels_near_port reg port_name radius_km = NearError "Port not found"
  ↔ PStr port_name ∉ (fun port : dict => dget port "name") <$> get_saudi_ports.
Proof.
  assert ((fun port : dict => dget port "name") <$> get_saudi_ports
          = PStr <$> saudi_ports.*1) as -> by (vm_compute; reflexivity).
  unfold get_vessels_near_port. split.
  - destruct (od_get port_name saudi_ports) as [port_coords|] eqn:Eg.
    + pose proof (near_loop_inv (fun _ => True) port_coords radius_km
                    (db_get_all_positions reg) []) as Hinv.
      destruct (near_loop _ _ _ _) as [nearby|e]; [done|].
      rewrite Hinv by (try constructor; done). done.
    + intros _ Hin. apply list_elem_of_fmap in Hin as (k & [= <-] & Hin).
      by apply od_get_None_notin in Eg.
  - intros Hn. rewrite od_get_notin_None; [done|].
    intros Hin. apply Hn. apply list_elem_of_fmap. by exists port_name.
Qed.

(** X21: a radius that is not a number matches no vessel.  When the radius
    arrives as text (or as null), the comparison of line 84 raises for every
    vessel with a position and the inner handler drops the vessel: for a
    port of the table the answer is an empty list, unless a coordinate too
    large for a float ends the request with an error. *)
Theorem text_radius_matches_nothing (reg : registry) port_name radius_km :
  is_number radius_km = false →
  is_Some (od_get port_name saudi_ports) →
  get_vessels_near_port reg port_name radius_km = NearVessels port_name []
  ∨ get_vessels_near_port reg port_name radius_km = NearError (exn_str OverflowError).
Proof.
  intros Hr [port_coords Hp]. unfold get_vessels_near_port. rewrite Hp.
  pose proof (near_loop_inv (fun _ => False) port_coords radius_km
                (db_get_all_positions reg) []) as Hinv.
  assert (∀ vessel v : dict,
            vessel ∈ db_get_all_positions reg →
            near_step port_coords radius_km vessel = Ok (Some v) → False) as Hnone.
  { intros vessel v' _ Hstep.
    pose proof (near_step_inv _ _ _ _ Hstep)
      as (_ & _ & lat & lon & d & _ & _ & _ & Er & _).
    by destruct radius_km. }
  specialize (Hinv ltac:(constructor) Hnone).
  destruct (near_loop _ _ _ _) as [nearby|e].
  - left. destruct nearby as [|v nearby]; [done|]. by inversion Hinv.
  - right. by rewrite Hinv.
Qed.

End NearPortFacts.

(** Witness of X19: the vessel off Jeddah is listed; the vessel without a
    position and the vessel on the equator are not. *)
Lemma near_port_lists_rows_within_radius_witness :
  ∃ vessels,
    get_vessels_near_port (H := example_runtime) (H0 := Examples.example_math)
      Examples.port_registry "Jeddah" (PInt 100000) = NearVessels "Jeddah" vessels
    ∧ (fun v : dict => dget v "name") <$> vessels = [PStr "r1"]
    ∧ "Jeddah" = "Jeddah"
    ∧ length vessels ≤ 20
    ∧ ∃ port_coords,
        od_get "Jeddah" saudi_ports = Some port_coords
        ∧ Forall (fun v =>
                    ∃ row lat lon distance,
                      row ∈ Examples.port_registry
                      ∧ truthy (dget row "ais_last_position_lat") = true
                      ∧ truthy (dget row "ais_last_position_lon") = true
                      ∧ py_float (H := example_runtime) (dget row "ais_last_position_lat")
                        = Ok lat
                      ∧ py_float (H := example_runtime) (dget row "ais_last_position_lon")
                        = Ok lon
                      ∧ calculate_distance_km (H := example_runtime)
                          (H0 := Examples.example_math) (dget port_coords "lat")
                          (dget port_coords "lon") (PFloat lat) (PFloat lon) = Ok distance
                      ∧ py_float_le distance (PInt 100000) = Ok true
                      ∧ v = <["distance_to_port" :=
                                PFloat (round2 (MathLib := Examples.example_math) distance)]>
                              (near_record row)) vessels.
Proof.
  eexists. split; [vm_compute; reflexivity|]. split; [vm_compute; reflexivity|].
  apply (near_port_lists_rows_within_radius (H := example_runtime)
           (H0 := Examples.example_math) Examples.port_registry "Jeddah" (PInt 100000)).
  vm_compute. reflexivity.
Defined.

(** Witness of X21: the radius [100] arriving as text. *)
Lemma text_radius_matches_nothing_witness :
  get_vessels_near_port (H := example_runtime) (H0 := Examples.example_math)
    Examples.port_registry "Jeddah" (PStr "100") = NearVessels "Jeddah" []
  ∨ get_vessels_near_port (H := example_runtime) (H0 := Examples.example_math)
      Examples.port_registry "Jeddah" (PStr "100") = NearError (exn_str OverflowError).
Proof.
  apply (text_radius_matches_nothing (H := example_runtime) (H0 := Examples.example_math)
           Examples.port_registry "Jeddah" (PStr "100")).
  - reflexivity.
  - vm_compute. by eexists.
Defined.
